(** * Dataset catalogue of the GA4GH server: ga4gh/datamodel/datasets.py

    A shallow embedding of [AbstractDataset], [SimulatedDataset] and
    [FileSystemDataset], with the Python library functions the loader
    calls ([os.path.join], [os.path.splitext], [fnmatch.fnmatch],
    [os.listdir], [os.path.isdir], [os.path.isfile], [json.load]) and the
    properties of the catalogue proved over it.

    Python dicts are [gmap]s, Python lists are [list]s, Python ints are
    [Z], and a method is a function in a state-and-exception monad over
    the dataset object: an exception leaves the mutations done so far in
    place, as in Python. *)

From Stdlib Require Import ZArith Ascii String.
From stdpp Require Import gmap strings list fin_maps pretty.

Local Open Scope Z_scope.

(** ** Python values and exceptions *)

(** What [json.load] returns. JSON [null] becomes [None], which is also the
    value [AbstractDataset.__init__] gives to [_description].  Numbers keep
    their literal text; a dict is the list of its items, keys distinct. *)
#[warnings="-register-all"]
Inductive json : Type :=
  | JNone
  | JBool (b : bool)
  | JNumber (literal : string)
  | JString (s : string)
  | JList (items : list json)
  | JDict (items : list (string * json)).

(** The exceptions that can leave the methods of this file.  The
    [...NotFoundException]s and [MissingDatasetMetadataException] are those
    of [ga4gh.exceptions] the source names; [ReadGroupSetNotFoundException]
    is named by the docstring of [getReadGroupSet] only.  [KeyError],
    [IndexError], [TypeError] and [OSError] are Python's own, and
    [CollaboratorError] stands for whatever a resource constructor or the
    JSON reader raises. *)
Inductive exn : Type :=
  | VariantSetNotFoundException (id_ : string)
  | ReadGroupSetNotFoundException (id_ : string)
  | ReadGroupNotFoundException (id_ : string)
  | ReadGroupSetNameNotFoundException (name : string)
  | RnaQuantificationNotFoundException (id_ : string)
  | SequenceAnnotationNotFoundException (id_ : string)
  | MissingDatasetMetadataException (fileName : string) (key : string)
  | KeyError (key : string)
  | IndexError
  | TypeError
  | OSError (path : string)
  | CollaboratorError (message : string).

(** The result of a Python call: a value, or a raised exception. *)
Inductive outcome (A : Type) : Type :=
  | Returns (a : A)
  | Raises (e : exn).
Arguments Returns {A} a.
Arguments Raises {A} e.

Definition returned {A} (o : outcome A) : Prop :=
  match o with Returns _ => True | Raises _ => False end.

Definition raised {A} (o : outcome A) : Prop :=
  match o with Returns _ => False | Raises _ => True end.

(** ** Python built-ins *)

(** [d[k]] on a dict. *)
Definition dict_getitem {V} (d : gmap string V) (k : string) : outcome V :=
  match d !! k with
  | Some v => Returns v
  | None => Raises (KeyError k)
  end.

(** [l[i]] on a list: a negative index counts from the end. *)
Definition list_getitem {A} (l : list A) (i : Z) : outcome A :=
  let n := Z.of_nat (length l) in
  let j := if i <? 0 then i + n else i in
  if (j <? 0) || (n <=? j) then Raises IndexError
  else match l !! Z.to_nat j with
       | Some a => Returns a
       | None => Raises IndexError
       end.

(** [[f(x) for x in l]], stopping at the first exception. *)
Fixpoint comprehension {A B} (f : A → outcome B) (l : list A)
    : outcome (list B) :=
  match l with
  | [] => Returns []
  | x :: l' =>
      match f x with
      | Raises e => Raises e
      | Returns y =>
          match comprehension f l' with
          | Raises e => Raises e
          | Returns ys => Returns (y :: ys)
          end
      end
  end.

(** [range(n)]: empty when [n <= 0]. *)
Definition range (n : Z) : list Z := seqZ 0 n.

(** [metadata[key]] on a value read from JSON, with a [str] key. *)
Fixpoint items_lookup (items : list (string * json)) (key : string)
    : option json :=
  match items with
  | [] => None
  | (k, v) :: items' => if decide (k = key) then Some v
                        else items_lookup items' key
  end.

Definition json_getitem (j : json) (key : string) : outcome json :=
  match j with
  | JDict items =>
      match items_lookup items key with
      | Some v => Returns v
      | None => Raises (KeyError key)
      end
  | _ => Raises TypeError
  end.

(** ** String functions of the Python library (POSIX flavour) *)

Module py_str.

(** [s.rfind(c)] for a one-character [c]: the last index, or -1. *)
Fixpoint rfind (c : ascii) (s : string) : Z :=
  match s with
  | EmptyString => -1
  | String a s' =>
      let r := rfind c s' in
      if 0 <=? r then r + 1
      else if decide (a = c) then 0 else -1
  end.

(** [s[:i]] and [s[i:]] for [0 <= i]. *)
Fixpoint take (i : nat) (s : string) : string :=
  match i, s with
  | S i', String a s' => String a (take i' s')
  | _, _ => EmptyString
  end.

Fixpoint drop (i : nat) (s : string) : string :=
  match i, s with
  | S i', String _ s' => drop i' s'
  | _, _ => s
  end.

Definition startswith (c : ascii) (s : string) : bool :=
  match s with
  | String a _ => bool_decide (a = c)
  | EmptyString => false
  end.

Fixpoint endswith (c : ascii) (s : string) : bool :=
  match s with
  | EmptyString => false
  | String a EmptyString => bool_decide (a = c)
  | String _ s' => endswith c s'
  end.

(** Is there a character other than [c] in [s[lo:hi]]? This is the
    [while] loop of [genericpath._splitext]. *)
Fixpoint other_than (c : ascii) (s : string) (lo hi : nat) : bool :=
  match s, hi with
  | String a s', S hi' =>
      match lo with
      | O => negb (bool_decide (a = c)) || other_than c s' O hi'
      | S lo' => other_than c s' lo' hi'
      end
  | _, _ => false
  end.

End py_str.

Module os_path.

(** [posixpath.join(a, b)]. *)
Definition join (a b : string) : string :=
  if py_str.startswith "/" b then b
  else if bool_decide (a = "") || py_str.endswith "/" a then a +:+ b
  else a +:+ "/" +:+ b.

(** [posixpath.splitext(p)], that is [genericpath._splitext(p, '/',
    None, '.')]: the extension starts at the last dot of the last path
    component, unless only dots precede it there. *)
Definition splitext (p : string) : string * string :=
  let sepIndex := py_str.rfind "/" p in
  let dotIndex := py_str.rfind "." p in
  if (sepIndex <? dotIndex)
     && py_str.other_than "." p (Z.to_nat (sepIndex + 1)) (Z.to_nat dotIndex)
  then (py_str.take (Z.to_nat dotIndex) p, py_str.drop (Z.to_nat dotIndex) p)
  else (p, "").

End os_path.

Module fnmatch.

(** [fnmatch.fnmatch(name, pat)] on POSIX, where [os.path.normcase] is the
    identity, so that matching is case-sensitive.  [*] matches any run of
    characters and [?] any single one; every other character matches
    itself (bracket expressions are not modelled: the one pattern of the
    source, [*.bam], has none). *)
Fixpoint fnmatch_from (pat name : string) : bool :=
  match pat with
  | EmptyString => bool_decide (name = "")
  | String "*" pat' =>
      (fix star (name : string) : bool :=
         fnmatch_from pat' name
         || match name with
            | EmptyString => false
            | String _ name' => star name'
            end) name
  | String "?" pat' =>
      match name with
      | EmptyString => false
      | String _ name' => fnmatch_from pat' name'
      end
  | String c pat' =>
      match name with
      | EmptyString => false
      | String a name' => bool_decide (a = c) && fnmatch_from pat' name'
      end
  end.

Definition fnmatch (name pat : string) : bool := fnmatch_from pat name.

End fnmatch.

(** ** The file system *)

(** What the loader sees of the file system: a path is absent, a file (of
    which only the result of [json.load] matters here) or a directory with
    its entries in the order [os.listdir] gives them. *)
Inductive node : Type :=
  | File (content : outcome json)
  | Directory (entries : list string).

Definition isfile (fs : gmap string node) (path : string) : bool :=
  match fs !! path with Some (File _) => true | _ => false end.

Definition isdir (fs : gmap string node) (path : string) : bool :=
  match fs !! path with Some (Directory _) => true | _ => false end.

Definition listdir (fs : gmap string node) (path : string)
    : outcome (list string) :=
  match fs !! path with
  | Some (Directory entries) => Returns entries
  | _ => Raises (OSError path)
  end.

(** [with open(path) as f: json.load(f)]. *)
Definition json_load (fs : gmap string node) (path : string) : outcome json :=
  match fs !! path with
  | Some (File content) => content
  | _ => Raises (OSError path)
  end.

(** [str(err)] for the [KeyError] of a missing [unicode] key (the module
    has [unicode_literals]): the [repr] of the key. *)
Definition str_KeyError (key : string) : string := "u'" +:+ key +:+ "'".

(** ** The data model *)

(** [ga4gh.datamodel.DatamodelObject]: every catalogue entity answers
    [getId()] (its compound id, as a string) and [getLocalId()]. *)
Class DatamodelObject (T : Type) := {
  getId : T → string;
  getLocalId : T → string
}.

(** A dict filled by [d[key(e)] = e] for the entities of a list holds,
    under each key, the last entity with that key. *)
Definition holds_latest {T} (key : T → string) (m : gmap string T)
    (added : list T) : Prop :=
  ∀ k, m !! k = last (filter (λ y, key y = k) added).

(** The entity a collection holds for position [i] after the entities
    [added] were added in that order: the one added last under the id of
    the [i]-th. *)
Definition current {T} `{!DatamodelObject T} (added : list T) (i : nat)
    : option T :=
  match added !! i with
  | Some v => last (filter (λ y, getId y = getId v) added)
  | None => None
  end.

(** A list [l] returned for the entities [added]: position by position the
    entity currently held, hence [added] itself when the ids are distinct. *)
Definition lists_current {T} `{!DatamodelObject T} (added l : list T) : Prop :=
  length l = length added
  ∧ (∀ i, l !! i = current added i)
  ∧ (NoDup (getId <$> added) → l = added).

Section datasets.

Context {VariantSet ReadGroupSet RnaQuantification SequenceAnnotation : Type}.
Context `{!DatamodelObject VariantSet, !DatamodelObject ReadGroupSet,
          !DatamodelObject RnaQuantification,
          !DatamodelObject SequenceAnnotation}.

(** The attributes of an [AbstractDataset] object; [_localId] is the one
    [DatamodelObject.__init__(None, localId)] stores. *)
Record AbstractDataset : Type := mkDataset {
  _localId : string;
  _variantSetIds : list string;
  _variantSetIdMap : gmap string VariantSet;
  _readGroupSetIds : list string;
  _readGroupSetIdMap : gmap string ReadGroupSet;
  _readGroupSetNameMap : gmap string ReadGroupSet;
  _description : json;
  _rnaQuantificationIds : list string;
  _rnaQuantificationIdMap : gmap string RnaQuantification;
  _sequenceAnnotationIds : list string;
  _sequenceAnnotationIdMap : gmap string SequenceAnnotation
}.

(** A method of the dataset: it reads and writes [self] and returns or
    raises.  The state that comes back with an exception is the one the
    exception left behind. *)
Definition method (A : Type) : Type :=
  AbstractDataset → outcome A * AbstractDataset.

Definition method_ret {A} (a : A) : method A := λ self, (Returns a, self).

Definition method_bind {A B} (k : A → method B) (m : method A) : method B :=
  λ self,
    match m self with
    | (Returns a, self') => k a self'
    | (Raises e, self') => (Raises e, self')
    end.

#[global] Instance method_mret : MRet method := @method_ret.
#[global] Instance method_mbind : MBind method := @method_bind.

Definition raise {A} (e : exn) : method A := λ self, (Raises e, self).

(** A call that does not touch [self]. *)
Definition call {A} (o : outcome A) : method A := λ self, (o, self).

Definition this : method AbstractDataset := λ self, (Returns self, self).

Definition assign (f : AbstractDataset → AbstractDataset) : method unit :=
  λ self, (Returns tt, f self).

(** [for x in l: body(x)]. *)
Fixpoint for_in {A} (l : list A) (body : A → method unit) : method unit :=
  match l with
  | [] => mret tt
  | x :: l' => body x ;; for_in l' body
  end.

(** *** AbstractDataset *)

Definition AbstractDataset_init (localId : string) : AbstractDataset :=
  {| _localId := localId;
     _variantSetIds := [];
     _variantSetIdMap := ∅;
     _readGroupSetIds := [];
     _readGroupSetIdMap := ∅;
     _readGroupSetNameMap := ∅;
     _description := JNone;
     _rnaQuantificationIds := [];
     _rnaQuantificationIdMap := ∅;
     _sequenceAnnotationIds := [];
     _sequenceAnnotationIdMap := ∅ |}.

Definition addVariantSet (variantSet : VariantSet) : method unit :=
  let id_ := getId variantSet in
  assign (λ self,
    mkDataset (_localId self)
      (_variantSetIds self ++ [id_])
      (<[id_ := variantSet]> (_variantSetIdMap self))
      (_readGroupSetIds self) (_readGroupSetIdMap self)
      (_readGroupSetNameMap self) (_description self)
      (_rnaQuantificationIds self) (_rnaQuantificationIdMap self)
      (_sequenceAnnotationIds self) (_sequenceAnnotationIdMap self)).

Definition addReadGroupSet (readGroupSet : ReadGroupSet) : method unit :=
  let id_ := getId readGroupSet in
  assign (λ self,
    mkDataset (_localId self)
      (_variantSetIds self) (_variantSetIdMap self)
      (_readGroupSetIds self ++ [id_])
      (<[id_ := readGroupSet]> (_readGroupSetIdMap self))
      (<[getLocalId readGroupSet := readGroupSet]> (_readGroupSetNameMap self))
      (_description self)
      (_rnaQuantificationIds self) (_rnaQuantificationIdMap self)
      (_sequenceAnnotationIds self) (_sequenceAnnotationIdMap self)).

Definition addRnaQuantification (rnaQuant : RnaQuantification) : method unit :=
  let id_ := getId rnaQuant in
  assign (λ self,
    mkDataset (_localId self)
      (_variantSetIds self) (_variantSetIdMap self)
      (_readGroupSetIds self) (_readGroupSetIdMap self)
      (_readGroupSetNameMap self) (_description self)
      (_rnaQuantificationIds self ++ [id_])
      (<[id_ := rnaQuant]> (_rnaQuantificationIdMap self))
      (_sequenceAnnotationIds self) (_sequenceAnnotationIdMap self)).

Definition addSequenceAnnotation (annotation : SequenceAnnotation)
    : method unit :=
  let id_ := getId annotation in
  assign (λ self,
    mkDataset (_localId self)
      (_variantSetIds self) (_variantSetIdMap self)
      (_readGroupSetIds self) (_readGroupSetIdMap self)
      (_readGroupSetNameMap self) (_description self)
      (_rnaQuantificationIds self) (_rnaQuantificationIdMap self)
      (_sequenceAnnotationIds self ++ [id_])
      (<[id_ := annotation]> (_sequenceAnnotationIdMap self))).

Definition getVariantSets : method (list VariantSet) :=
  self ← this;
  call (comprehension (dict_getitem (_variantSetIdMap self))
          (_variantSetIds self)).

Definition getNumVariantSets : method Z :=
  self ← this; mret (Z.of_nat (length (_variantSetIds self))).

Definition getVariantSet (id_ : string) : method VariantSet :=
  self ← this;
  if bool_decide (_variantSetIdMap self !! id_ = None)
  then raise (VariantSetNotFoundException id_)
  else call (dict_getitem (_variantSetIdMap self) id_).

Definition getVariantSetByIndex (index : Z) : method VariantSet :=
  self ← this;
  id_ ← call (list_getitem (_variantSetIds self) index);
  call (dict_getitem (_variantSetIdMap self) id_).

Definition getNumReadGroupSets : method Z :=
  self ← this; mret (Z.of_nat (length (_readGroupSetIds self))).

Definition getReadGroupSets : method (list ReadGroupSet) :=
  self ← this;
  call (comprehension (dict_getitem (_readGroupSetIdMap self))
          (_readGroupSetIds self)).

Definition getReadGroupSetByName (name : string) : method ReadGroupSet :=
  self ← this;
  if bool_decide (_readGroupSetNameMap self !! name = None)
  then raise (ReadGroupSetNameNotFoundException name)
  else call (dict_getitem (_readGroupSetNameMap self) name).

Definition getReadGroupSetByIndex (index : Z) : method ReadGroupSet :=
  self ← this;
  id_ ← call (list_getitem (_readGroupSetIds self) index);
  call (dict_getitem (_readGroupSetIdMap self) id_).

Definition getReadGroupSet (id_ : string) : method ReadGroupSet :=
  self ← this;
  if bool_decide (_readGroupSetIdMap self !! id_ = None)
  then raise (ReadGroupNotFoundException id_)
  else call (dict_getitem (_readGroupSetIdMap self) id_).

Definition getDescription : method json :=
  self ← this; mret (_description self).

Definition getRnaQuantificationIds : method (list string) :=
  self ← this; mret (_rnaQuantificationIds self).

Definition getRnaQuantificationIdMap
    : method (gmap string RnaQuantification) :=
  self ← this; mret (_rnaQuantificationIdMap self).

Definition getRnaQuantifications : method (list RnaQuantification) :=
  self ← this;
  call (comprehension (dict_getitem (_rnaQuantificationIdMap self))
          (_rnaQuantificationIds self)).

Definition getRnaQuantification (id_ : string) : method RnaQuantification :=
  self ← this;
  if bool_decide (_rnaQuantificationIdMap self !! id_ = None)
  then raise (RnaQuantificationNotFoundException id_)
  else call (dict_getitem (_rnaQuantificationIdMap self) id_).

Definition getSequenceAnnotationIdMap
    : method (gmap string SequenceAnnotation) :=
  self ← this; mret (_sequenceAnnotationIdMap self).

(** Returns the list of ids, not of annotations. *)
Definition getSequenceAnnotations : method (list string) :=
  self ← this; mret (_sequenceAnnotationIds self).

Definition getSequenceAnnotation (id_ : string) : method SequenceAnnotation :=
  self ← this;
  if bool_decide (_sequenceAnnotationIdMap self !! id_ = None)
  then raise (SequenceAnnotationNotFoundException id_)
  else call (dict_getitem (_sequenceAnnotationIdMap self) id_).


(** [self._description = description]. *)
Definition set_description (description : json) : method unit :=
  assign (λ self,
    mkDataset (_localId self)
      (_variantSetIds self) (_variantSetIdMap self)
      (_readGroupSetIds self) (_readGroupSetIdMap self)
      (_readGroupSetNameMap self) description
      (_rnaQuantificationIds self) (_rnaQuantificationIdMap self)
      (_sequenceAnnotationIds self) (_sequenceAnnotationIdMap self)).

(** *** Sequences of add calls *)

Inductive add_call : Type :=
  | AddVariantSet (variantSet : VariantSet)
  | AddReadGroupSet (readGroupSet : ReadGroupSet)
  | AddRnaQuantification (rnaQuant : RnaQuantification)
  | AddSequenceAnnotation (annotation : SequenceAnnotation).

Definition perform (c : add_call) : method unit :=
  match c with
  | AddVariantSet variantSet => addVariantSet variantSet
  | AddReadGroupSet readGroupSet => addReadGroupSet readGroupSet
  | AddRnaQuantification rnaQuant => addRnaQuantification rnaQuant
  | AddSequenceAnnotation annotation => addSequenceAnnotation annotation
  end.

(** The entities of each kind among the calls, in call order. *)
Definition addedVariantSets (cs : list add_call) : list VariantSet :=
  omap (λ c, match c with AddVariantSet v => Some v | _ => None end) cs.

Definition addedReadGroupSets (cs : list add_call) : list ReadGroupSet :=
  omap (λ c, match c with AddReadGroupSet r => Some r | _ => None end) cs.

Definition addedRnaQuantifications (cs : list add_call)
    : list RnaQuantification :=
  omap (λ c, match c with AddRnaQuantification q => Some q | _ => None end) cs.

Definition addedSequenceAnnotations (cs : list add_call)
    : list SequenceAnnotation :=
  omap (λ c, match c with AddSequenceAnnotation a => Some a | _ => None end) cs.

(** [built cs d]: the dataset [d] is what the calls [cs], in that order,
    make of a newly constructed dataset, whatever description it was
    given on the way. *)
Inductive built : list add_call → AbstractDataset → Prop :=
  | built_init localId :
      built [] (AbstractDataset_init localId)
  | built_described cs d description :
      built cs d → built cs (set_description description d).2
  | built_add cs d c :
      built cs d → built (cs ++ [c]) (perform c d).2.

(** The id list of the collection a call adds to, the id the call adds,
    and whether the call's entity meets an entry already there: one under
    its id or, for a read-group set, one under its local name. *)
Definition collection_ids (c : add_call) (d : AbstractDataset) : list string :=
  match c with
  | AddVariantSet _ => _variantSetIds d
  | AddReadGroupSet _ => _readGroupSetIds d
  | AddRnaQuantification _ => _rnaQuantificationIds d
  | AddSequenceAnnotation _ => _sequenceAnnotationIds d
  end.

Definition added_id (c : add_call) : string :=
  match c with
  | AddVariantSet v => getId v
  | AddReadGroupSet r => getId r
  | AddRnaQuantification q => getId q
  | AddSequenceAnnotation a => getId a
  end.

Definition collides (c : add_call) (d : AbstractDataset) : Prop :=
  match c with
  | AddVariantSet v => is_Some (_variantSetIdMap d !! getId v)
  | AddReadGroupSet r =>
      is_Some (_readGroupSetIdMap d !! getId r)
      ∨ is_Some (_readGroupSetNameMap d !! getLocalId r)
  | AddRnaQuantification q => is_Some (_rnaQuantificationIdMap d !! getId q)
  | AddSequenceAnnotation a => is_Some (_sequenceAnnotationIdMap d !! getId a)
  end.

(** The call's entity is the one stored under its keys. *)
Definition stored (c : add_call) (d : AbstractDataset) : Prop :=
  match c with
  | AddVariantSet v => _variantSetIdMap d !! getId v = Some v
  | AddReadGroupSet r =>
      _readGroupSetIdMap d !! getId r = Some r
      ∧ _readGroupSetNameMap d !! getLocalId r = Some r
  | AddRnaQuantification q => _rnaQuantificationIdMap d !! getId q = Some q
  | AddSequenceAnnotation a => _sequenceAnnotationIdMap d !! getId a = Some a
  end.

(** What a sequence of add calls leaves in the eleven attributes. *)
Record reflects (cs : list add_call) (d : AbstractDataset) : Prop := {
  reflects_variantSetIds :
    _variantSetIds d = getId <$> addedVariantSets cs;
  reflects_variantSetIdMap :
    holds_latest getId (_variantSetIdMap d) (addedVariantSets cs);
  reflects_readGroupSetIds :
    _readGroupSetIds d = getId <$> addedReadGroupSets cs;
  reflects_readGroupSetIdMap :
    holds_latest getId (_readGroupSetIdMap d) (addedReadGroupSets cs);
  reflects_readGroupSetNameMap :
    holds_latest getLocalId (_readGroupSetNameMap d) (addedReadGroupSets cs);
  reflects_rnaQuantificationIds :
    _rnaQuantificationIds d = getId <$> addedRnaQuantifications cs;
  reflects_rnaQuantificationIdMap :
    holds_latest getId (_rnaQuantificationIdMap d)
      (addedRnaQuantifications cs);
  reflects_sequenceAnnotationIds :
    _sequenceAnnotationIds d = getId <$> addedSequenceAnnotations cs;
  reflects_sequenceAnnotationIdMap :
    holds_latest getId (_sequenceAnnotationIdMap d)
      (addedSequenceAnnotations cs)
}.

(** What a method leaves alone. *)
Definition keeps {A B} (f : AbstractDataset → A) (m : method B) : Prop :=
  ∀ d, f (m d).2 = f d.

(** A list attribute that a method only appends to. *)
Definition grows {A B} (f : AbstractDataset → list A) (m : method B) : Prop :=
  ∀ d, f d `prefix_of` f (m d).2.

(** A method that does to the dataset what some add calls do. *)
Definition extends {B} (m : method B) : Prop :=
  ∀ cs d, built cs d → ∃ cs', built (cs ++ cs') (m d).2.

(** What Python's indexing makes of a [get...ByIndex] accessor over the
    entities [added], in the dataset [d]: [IndexError] outside
    [-n <= i < n], the entity currently held for position [i] when
    [0 <= i < n], and the answer for [i + n] when [-n <= i < 0]. *)
Definition indexes_current {T} `{!DatamodelObject T}
    (getByIndex : Z → method T) (added : list T) (d : AbstractDataset)
    : Prop :=
  let n := Z.of_nat (length added) in
  ∀ i : Z,
    (i < - n ∨ n ≤ i → getByIndex i d = (Raises IndexError, d))
    ∧ (0 ≤ i < n →
       ∃ x, current added (Z.to_nat i) = Some x
            ∧ (NoDup (getId <$> added) → added !! Z.to_nat i = Some x)
            ∧ getByIndex i d = (Returns x, d))
    ∧ (- n ≤ i < 0 → getByIndex i d = getByIndex (i + n) d).

(** *** Collaborators *)

(** The resource classes live in modules that are not part of this
    development ([ga4gh.datamodel.variants], [reads], [rna_quantification],
    [sequenceAnnotations]); their constructors are parameters.  Each takes
    the dataset object itself as first argument.  The simulated ones
    compute from their arguments; the ones backed by files may raise. *)
Context {ReferenceSet Backend Density : Type}.

Class Collaborators : Type := {
  variants_SimulatedVariantSet :
    AbstractDataset → string → Z → Z → Density → VariantSet;
  reads_SimulatedReadGroupSet :
    AbstractDataset → string → ReferenceSet → Z → Z → Z → ReadGroupSet;
  rnaQuantification_SimulatedRNASeqResult :
    AbstractDataset → string → RnaQuantification;
  variants_HtslibVariantSet :
    AbstractDataset → string → string → Backend → outcome VariantSet;
  reads_HtslibReadGroupSet :
    AbstractDataset → string → string → Backend → outcome ReadGroupSet;
  rnaQuantification_RNASeqResult :
    AbstractDataset → string → string → outcome RnaQuantification;
  sequenceAnnotations_SequenceAnnotation :
    AbstractDataset → string → string → outcome SequenceAnnotation
}.

Context `{!Collaborators}.

(** *** SimulatedDataset *)

Definition SimulatedDataset_init
    (localId : string) (referenceSet : ReferenceSet) (randomSeed : Z)
    (numVariantSets numCalls : Z) (variantDensity : Density)
    (numReadGroupSets numReadGroupsPerReadGroupSet numAlignments : Z)
    (numRnaQuants : Z) : method unit :=
  set_description (JString ("Simulated dataset " +:+ localId)) ;;
  (* Variants *)
  for_in (range numVariantSets) (λ i,
    let localId := "simVs" +:+ pretty i in
    let seed := randomSeed + i in
    self ← this;
    let variantSet :=
      variants_SimulatedVariantSet self localId seed numCalls variantDensity in
    addVariantSet variantSet) ;;
  (* Reads *)
  for_in (range numReadGroupSets) (λ i,
    let localId := "simRgs" +:+ pretty i in
    let seed := randomSeed + i in
    self ← this;
    let readGroupSet :=
      reads_SimulatedReadGroupSet self localId referenceSet seed
        numReadGroupsPerReadGroupSet numAlignments in
    addReadGroupSet readGroupSet) ;;
  (* RnaQuantifications *)
  for_in (range numRnaQuants) (λ i,
    let localId := "simRq" +:+ pretty i in
    self ← this;
    let rnaQuant := rnaQuantification_SimulatedRNASeqResult self localId in
    addRnaQuantification rnaQuant).

(** [SimulatedDataset(localId, ...)]: the constructor runs on the object
    [AbstractDataset.__init__] has set up. *)
Definition SimulatedDataset
    (localId : string) (referenceSet : ReferenceSet) (randomSeed : Z)
    (numVariantSets numCalls : Z) (variantDensity : Density)
    (numReadGroupSets numReadGroupsPerReadGroupSet numAlignments : Z)
    (numRnaQuants : Z) : outcome unit * AbstractDataset :=
  SimulatedDataset_init localId referenceSet randomSeed numVariantSets
    numCalls variantDensity numReadGroupSets numReadGroupsPerReadGroupSet
    numAlignments numRnaQuants (AbstractDataset_init localId).

(** *** FileSystemDataset *)

(** [_setMetadata] reads [self._dataDir], which [__init__] has just set
    from its argument [dataDir]; here it is passed on. *)
Definition _setMetadata (fs : gmap string node) (dataDir : string)
    : method unit :=
  let metadataFileName := dataDir +:+ ".json" in
  if isfile fs metadataFileName then
    metadata ← call (json_load fs metadataFileName);
    match json_getitem metadata "description" with
    | Returns description => set_description description
    | Raises (KeyError key) =>
        raise (MissingDatasetMetadataException metadataFileName
                 (str_KeyError key))
    | Raises e => raise e
    end
  else mret tt.

(** The four blocks of [FileSystemDataset.__init__], in source order,
    each with the body of its [for] loop. *)
Definition variantSetEntry (fs : gmap string node) (variantSetDir : string)
    (backend : Backend) (localId : string) : method unit :=
  let relativePath := os_path.join variantSetDir localId in
  if isdir fs relativePath then
    self ← this;
    variantSet ←
      call (variants_HtslibVariantSet self localId relativePath backend);
    addVariantSet variantSet
  else mret tt.

Definition loadVariantSets (fs : gmap string node) (dataDir : string)
    (backend : Backend) : method unit :=
  let variantSetDir := os_path.join dataDir "variants" in
  entries ← call (listdir fs variantSetDir);
  for_in entries (variantSetEntry fs variantSetDir backend).

Definition readGroupSetEntry (readGroupSetDir : string) (backend : Backend)
    (filename : string) : method unit :=
  if fnmatch.fnmatch filename "*.bam" then
    let localId := (os_path.splitext filename).1 in
    let bamPath := os_path.join readGroupSetDir filename in
    self ← this;
    readGroupSet ←
      call (reads_HtslibReadGroupSet self localId bamPath backend);
    addReadGroupSet readGroupSet
  else mret tt.

Definition loadReadGroupSets (fs : gmap string node) (dataDir : string)
    (backend : Backend) : method unit :=
  let readGroupSetDir := os_path.join dataDir "reads" in
  entries ← call (listdir fs readGroupSetDir);
  for_in entries (readGroupSetEntry readGroupSetDir backend).

Definition rnaQuantificationEntry (fs : gmap string node)
    (rnaQuantDir : string) (localId : string) : method unit :=
  let relativePath := os_path.join rnaQuantDir localId in
  if isdir fs relativePath then
    self ← this;
    rnaQuant ←
      call (rnaQuantification_RNASeqResult self localId relativePath);
    addRnaQuantification rnaQuant
  else mret tt.

Definition loadRnaQuantifications (fs : gmap string node) (dataDir : string)
    : method unit :=
  let rnaQuantDir := os_path.join dataDir "rnaQuant" in
  entries ← call (listdir fs rnaQuantDir);
  for_in entries (rnaQuantificationEntry fs rnaQuantDir).

Definition sequenceAnnotationEntry (seqAnnotationDir : string)
    (gffFile : string) : method unit :=
  let relativePath := os_path.join seqAnnotationDir gffFile in
  self ← this;
  annotation ←
    call (sequenceAnnotations_SequenceAnnotation self gffFile relativePath);
  addSequenceAnnotation annotation.

Definition loadSequenceAnnotations (fs : gmap string node)
    (dataDir : string) : method unit :=
  let seqAnnotationDir := os_path.join dataDir "sequenceAnnotations" in
  entries ← call (listdir fs seqAnnotationDir);
  for_in entries (sequenceAnnotationEntry seqAnnotationDir).

Definition FileSystemDataset_init (fs : gmap string node)
    (localId dataDir : string) (backend : Backend) : method unit :=
  _setMetadata fs dataDir ;;
  loadVariantSets fs dataDir backend ;;
  loadReadGroupSets fs dataDir backend ;;
  loadRnaQuantifications fs dataDir ;;
  loadSequenceAnnotations fs dataDir.

Definition FileSystemDataset (fs : gmap string node)
    (localId dataDir : string) (backend : Backend)
    : outcome unit * AbstractDataset :=
  FileSystemDataset_init fs localId dataDir backend
    (AbstractDataset_init localId).

End datasets.

(** *** The summary of a dataset *)

(** [protocol.Dataset]: the three attributes [toProtocolElement] sets.
    [self.getId()] is the compound id that [DatamodelObject.__init__]
    makes of the local id of a dataset, which has no parent; the function
    that makes it is the parameter [compoundId]. *)
Record ProtocolDataset : Type := {
  protocol_id : string;
  protocol_name : string;
  protocol_description : json
}.

Definition toProtocolElement
    {VariantSet ReadGroupSet RnaQuantification SequenceAnnotation : Type}
    (compoundId : string → string)
    : method (VariantSet := VariantSet) (ReadGroupSet := ReadGroupSet)
        (RnaQuantification := RnaQuantification)
        (SequenceAnnotation := SequenceAnnotation) ProtocolDataset :=
  self ← this;
  description ← getDescription;
  mret {| protocol_id := compoundId (_localId self);
          protocol_name := _localId self;
          protocol_description := description |}.

(** * Utilities for scripts: scripts/utils.py

    [FileDownloader] and [HttpFileDownloader].  The stream the downloader
    writes to is the list of the calls made on it; [requests], [open] and
    [humanize] are parameters. *)
Module utils.

Inductive error : Type :=
  | ZeroDivisionError
  | ValueError (text : string)
  | RequestException (message : string)
  | IOError (path : string)
  | AttributeError
  | UnboundLocalError (name : string)
  | TypeError
  | OverflowError
  | StopIteration
  | SamtoolsError (message : string).

Inductive result (A : Type) : Type :=
  | Done (a : A)
  | Failed (e : error).
Arguments Done {A} a.
Arguments Failed {A} e.

(** A method over an object of type [S]. *)
Definition action (S A : Type) : Type := S → result A * S.

#[global] Instance action_ret {S} : MRet (action S) :=
  λ A a self, (Done a, self).

#[global] Instance action_bind {S} : MBind (action S) :=
  λ A B k m self,
    match m self with
    | (Done a, self') => k a self'
    | (Failed e, self') => (Failed e, self')
    end.

Definition fail {S A} (e : error) : action S A := λ self, (Failed e, self).

Definition self_ {S} : action S S := λ self, (Done self, self).

Definition update {S} (f : S → S) : action S unit :=
  λ self, (Done tt, f self).

(** A call that leaves the object alone and returns or raises. *)
Definition call_ {S A} (r : result A) : action S A := λ self, (r, self).

(** [for x in l: body(x)]. *)
Fixpoint for_each {S X} (l : list X) (body : X → action S unit)
    : action S unit :=
  match l with
  | [] => mret tt
  | x :: l' => body x ;; for_each l' body
  end.

(** What is called on the stream. *)
Inductive stream_call : Type :=
  | Write (text : string)
  | Flush.

(** ['{:<w}'.format(s)] and ['{:>w}'.format(s)] for a string [s]. *)
Fixpoint spaces (n : nat) : string :=
  match n with
  | O => ""
  | S n' => String " " (spaces n')
  end.

Definition ljust (width : nat) (s : string) : string :=
  s +:+ spaces (width - String.length s).

Definition rjust (width : nat) (s : string) : string :=
  spaces (width - String.length s) +:+ s.

Record FileDownloader : Type := mkFileDownloader {
  url : string;
  path : string;
  basename : string;
  basenameLength : Z;
  stream : list stream_call;
  bytesReceived : Z;
  displayIndex : Z;
  displayWindowSize : Z;
  fileSize : option Z;
  displayCounter : Z
}.

Definition FileDownloader_init (url path : string)
    (stream : list stream_call) : FileDownloader :=
  {| url := url;
     path := path;
     basename := path;
     basenameLength := Z.of_nat (String.length path);
     stream := stream;
     bytesReceived := 0;
     displayIndex := 0;
     displayWindowSize := 20;
     fileSize := None;
     displayCounter := 0 |}.

Definition stream_write (text : string) : action FileDownloader unit :=
  update (λ self,
    mkFileDownloader (url self) (path self) (basename self)
      (basenameLength self) (stream self ++ [Write text])
      (bytesReceived self) (displayIndex self) (displayWindowSize self)
      (fileSize self) (displayCounter self)).

Definition stream_flush : action FileDownloader unit :=
  update (λ self,
    mkFileDownloader (url self) (path self) (basename self)
      (basenameLength self) (stream self ++ [Flush])
      (bytesReceived self) (displayIndex self) (displayWindowSize self)
      (fileSize self) (displayCounter self)).

Definition set_bytesReceived (n : Z) : action FileDownloader unit :=
  update (λ self,
    mkFileDownloader (url self) (path self) (basename self)
      (basenameLength self) (stream self)
      n (displayIndex self) (displayWindowSize self)
      (fileSize self) (displayCounter self)).

Definition set_fileSize (n : Z) : action FileDownloader unit :=
  update (λ self,
    mkFileDownloader (url self) (path self) (basename self)
      (basenameLength self) (stream self)
      (bytesReceived self) (displayIndex self) (displayWindowSize self)
      (Some n) (displayCounter self)).

Definition set_displayCounter (n : Z) : action FileDownloader unit :=
  update (λ self,
    mkFileDownloader (url self) (path self) (basename self)
      (basenameLength self) (stream self)
      (bytesReceived self) (displayIndex self) (displayWindowSize self)
      (fileSize self) n).

Definition _printStartDownloadMessage : action FileDownloader unit :=
  self ← self_;
  stream_write ("Downloading '" +:+ url self +:+ "' to '" +:+ path self
                +:+ "'" +:+ String "010" "").

Definition _cleanUp : action FileDownloader unit :=
  stream_write (String "010" "") ;; stream_flush.

Definition _getFileNameDisplayString : action FileDownloader string :=
  self ← self_;
  if basenameLength self <=? displayWindowSize self
  then mret (basename self)
  else mret (basename self).

(** The object after [shown] went to the stream and the display counter
    became [counter]. *)
Definition displayed (self : FileDownloader) (shown : list stream_call)
    (counter : Z) : FileDownloader :=
  mkFileDownloader (url self) (path self) (basename self)
    (basenameLength self) (stream self ++ shown)
    (bytesReceived self) (displayIndex self) (displayWindowSize self)
    (fileSize self) counter.

(** The calls on the stream that show the lines [lines]. *)
Definition shows (lines : list string) : list stream_call :=
  flat_map (λ line, [Write line; Flush]) lines.

(** The bytes of the chunks, one after the other. *)
Definition joined (chunks : list string) : string :=
  foldr (λ chunk rest, chunk +:+ rest) "" chunks.

Section display.

(** [humanize.filesize.naturalsize], and the floats of the percentage.
    [naturalsize n] turns [n] into a float first and raises
    [OverflowError] when it is too large for one; [truediv a b] is
    [a / b] under [from __future__ import division] for [b] other than 0,
    a float or [OverflowError] when the quotient is too large for one;
    [one_lt x] is [1 < x], and [format_percentage] is
    [format(x, '<6.2%')] for what [min(x, 1)] gives, the float or the
    int 1. *)
Context {Float : Type}.
Context (naturalsize : Z → result string).
Context (truediv : Z → Z → result Float) (one_lt : Float → bool).
Context (format_percentage : Float + Z → string).

Definition _updateDisplay (modulo : Z) : action FileDownloader unit :=
  self ← self_;
  set_displayCounter (displayCounter self + 1) ;;
  self ← self_;
  if modulo =? 0 then fail ZeroDivisionError
  else if negb (displayCounter self mod modulo =? 0) then mret tt
  else
    fileName ← _getFileNameDisplayString;
    match fileSize self with
    | None =>
        bytesReceived ← call_ (naturalsize (bytesReceived self));
        stream_write (fileName +:+ "   bytes received: " +:+ bytesReceived
                      +:+ String "013" "")
    | Some fileSize =>
        if fileSize =? 0 then fail ZeroDivisionError
        else
          quotient ← call_ (truediv (bytesReceived self) fileSize);
          let percentage :=
            if one_lt quotient then inr 1 else inl quotient in
          numerator ←
            call_ (naturalsize (Z.min (bytesReceived self) fileSize));
          denominator ← call_ (naturalsize fileSize);
          stream_write (fileName +:+ "   " +:+ format_percentage percentage
                        +:+ " (" +:+ rjust 9 numerator +:+ " / "
                        +:+ ljust 9 denominator +:+ ")" +:+ String "013" "")
    end ;;
    stream_flush.

(** The numbers of a display line can be shown: for [received] bytes of a
    file of size [size], the division and the calls of [naturalsize] that
    [_updateDisplay] makes all return. *)
Definition presentable (received : Z) (size : option Z) : Prop :=
  match size with
  | None => ∃ text, naturalsize received = Done text
  | Some size =>
      (∃ quotient, truediv received size = Done quotient)
      ∧ (∃ text, naturalsize (Z.min received size) = Done text)
      ∧ (∃ text, naturalsize size = Done text)
  end.

(** [HttpFileDownloader]: a [FileDownloader] with a chunk size, in a world
    of files.  A file is the string of the bytes written to it. *)
Record HttpFileDownloader : Type := mkHttpFileDownloader {
  super : FileDownloader;
  chunkSize : Z;
  files : gmap string string
}.

Definition defaultChunkSize : Z := 1048576.

Definition HttpFileDownloader_init (url path : string) (chunkSize : Z)
    (stream : list stream_call) (files : gmap string string)
    : HttpFileDownloader :=
  {| super := FileDownloader_init url path stream;
     chunkSize := chunkSize;
     files := files |}.

(** A method inherited from [FileDownloader]. *)
Definition inherited {A} (m : action FileDownloader A)
    : action HttpFileDownloader A :=
  λ self,
    let '(r, super') := m (super self) in
    (r, mkHttpFileDownloader super' (chunkSize self) (files self)).

Definition file_write (path chunk : string) : action HttpFileDownloader unit :=
  update (λ self,
    mkHttpFileDownloader (super self) (chunkSize self)
      (<[path := default "" (files self !! path) +:+ chunk]> (files self))).

Definition file_create (path : string) : action HttpFileDownloader unit :=
  update (λ self,
    mkHttpFileDownloader (super self) (chunkSize self)
      (<[path := ""]> (files self))).

(** What [requests.get(url, stream=True)] gives back: whether
    [raise_for_status()] raises, the header [content-length] if there is
    one, and for a chunk size the chunks [iter_content] yields, with the
    exception that ends the iteration if the transfer breaks. *)
Record Response : Type := {
  raise_for_status : option error;
  content_length : option string;
  iter_content : Z → list string * option error
}.

(** [requests.get], [int] on a header value, and whether
    [open(path, 'wb')] raises. *)
Context (requests_get : string → result Response).
Context (int : string → result Z).
Context (open_wb : string → option error).

Definition download : action HttpFileDownloader unit :=
  inherited _printStartDownloadMessage ;;
  self ← self_;
  response ← call_ (requests_get (url (super self)));
  match raise_for_status response with
  | Some e => fail e
  | None => mret tt
  end ;;
  match content_length response with
  | Some text =>
      contentLength ← call_ (int text);
      inherited (set_fileSize contentLength)
  | None => mret tt
  end ;;
  match open_wb (path (super self)) with
  | Some e => fail e
  | None => file_create (path (super self))
  end ;;
  let '(chunks, broken) := iter_content response (chunkSize self) in
  for_each chunks (λ chunk,
    now ← self_;
    inherited (set_bytesReceived (bytesReceived (super now) + chunkSize now)) ;;
    inherited (_updateDisplay 1) ;;
    file_write (path (super self)) chunk) ;;
  match broken with
  | Some e => fail e
  | None => mret tt
  end ;;
  inherited _cleanUp.

(** The object while a download receives: [lines] shown, [chunks]
    received and written after [content]. *)
Definition receiving (self : HttpFileDownloader) (lines chunks : list string)
    (content : string) : HttpFileDownloader :=
  mkHttpFileDownloader
    (mkFileDownloader (url (super self)) (path (super self))
       (basename (super self)) (basenameLength (super self))
       (stream (super self) ++ shows lines)
       (bytesReceived (super self)
        + chunkSize self * Z.of_nat (length chunks))
       (displayIndex (super self)) (displayWindowSize (super self))
       (fileSize (super self))
       (displayCounter (super self) + Z.of_nat (length chunks)))
    (chunkSize self)
    (<[path (super self) := content +:+ joined chunks]> (files self)).

(** The line [_printStartDownloadMessage] writes, and the object once the
    download has started, has the file size [size] and has created its
    file. *)
Definition start_line (self : HttpFileDownloader) : string :=
  "Downloading '" +:+ url (super self) +:+ "' to '" +:+ path (super self)
  +:+ "'" +:+ String "010" "".

Definition started (self : HttpFileDownloader) (size : option Z)
    (files' : gmap string string) : HttpFileDownloader :=
  mkHttpFileDownloader
    (mkFileDownloader (url (super self)) (path (super self))
       (basename (super self)) (basenameLength (super self))
       (stream (super self) ++ [Write (start_line self)])
       (bytesReceived (super self))
       (displayIndex (super self)) (displayWindowSize (super self))
       size (displayCounter (super self)))
    (chunkSize self) files'.

(** What the header makes of the file size. *)
Definition announced (response : Response) (old size : option Z) : Prop :=
  (content_length response = None ∧ size = old)
  ∨ (∃ text n, content_length response = Some text ∧ int text = Done n
               ∧ size = Some n).

End display.

(** ** [AlignmentFileTool] *)

Module AlignmentFileConstants.
Definition SAM : string := "SAM".
Definition BAM : string := "BAM".
Definition BAI : string := "BAI".
End AlignmentFileConstants.

(** [str.lower] on ASCII letters. *)
Definition lower_ascii (c : ascii) : ascii :=
  let n := nat_of_ascii c in
  if (65 <=? n)%nat && (n <=? 90)%nat then ascii_of_nat (n + 32) else c.

Fixpoint lower (s : string) : string :=
  match s with
  | EmptyString => EmptyString
  | String c s' => String (lower_ascii c) (lower s')
  end.

(** What [numLines] holds: an int, as the default 10 is, or a string, as
    an argument of the command line is. *)
Inductive value : Type :=
  | Int (n : Z)
  | Str (s : string).

(** The arguments [self.args] holds. *)
Record Namespace : Type := mkNamespace {
  inputFile : string;
  outputFile : string;
  numLines : value;
  skipIndexing : bool
}.

Record AlignmentFileTool : Type := mkAlignmentFileTool {
  inputFileFormat : string;
  outputFileFormat : string;
  args : option Namespace
}.

Definition AlignmentFileTool_init (inputFileFormat outputFileFormat : string)
    : AlignmentFileTool :=
  {| inputFileFormat := inputFileFormat;
     outputFileFormat := outputFileFormat;
     args := None |}.

(** The local variables [inputFlags] and [outputFlags] of [convert], which
    stay unbound for a format that is neither [SAM] nor [BAM]. *)
Definition inputFlags (self : AlignmentFileTool) : option string :=
  if bool_decide (inputFileFormat self = AlignmentFileConstants.SAM)
  then Some "r"
  else if bool_decide (inputFileFormat self = AlignmentFileConstants.BAM)
  then Some "rb"
  else None.

Definition outputFlags (self : AlignmentFileTool) : option string :=
  if bool_decide (outputFileFormat self = AlignmentFileConstants.SAM)
  then Some "wh"
  else if bool_decide (outputFileFormat self = AlignmentFileConstants.BAM)
  then Some "wb"
  else None.

Definition local {S} (name : string) (v : option string) : action S string :=
  match v with
  | Some x => mret x
  | None => fail (UnboundLocalError name)
  end.

Section pysam.

(** The headers and aligned segments of [pysam]. *)
Context {Header AlignedSegment : Type}.

(** What [convert] does to the world around it, in order: the lines it
    prints through [log], the alignment files it opens, the segments it
    writes, the files it closes and the index it builds. *)
Inductive effect : Type :=
  | Print (message : string)
  | OpenRead (path flags : string)
  | OpenWrite (path flags : string) (header : Header)
  | WriteSegment (path : string) (segment : AlignedSegment)
  | Close (path : string)
  | Index (path : string).

(** The world of a conversion: what has been done so far, and the
    segments the input file has not given out yet. *)
Record world : Type := mkWorld {
  effects : list effect;
  unread : list AlignedSegment
}.

Definition does (e : effect) : action world unit :=
  update (λ w, mkWorld (effects w ++ [e]) (unread w)).

Definition log (message : string) : action world unit :=
  does (Print message).

(** [pysam.AlignmentFile(path, flags)] for reading gives the header and
    the segments the file will give out, or raises;
    [pysam.AlignmentFile(path, flags, header=header)] for writing and
    [pysam.index(path)] may raise.  [sys_maxint] is the largest argument
    [xrange] takes. *)
Context (AlignmentFile_read : string → string
                              → result (Header * list AlignedSegment)).
Context (AlignmentFile_write : string → string → Header → option error).
Context (pysam_index : string → option error).
Context (sys_maxint : Z).

Definition xrange (n : value) : result (list Z) :=
  match n with
  | Str _ => Failed TypeError
  | Int n =>
      if (- sys_maxint - 1 <=? n) && (n <=? sys_maxint)
      then Done (seqZ 0 n)
      else Failed OverflowError
  end.

(** [inputFile.next()]. *)
Definition next : action world AlignedSegment :=
  λ w,
    match unread w with
    | [] => (Failed StopIteration, w)
    | segment :: rest => (Done segment, mkWorld (effects w) rest)
    end.

Definition getattr_args (self : AlignmentFileTool) : action world Namespace :=
  match args self with
  | Some a => mret a
  | None => fail AttributeError
  end.

Definition convert (self : AlignmentFileTool) : action world unit :=
  args ← getattr_args self;
  flags ← local "inputFlags" (inputFlags self);
  '(header, segments) ←
    call_ (AlignmentFile_read (inputFile args) flags);
  update (λ w, mkWorld (effects w ++ [OpenRead (inputFile args) flags])
                 segments) ;;
  flags ← local "outputFlags" (outputFlags self);
  match AlignmentFile_write (outputFile args) flags header with
  | Some e => fail e
  | None => does (OpenWrite (outputFile args) flags header)
  end ;;
  let outputFilePath := outputFile args in
  log ("Creating alignment file '" +:+ outputFilePath +:+ "'") ;;
  lines ← call_ (xrange (numLines args));
  for_each lines (λ _,
    alignedSegment ← next;
    does (WriteSegment outputFilePath alignedSegment)) ;;
  does (Close (inputFile args)) ;;
  does (Close (outputFile args)) ;;
  if negb (skipIndexing args)
     && bool_decide (outputFileFormat self = AlignmentFileConstants.BAM)
  then
    let indexFilePath :=
      outputFilePath +:+ "." +:+ lower AlignmentFileConstants.BAI in
    log ("Creating index file '" +:+ indexFilePath +:+ "'") ;;
    match pysam_index outputFilePath with
    | Some e => fail e
    | None => does (Index outputFilePath)
    end
  else mret tt.

(** What a conversion does up to its loop, and what it does after it. *)
Definition opens (args : Namespace) (flags flags' : string) (header : Header)
    : list effect :=
  [ OpenRead (inputFile args) flags;
    OpenWrite (outputFile args) flags' header;
    Print ("Creating alignment file '" +:+ outputFile args +:+ "'") ].

Definition indexes (self : AlignmentFileTool) (args : Namespace)
    : list effect :=
  if negb (skipIndexing args)
     && bool_decide (outputFileFormat self = AlignmentFileConstants.BAM)
  then [ Print ("Creating index file '" +:+ outputFile args +:+ ".bai'");
         Index (outputFile args) ]
  else [].

Definition is_close (e : effect) : bool :=
  match e with
  | Close _ => true
  | _ => false
  end.

End pysam.

End utils.

(** ** A concrete instance

    Entities that carry their compound id, their local id and where they
    come from, with constructors that fail on the local id [corrupt], and
    a small data directory.  The examples below run the code on them. *)
Module sample.

Record resource : Type := Resource {
  resource_id : string;
  resource_localId : string;
  resource_source : string
}.

#[global] Instance resource_eq_dec : EqDecision resource.
Proof. solve_decision. Defined.

#[global] Instance resource_object : DatamodelObject resource :=
  {| getId := resource_id; getLocalId := resource_localId |}.

Definition dataset : Type :=
  AbstractDataset (VariantSet := resource) (ReadGroupSet := resource)
    (RnaQuantification := resource) (SequenceAnnotation := resource).

Definition calls : Type :=
  list (add_call (VariantSet := resource) (ReadGroupSet := resource)
          (RnaQuantification := resource) (SequenceAnnotation := resource)).

Definition new (self : dataset) (localId source : string) : resource :=
  Resource (_localId self +:+ ":" +:+ localId) localId source.

Definition open (self : dataset) (localId path : string) : outcome resource :=
  if bool_decide (localId = "corrupt") then Raises (CollaboratorError path)
  else Returns (new self localId path).

#[global] Instance collaborators
    : Collaborators (ReferenceSet := unit) (Backend := unit) (Density := unit) :=
  {| variants_SimulatedVariantSet self localId seed _ _ :=
       new self localId ("seed " +:+ pretty seed);
     reads_SimulatedReadGroupSet self localId _ seed _ _ :=
       new self localId ("seed " +:+ pretty seed);
     rnaQuantification_SimulatedRNASeqResult self localId :=
       new self localId "simulated";
     variants_HtslibVariantSet self localId path _ := open self localId path;
     reads_HtslibReadGroupSet self localId path _ := open self localId path;
     rnaQuantification_RNASeqResult self localId path :=
       open self localId path;
     sequenceAnnotations_SequenceAnnotation self localId path :=
       open self localId path |}.

Definition empty : dataset := AbstractDataset_init "ds".

Definition vs1 : resource := Resource "ds:vs1" "vs1" "first".
Definition vs1' : resource := Resource "ds:vs1" "vs1" "second".
Definition vs2 : resource := Resource "ds:vs2" "vs2" "third".

Definition rg1 : resource := Resource "ds:rg1" "rg1" "data/reads/rg1.bam".
Definition rg2 : resource := Resource "ds:rg2" "rg2" "data/reads/rg2.bam".

(** A dataset with one variant set, one where a second variant set came
    under the id of the first, and one with several kinds. *)
Definition one : dataset := (addVariantSet vs1 empty).2.

Definition twice : calls := [AddVariantSet vs1; AddVariantSet vs1'].

Definition mixed : calls :=
  [AddVariantSet vs1; AddReadGroupSet rg1; AddVariantSet vs2;
   AddReadGroupSet rg2; AddRnaQuantification vs2].

(** A read-group set of another dataset with the local name of [rg1],
    added after it. *)
Definition namesake : resource :=
  Resource "other:rg1" "rg1" "elsewhere/rg1.bam".

Definition homonyms : calls := [AddReadGroupSet rg1; AddReadGroupSet namesake].

Definition after (cs : calls) : dataset := (for_in cs perform empty).2.

(** [data/] with a sidecar, a variant-set directory next to a plain file,
    two BAM files next to a text file, and an annotation file next to a
    directory. *)
Definition fs : gmap string node :=
  list_to_map
    [ ("data.json", File (Returns (JDict [("description", JString "demo")])));
      ("data", Directory ["variants"; "reads"; "rnaQuant";
                          "sequenceAnnotations"]);
      ("data/variants", Directory ["vs1"; "README"]);
      ("data/variants/vs1", Directory []);
      ("data/variants/README", File (Raises (CollaboratorError "not JSON")));
      ("data/reads", Directory ["rg1.bam"; "notes.txt"; "rg2.bam"]);
      ("data/rnaQuant", Directory []);
      ("data/sequenceAnnotations", Directory ["genes.gff"; "more"]);
      ("data/sequenceAnnotations/more", Directory []) ].

(** The same with a file [.bam] among the reads. *)
Definition hidden : gmap string node :=
  <["data/reads" := Directory [".bam"; "rg1.bam"]]> fs.

(** The same with a variant set that cannot be read between two that can. *)
Definition damaged : gmap string node :=
  <["data/variants" := Directory ["vs1"; "corrupt"; "vs2"]]>
    (<["data/variants/corrupt" := Directory []]>
       (<["data/variants/vs2" := Directory []]> fs)).



(** A network with one file of six bytes, sent in chunks of at most four,
    and a downloader for it that writes to a new stream. *)
Definition float_max : Z := 2 ^ 1024.

Definition naturalsize (n : Z) : utils.result string :=
  if Z.abs n <? float_max then utils.Done (pretty n +:+ " Bytes")
  else utils.Failed utils.OverflowError.

Definition truediv (a b : Z) : utils.result (Z * Z) :=
  if Z.abs (a / b) <? float_max then utils.Done (a, b)
  else utils.Failed utils.OverflowError.

Definition format_percentage (x : (Z * Z) + Z) : string :=
  match x with
  | inl (a, b) => pretty (100 * a / b) +:+ "%"
  | inr n => pretty (100 * n) +:+ "%"
  end.

Definition one_lt (x : Z * Z) : bool := x.2 <? x.1.

Definition response : utils.Response :=
  {| utils.raise_for_status := None;
     utils.content_length := Some "6";
     utils.iter_content := λ _, (["abcd"; "ef"], None) |}.

(** A response that announces no bytes and sends one. *)
Definition misleading : utils.Response :=
  {| utils.raise_for_status := None;
     utils.content_length := Some "0";
     utils.iter_content := λ _, (["x"], None) |}.

Definition requests_get (url : string) : utils.result utils.Response :=
  if bool_decide (url = "http://host/six") then utils.Done response
  else if bool_decide (url = "http://host/zero") then utils.Done misleading
  else utils.Failed (utils.RequestException url).

Definition int (text : string) : utils.result Z :=
  if bool_decide (text = "6") then utils.Done 6
  else if bool_decide (text = "0") then utils.Done 0
  else utils.Failed (utils.ValueError text).

Definition open_wb (path : string) : option utils.error := None.

Definition downloader : utils.HttpFileDownloader :=
  utils.HttpFileDownloader_init "http://host/six" "six.txt" 4 [] ∅.

Definition unreachable : utils.HttpFileDownloader :=
  utils.HttpFileDownloader_init "http://host/none" "none.txt" 4 [] ∅.

Definition misled : utils.HttpFileDownloader :=
  utils.HttpFileDownloader_init "http://host/zero" "zero.txt" 4 [] ∅.

(** A sidecar that holds a JSON list. *)
Definition listed : gmap string node :=
  <["data.json" := File (Returns (JList []))]> fs.

(** An alignment file of three segments, and a tool that converts it. *)
Definition AlignmentFile_read (path flags : string)
    : utils.result (string * list string) :=
  if bool_decide (path = "in.sam")
  then utils.Done ("@HD", ["r1"; "r2"; "r3"])
  else utils.Failed (utils.IOError path).

Definition AlignmentFile_write (path flags header : string)
    : option utils.error := None.

Definition pysam_index (path : string) : option utils.error := None.

Definition sys_maxint : Z := 9223372036854775807.

Definition arguments (numLines : utils.value) : utils.Namespace :=
  utils.mkNamespace "in.sam" "out.bam" numLines false.

Definition tool (numLines : utils.value) : utils.AlignmentFileTool :=
  utils.mkAlignmentFileTool "SAM" "BAM" (Some (arguments numLines)).

Definition untouched : @utils.world string string := utils.mkWorld [] [].

End sample.

(** * Properties *)

(** Unfolds the monad of methods. *)
Ltac run :=
  cbv [mbind method_mbind method_bind mret method_mret method_ret
       this call raise assign].

(** ** Lists, dicts and the entity a collection currently holds *)

Section latest.

Context {T : Type} (key : T → string).

Lemma holds_latest_nil : holds_latest key ∅ [].
Proof. intros k. by rewrite lookup_empty. Qed.

Lemma holds_latest_snoc m added e :
  holds_latest key m added →
  holds_latest key (<[key e := e]> m) (added ++ [e]).
Proof.
  intros Hm k. rewrite filter_app.
  destruct (decide (key e = k)) as [<-|Hne].
  - rewrite lookup_insert_eq, filter_cons_True by done.
    by rewrite filter_nil, last_snoc.
  - rewrite lookup_insert_ne by done.
    rewrite filter_cons_False, filter_nil by done.
    by rewrite app_nil_r.
Qed.

Lemma holds_latest_elem m added k e :
  holds_latest key m added → m !! k = Some e → e ∈ added ∧ key e = k.
Proof.
  intros Hm Hk. rewrite Hm in Hk.
  apply last_Some_elem_of, list_elem_of_filter in Hk. tauto.
Qed.

Lemma holds_latest_is_Some m added e :
  holds_latest key m added → e ∈ added → is_Some (m !! key e).
Proof.
  intros Hm He. rewrite Hm. apply last_is_Some.
  intros Hnil. by apply (filter_nil_not_elem_of _ _ e Hnil).
Qed.

Lemma filter_key_NoDup (l : list T) i v :
  NoDup (key <$> l) → l !! i = Some v → filter (λ y, key y = key v) l = [v].
Proof.
  revert i. induction l as [|a l IH]; intros i Hnd Hi; [done|].
  rewrite fmap_cons in Hnd. apply NoDup_cons in Hnd as [Ha Hnd].
  assert (Hrest : ∀ w, key w = key a → w ∉ l).
  { intros w Hw Hin. apply Ha. rewrite <- Hw. by apply list_elem_of_fmap_2. }
  destruct i as [|i]; simpl in Hi.
  - injection Hi as ->. rewrite filter_cons_True by done. f_equal.
    destruct (filter (λ y, key y = key v) l) as [|w ws] eqn:Hf; [done|].
    assert (Hw : w ∈ filter (λ y, key y = key v) l) by (rewrite Hf; left).
    apply list_elem_of_filter in Hw as [Hk Hw]. by apply Hrest in Hk.
  - rewrite filter_cons_False; [by eapply IH|].
    intros Hk. apply (Hrest v); [done|]. by eapply list_elem_of_lookup_2.
Qed.

End latest.

Lemma current_length {T} `{!DatamodelObject T} (added : list T) i :
  (i < length added)%nat → is_Some (current added i).
Proof.
  intros Hi. unfold current.
  destruct (lookup_lt_is_Some_2 added i Hi) as [v Hv]. rewrite Hv.
  apply last_is_Some. intros Hnil.
  apply (filter_nil_not_elem_of _ _ v Hnil); [done|].
  by eapply list_elem_of_lookup_2.
Qed.

Lemma current_id {T} `{!DatamodelObject T} (added : list T) i v x :
  added !! i = Some v → current added i = Some x →
  getId x = getId v ∧ x ∈ added.
Proof.
  unfold current. intros -> Hx.
  apply last_Some_elem_of, list_elem_of_filter in Hx. tauto.
Qed.

Lemma current_NoDup {T} `{!DatamodelObject T} (added : list T) i :
  NoDup (getId <$> added) → current added i = added !! i.
Proof.
  intros Hnd. unfold current. destruct (added !! i) as [v|] eqn:Hv; [|done].
  by rewrite (filter_key_NoDup getId added i v).
Qed.

Lemma comprehension_Forall2 {A B} (f : A → outcome B) l ys :
  Forall2 (λ x y, f x = Returns y) l ys → comprehension f l = Returns ys.
Proof.
  induction 1 as [|x y l ys Hx _ IH]; simpl; [done|]. by rewrite Hx, IH.
Qed.

(** The list comprehension of the [get...s] accessors over a dict that
    holds the latest entity of every id in the list. *)
Lemma comprehension_current {T} `{!DatamodelObject T}
    (m : gmap string T) (added : list T) :
  holds_latest getId m added →
  ∃ l, comprehension (dict_getitem m) (getId <$> added) = Returns l
       ∧ length l = length added
       ∧ ∀ i, l !! i = current added i.
Proof.
  intros Hm.
  assert (Hall : ∀ pre, (length pre ≤ length added)%nat →
            ∀ suf, added = pre ++ suf →
            ∃ l, comprehension (dict_getitem m) (getId <$> suf) = Returns l
                 ∧ length l = length suf
                 ∧ ∀ i, l !! i = current added (length pre + i)).
  { intros pre _ suf. revert pre.
    induction suf as [|v suf IH]; intros pre Heq.
    - exists []. split; [done|]. split; [done|]. intros i. simpl.
      unfold current. rewrite Heq, app_nil_r.
      by rewrite (lookup_ge_None_2 pre) by lia.
    - destruct (IH (pre ++ [v])) as (l & Hl & Hlen & Hcur).
      { by rewrite <- app_assoc. }
      assert (Hv : added !! length pre = Some v).
      { rewrite Heq. by rewrite list_lookup_middle. }
      destruct (current added (length pre)) as [x|] eqn:Hx.
      2:{ destruct (current_length added (length pre)) as [? Hc];
            [|congruence].
          rewrite Heq, length_app. simpl. lia. }
      exists (x :: l). rewrite fmap_cons. simpl.
      assert (Hmx : m !! getId v = Some x).
      { rewrite Hm. unfold current in Hx. by rewrite Hv in Hx. }
      unfold dict_getitem at 1. rewrite Hmx, Hl.
      split; [done|]. split; [simpl; by rewrite Hlen|].
      intros [|i]; simpl.
      + by rewrite Nat.add_0_r.
      + rewrite Hcur, length_app. simpl. f_equal. lia. }
  destruct (Hall [] (Nat.le_0_l _) added eq_refl) as (l & ? & ? & Hc).
  exists l. split; [done|]. split; [done|]. intros i. by rewrite Hc.
Qed.

(** Python's list indexing. *)
Lemma list_getitem_nonneg {A} (l : list A) (i : Z) :
  0 ≤ i < Z.of_nat (length l) →
  ∃ a, l !! Z.to_nat i = Some a ∧ list_getitem l i = Returns a.
Proof.
  intros Hi. unfold list_getitem.
  destruct (lookup_lt_is_Some_2 l (Z.to_nat i)) as [a Ha]; [lia|].
  exists a. split; [done|].
  destruct (Z.ltb_spec i 0); [lia|].
  destruct (Z.ltb_spec i 0); [lia|].
  destruct (Z.leb_spec (Z.of_nat (length l)) i); [lia|].
  simpl. by rewrite Ha.
Qed.

Lemma list_getitem_negative {A} (l : list A) (i : Z) :
  - Z.of_nat (length l) ≤ i < 0 →
  list_getitem l i = list_getitem l (i + Z.of_nat (length l)).
Proof.
  intros Hi. unfold list_getitem.
  destruct (Z.ltb_spec i 0); [|lia].
  destruct (Z.ltb_spec (i + Z.of_nat (length l)) 0); [lia|].
  destruct (Z.ltb_spec (i + Z.of_nat (length l)) 0); [lia|].
  done.
Qed.

Lemma list_getitem_out_of_range {A} (l : list A) (i : Z) :
  i < - Z.of_nat (length l) ∨ Z.of_nat (length l) ≤ i →
  list_getitem l i = Raises IndexError.
Proof.
  intros Hi. unfold list_getitem.
  destruct (Z.ltb_spec i 0).
  - destruct (Z.ltb_spec (i + Z.of_nat (length l)) 0); [done|lia].
  - destruct (Z.ltb_spec i 0); [lia|].
    destruct (Z.leb_spec (Z.of_nat (length l)) i); [done|lia].
Qed.

(** ** Strings: [fnmatch] with [*.bam] and [os.path.splitext] *)

Section strings.

Local Open Scope Z_scope.

Lemma app_String a s t : String a s +:+ t = String a (s +:+ t).
Proof. reflexivity. Qed.

Lemma app_empty t : "" +:+ t = t.
Proof. reflexivity. Qed.

Lemma fnmatch_star pat name :
  fnmatch.fnmatch_from (String "*" pat) name
  = fnmatch.fnmatch_from pat name
    || match name with
       | EmptyString => false
       | String _ name' => fnmatch.fnmatch_from (String "*" pat) name'
       end.
Proof. by destruct name. Qed.

Lemma fnmatch_dot_bam name :
  fnmatch.fnmatch_from ".bam" name = true ↔ name = ".bam".
Proof.
  split; [|by intros ->].
  destruct name as [|a1 [|a2 [|a3 [|a4 [|a5 name]]]]]; simpl; intros H;
    repeat match type of H with
           | _ && _ = true => apply andb_true_iff in H as [?%bool_decide_eq_true H]
           end;
    first [discriminate | by subst].
Qed.

(** [*.bam] matches exactly the names that end in [.bam], in that case. *)
Lemma fnmatch_bam name :
  fnmatch.fnmatch name "*.bam" = true ↔ ∃ stem, name = stem +:+ ".bam".
Proof.
  unfold fnmatch.fnmatch. induction name as [|a name IH].
  - rewrite fnmatch_star, orb_false_r, fnmatch_dot_bam.
    split; [done|]. by intros [[|b stem] ?].
  - rewrite fnmatch_star, orb_true_iff, fnmatch_dot_bam, IH. split.
    + intros [->|[stem ->]]; [by exists "" | by exists (String a stem)].
    + intros [[|b stem] Heq]; [by left|].
      rewrite app_String in Heq. injection Heq as -> ->. right. by exists stem.
Qed.

Lemma rfind_lower c s : -1 ≤ py_str.rfind c s.
Proof.
  induction s as [|a s IH]; simpl; [lia|].
  destruct (Z.leb_spec 0 (py_str.rfind c s)); [lia|]. case_decide; lia.
Qed.

Lemma rfind_app_found c s t :
  0 ≤ py_str.rfind c t →
  py_str.rfind c (s +:+ t) = Z.of_nat (String.length s) + py_str.rfind c t.
Proof.
  intros Ht. induction s as [|a s IH]; [by rewrite app_empty|].
  rewrite app_String. simpl py_str.rfind. rewrite IH.
  destruct (Z.leb_spec 0 (Z.of_nat (String.length s) + py_str.rfind c t));
    simpl String.length; lia.
Qed.

Lemma rfind_app_absent c s t :
  py_str.rfind c t = -1 → py_str.rfind c (s +:+ t) = py_str.rfind c s.
Proof.
  intros Ht. induction s as [|a s IH]; [by rewrite app_empty|].
  rewrite app_String. simpl. by rewrite IH.
Qed.

Lemma take_app s t : py_str.take (String.length s) (s +:+ t) = s.
Proof.
  induction s as [|a s IH]; [by destruct t|].
  rewrite app_String. simpl. by rewrite IH.
Qed.

Lemma drop_app s t : py_str.drop (String.length s) (s +:+ t) = t.
Proof. induction s as [|a s IH]; [done|]. by rewrite app_String. Qed.

(** The scan of [_splitext] over a prefix: it succeeds exactly when the
    prefix has a character other than the dot. *)
Lemma other_than_prefix c s t :
  py_str.other_than c (s +:+ t) 0 (String.length s) = true
  ↔ ∃ s1 a s2, s = s1 +:+ String a s2 ∧ a ≠ c.
Proof.
  induction s as [|b s IH].
  - split; [by destruct t|]. by intros ([|??] & ? & ? & ? & _).
  - rewrite app_String. simpl. rewrite orb_true_iff, negb_true_iff, IH.
    rewrite bool_decide_eq_false. split.
    + intros [Hb|(s1 & a & s2 & -> & Ha)].
      * by exists "", b, s.
      * by exists (String b s1), a, s2.
    + intros ([|b' s1] & a & s2 & Heq & Ha).
      * rewrite app_empty in Heq. injection Heq as -> ->. by left.
      * rewrite app_String in Heq. injection Heq as -> ->. right.
        by exists s1, a, s2.
Qed.

(** [os.path.splitext] on a name that ends in [.bam] and has no slash:
    the root is the name without [.bam] when something other than a dot
    precedes the [.bam], and the whole name otherwise. *)
Lemma splitext_bam_root stem :
  py_str.rfind "/" stem = -1 →
  (∃ s1 a s2, stem = s1 +:+ String a s2 ∧ a ≠ "."%char) →
  os_path.splitext (stem +:+ ".bam") = (stem, ".bam").
Proof.
  intros Hsep Hother. unfold os_path.splitext.
  rewrite (rfind_app_absent "/" stem ".bam"), Hsep by done.
  rewrite (rfind_app_found "." stem ".bam") by done.
  change (py_str.rfind "." ".bam") with 0. rewrite Z.add_0_r, Nat2Z.id.
  change (Z.to_nat (-1 + 1)) with 0%nat.
  apply (other_than_prefix "." stem ".bam") in Hother. rewrite Hother.
  destruct (Z.ltb_spec (-1) (Z.of_nat (String.length stem))); [|lia].
  simpl. by rewrite take_app, drop_app.
Qed.

Lemma splitext_bam_dots stem :
  py_str.rfind "/" stem = -1 →
  (∀ s1 a s2, stem = s1 +:+ String a s2 → a = "."%char) →
  os_path.splitext (stem +:+ ".bam") = (stem +:+ ".bam", "").
Proof.
  intros Hsep Hdots. unfold os_path.splitext.
  rewrite (rfind_app_absent "/" stem ".bam"), Hsep by done.
  rewrite (rfind_app_found "." stem ".bam") by done.
  change (py_str.rfind "." ".bam") with 0. rewrite Z.add_0_r, Nat2Z.id.
  change (Z.to_nat (-1 + 1)) with 0%nat.
  destruct (py_str.other_than "." (stem +:+ ".bam") 0 (String.length stem))
    eqn:Hother; [|by rewrite andb_false_r].
  apply other_than_prefix in Hother as (s1 & a & s2 & Heq & Ha).
  by apply Hdots in Heq.
Qed.

End strings.

(** ** The catalogue *)

Section catalogue.

Context {VariantSet ReadGroupSet RnaQuantification SequenceAnnotation : Type}.
Context `{!DatamodelObject VariantSet, !DatamodelObject ReadGroupSet,
          !DatamodelObject RnaQuantification,
          !DatamodelObject SequenceAnnotation}.

Local Abbreviation Dataset :=
  (AbstractDataset (VariantSet := VariantSet) (ReadGroupSet := ReadGroupSet)
     (RnaQuantification := RnaQuantification)
     (SequenceAnnotation := SequenceAnnotation)).

Local Abbreviation add_call :=
  (add_call (VariantSet := VariantSet) (ReadGroupSet := ReadGroupSet)
     (RnaQuantification := RnaQuantification)
     (SequenceAnnotation := SequenceAnnotation)).

Lemma reflects_init localId :
  reflects [] (AbstractDataset_init localId : Dataset).
Proof. split; simpl; first [done | apply holds_latest_nil]. Qed.

Lemma reflects_perform (cs : list add_call) (d : Dataset) c :
  reflects cs d → reflects (cs ++ [c]) (perform c d).2.
Proof.
  intros [].
  split; unfold addedVariantSets, addedReadGroupSets,
    addedRnaQuantifications, addedSequenceAnnotations in *;
    rewrite omap_app; destruct c; simpl;
    rewrite ?app_nil_r, ?fmap_app; simpl;
    first [done | by f_equal | by apply holds_latest_snoc].
Qed.

Lemma reflects_described (cs : list add_call) (d : Dataset) description :
  reflects cs d → reflects cs (set_description description d).2.
Proof. by intros []. Qed.

Lemma built_reflects (cs : list add_call) (d : Dataset) :
  built cs d → reflects cs d.
Proof.
  induction 1;
    [apply reflects_init | by apply reflects_described
     | by apply reflects_perform].
Qed.

(** The adders never raise. *)
Lemma perform_returns c (d : Dataset) : (perform c d).1 = Returns tt.
Proof. by destruct c. Qed.

(** By-id and by-name lookups: the entity under the key, or the lookup's
    own exception, and the dataset as it was. *)
Lemma getVariantSet_spec id_ (d : Dataset) :
  getVariantSet id_ d =
    (match _variantSetIdMap d !! id_ with
     | Some v => Returns v
     | None => Raises (VariantSetNotFoundException id_)
     end, d).
Proof.
  unfold getVariantSet. run. unfold dict_getitem.
  by destruct (_variantSetIdMap d !! id_).
Qed.

Lemma getReadGroupSet_spec id_ (d : Dataset) :
  getReadGroupSet id_ d =
    (match _readGroupSetIdMap d !! id_ with
     | Some r => Returns r
     | None => Raises (ReadGroupNotFoundException id_)
     end, d).
Proof.
  unfold getReadGroupSet. run. unfold dict_getitem.
  by destruct (_readGroupSetIdMap d !! id_).
Qed.

Lemma getReadGroupSetByName_spec name (d : Dataset) :
  getReadGroupSetByName name d =
    (match _readGroupSetNameMap d !! name with
     | Some r => Returns r
     | None => Raises (ReadGroupSetNameNotFoundException name)
     end, d).
Proof.
  unfold getReadGroupSetByName. run. unfold dict_getitem.
  by destruct (_readGroupSetNameMap d !! name).
Qed.

Lemma getRnaQuantification_spec id_ (d : Dataset) :
  getRnaQuantification id_ d =
    (match _rnaQuantificationIdMap d !! id_ with
     | Some q => Returns q
     | None => Raises (RnaQuantificationNotFoundException id_)
     end, d).
Proof.
  unfold getRnaQuantification. run. unfold dict_getitem.
  by destruct (_rnaQuantificationIdMap d !! id_).
Qed.

Lemma getSequenceAnnotation_spec id_ (d : Dataset) :
  getSequenceAnnotation id_ d =
    (match _sequenceAnnotationIdMap d !! id_ with
     | Some a => Returns a
     | None => Raises (SequenceAnnotationNotFoundException id_)
     end, d).
Proof.
  unfold getSequenceAnnotation. run. unfold dict_getitem.
  by destruct (_sequenceAnnotationIdMap d !! id_).
Qed.

(** [getSequenceAnnotations] hands out the id list. *)
Lemma getSequenceAnnotations_ids cs (d : Dataset) :
  built cs d →
  getSequenceAnnotations d
  = (Returns (getId <$> addedSequenceAnnotations cs), d).
Proof.
  intros [] %built_reflects. unfold getSequenceAnnotations. run.
  by f_equal; f_equal.
Qed.

Lemma getAll_current {T} `{!DatamodelObject T}
    (m : gmap string T) (added : list T) :
  holds_latest getId m added →
  ∃ l, comprehension (dict_getitem m) (getId <$> added) = Returns l
       ∧ lists_current added l.
Proof.
  intros Hm. destruct (comprehension_current m added Hm) as (l & Hl & Hn & Hc).
  exists l. split; [done|]. split; [done|]. split; [done|].
  intros Hnd. apply list_eq. intros i. by rewrite Hc, current_NoDup.
Qed.

Lemma byIndex_current {T} `{!DatamodelObject T}
    (m : gmap string T) (added : list T) (i : Z) :
  holds_latest getId m added →
  let n := Z.of_nat (length added) in
  let answer (i : Z) :=
    match list_getitem (getId <$> added) i with
    | Returns k => dict_getitem m k
    | Raises e => Raises e
    end in
  (i < - n ∨ n ≤ i → answer i = Raises IndexError)
  ∧ (0 ≤ i < n →
     ∃ x, current added (Z.to_nat i) = Some x
          ∧ (NoDup (getId <$> added) → added !! Z.to_nat i = Some x)
          ∧ answer i = Returns x)
  ∧ (- n ≤ i < 0 → answer i = answer (i + n)).
Proof.
  intros Hm n answer. subst answer n. simpl.
  split; [|split].
  - intros Hi. rewrite list_getitem_out_of_range; [done|].
    by rewrite length_fmap.
  - intros Hi.
    destruct (list_getitem_nonneg (getId <$> added) i) as (k & Hk & ->).
    { by rewrite length_fmap. }
    rewrite list_lookup_fmap in Hk.
    destruct (added !! Z.to_nat i) as [v|] eqn:Hv; [|done].
    injection Hk as <-.
    destruct (current_length added (Z.to_nat i)) as [x Hx]; [lia|].
    exists x. split; [done|]. split.
    + intros Hnd. by rewrite <- Hx, current_NoDup.
    + unfold dict_getitem. rewrite Hm.
      unfold current in Hx. rewrite Hv in Hx. by rewrite Hx.
  - intros Hi. rewrite list_getitem_negative; [|by rewrite length_fmap].
    by rewrite length_fmap.
Qed.

Lemma indexes_current_answer {T} `{!DatamodelObject T}
    (getByIndex : Z → Dataset → outcome T * Dataset)
    (added : list T) (d : Dataset) (m : gmap string T) :
  holds_latest getId m added →
  (∀ i, getByIndex i d =
          (match list_getitem (getId <$> added) i with
           | Returns k => dict_getitem m k
           | Raises e => Raises e
           end, d)) →
  indexes_current getByIndex added d.
Proof.
  intros Hm Hget i.
  destruct (byIndex_current m added i Hm) as (Hout & Hin & Hneg).
  rewrite !Hget. split; [|split].
  - intros Hi. by rewrite (Hout Hi).
  - intros Hi. destruct (Hin Hi) as (x & Hx & Hnd & Hans).
    exists x. by rewrite Hans.
  - intros Hi. by rewrite (Hneg Hi).
Qed.

Lemma built_for_in (cs cs' : list add_call) (d : Dataset) :
  built cs d → built (cs ++ cs') (for_in cs' perform d).2.
Proof.
  revert cs d. induction cs' as [|c cs' IH]; intros cs d Hd.
  - by rewrite app_nil_r.
  - replace (cs ++ c :: cs') with ((cs ++ [c]) ++ cs')
      by (by rewrite <- app_assoc).
    apply (built_add _ _ c), IH in Hd. simpl. run.
    by destruct (perform c d) as [[[]|e] d'] eqn:Hp;
      [| pose proof (perform_returns c d) as Hr; rewrite Hp in Hr].
Qed.

Lemma filter_agree {A} (P Q : A → Prop)
    `{!∀ x, Decision (P x), !∀ x, Decision (Q x)} (l : list A) :
  (∀ x, x ∈ l → P x ↔ Q x) → filter P l = filter Q l.
Proof.
  induction l as [|a l IH]; intros HPQ; [done|].
  rewrite !filter_cons.
  rewrite IH by (intros x Hx; apply HPQ; by right).
  pose proof (HPQ a (list_elem_of_here _ _)) as Hiff.
  destruct (decide (P a)), (decide (Q a)); first [done | tauto].
Qed.

(** ** The claims on the catalogue *)

(** C1 (as amended): for every dataset and every collection, adding an
    entity that meets an entry already there (one under its id or, for a
    read-group set, one under its local name) does not fail.  The call
    returns normally, the id is appended once more to the collection's id
    list, so the count grows by one, and the entity replaces what was
    stored under its id (and, for a read-group set, under its local name). *)
Theorem add_on_collision_overwrites (d : Dataset) (c : add_call) :
  collides c d →
  ∃ d', perform c d = (Returns tt, d')
        ∧ collection_ids c d' = collection_ids c d ++ [added_id c]
        ∧ length (collection_ids c d') = S (length (collection_ids c d))
        ∧ stored c d'.
Proof.
  intros _. exists (perform c d).2.
  destruct c; simpl; rewrite ?length_app, ?lookup_insert_eq; simpl;
    repeat split; lia.
Qed.

(** C2 (as amended): for variant sets, read-group sets and RNA
    quantifications, after any sequence of add calls the accessor that
    lists the collection returns normally, leaves the dataset as it was,
    and returns a list as long as the collection's count which holds, at
    each position, the entity added last under the id added at that
    position; when the ids added are pairwise distinct this is the list of
    the added entities in insertion order. *)
Theorem getAll_lists_current (cs : list add_call) (d : Dataset) :
  built cs d →
  (∃ l, getVariantSets d = (Returns l, d)
        ∧ getNumVariantSets d = (Returns (Z.of_nat (length l)), d)
        ∧ lists_current (addedVariantSets cs) l)
  ∧ (∃ l, getReadGroupSets d = (Returns l, d)
          ∧ getNumReadGroupSets d = (Returns (Z.of_nat (length l)), d)
          ∧ lists_current (addedReadGroupSets cs) l)
  ∧ (∃ l ids, getRnaQuantifications d = (Returns l, d)
              ∧ getRnaQuantificationIds d = (Returns ids, d)
              ∧ length ids = length l
              ∧ lists_current (addedRnaQuantifications cs) l).
Proof.
  intros [Hv Hvm Hr Hrm _ Hq Hqm _ _] %built_reflects.
  split; [|split].
  - destruct (getAll_current _ _ Hvm) as (l & Hl & Hc). exists l.
    unfold getVariantSets, getNumVariantSets. run.
    rewrite Hv, Hl, length_fmap. pose proof Hc as [Hn _]. by rewrite Hn.
  - destruct (getAll_current _ _ Hrm) as (l & Hl & Hc). exists l.
    unfold getReadGroupSets, getNumReadGroupSets. run.
    rewrite Hr, Hl, length_fmap. pose proof Hc as [Hn _]. by rewrite Hn.
  - destruct (getAll_current _ _ Hqm) as (l & Hl & Hc).
    exists l, (_rnaQuantificationIds d).
    unfold getRnaQuantifications, getRnaQuantificationIds. run.
    rewrite Hq, Hl, length_fmap. pose proof Hc as [Hn _]. by rewrite Hn.
Qed.

(** C4 (as amended): in a dataset built by add calls, with [n] the count
    of the collection, [getVariantSetByIndex(i)] and
    [getReadGroupSetByIndex(i)] raise Python's [IndexError] when [i < -n]
    or [n <= i]; for [0 <= i < n] they return the entity added last under
    the id added at position [i], which is the entity added at position
    [i] when the ids are pairwise distinct; for [-n <= i < 0] they answer
    as for [i + n].  The dataset is left as it was. *)
Theorem getByIndex_indexes_current (cs : list add_call) (d : Dataset) :
  built cs d →
  indexes_current getVariantSetByIndex (addedVariantSets cs) d
  ∧ indexes_current getReadGroupSetByIndex (addedReadGroupSets cs) d.
Proof.
  intros [Hv Hvm Hr Hrm _ _ _ _ _] %built_reflects. split.
  - apply (indexes_current_answer _ _ _ _ Hvm). intros i.
    unfold getVariantSetByIndex. run. rewrite Hv.
    by destruct (list_getitem _ i).
  - apply (indexes_current_answer _ _ _ _ Hrm). intros i.
    unfold getReadGroupSetByIndex. run. rewrite Hr.
    by destruct (list_getitem _ i).
Qed.

(** C8 (as amended): in every dataset built by a sequence of add calls
    whose read-group
    sets have ids that go with their local names (two of them have the
    same id exactly when they have the same local name, as compound ids
    made of the dataset's id and the local name do), the name map and the
    id map of the read-group sets hold the same entities; and what
    [getReadGroupSetByName(name)] returns is what [getReadGroupSet]
    returns for its [getId()]. *)
Theorem name_map_agrees_with_id_map (cs : list add_call) (d : Dataset) :
  built cs d →
  (∀ r1 r2, r1 ∈ addedReadGroupSets cs → r2 ∈ addedReadGroupSets cs →
     getId r1 = getId r2 ↔ getLocalId r1 = getLocalId r2) →
  (∀ r, (∃ name, _readGroupSetNameMap d !! name = Some r)
        ↔ (∃ id_, _readGroupSetIdMap d !! id_ = Some r))
  ∧ (∀ name r d', getReadGroupSetByName name d = (Returns r, d') →
       d' = d ∧ getReadGroupSet (getId r) d = (Returns r, d)).
Proof.
  intros [_ _ _ Hid Hname _ _ _ _] %built_reflects Hkeys.
  assert (Hsame : ∀ r, r ∈ addedReadGroupSets cs →
            filter (λ y, getLocalId y = getLocalId r) (addedReadGroupSets cs)
            = filter (λ y, getId y = getId r) (addedReadGroupSets cs)).
  { intros r Hr. apply filter_agree. intros y Hy. symmetry. by apply Hkeys. }
  assert (Hto : ∀ name r, _readGroupSetNameMap d !! name = Some r →
            _readGroupSetIdMap d !! getId r = Some r).
  { intros name r Hn.
    destruct (holds_latest_elem _ _ _ _ _ Hname Hn) as [Hr <-].
    by rewrite Hid, <- Hsame, <- Hname. }
  assert (Hfrom : ∀ id_ r, _readGroupSetIdMap d !! id_ = Some r →
            _readGroupSetNameMap d !! getLocalId r = Some r).
  { intros id_ r Hi.
    destruct (holds_latest_elem _ _ _ _ _ Hid Hi) as [Hr <-].
    by rewrite Hname, Hsame, <- Hid. }
  split.
  - intros r. split; intros [k Hk]; eauto.
  - intros name r d'. rewrite getReadGroupSetByName_spec, getReadGroupSet_spec.
    destruct (_readGroupSetNameMap d !! name) as [r'|] eqn:Hn; [|done].
    intros [= -> <-]. by rewrite (Hto _ _ Hn).
Qed.

End catalogue.

(** ** The catalogue on the concrete instance *)

Lemma built_after (cs : sample.calls) : built cs (sample.after cs).
Proof. apply (built_for_in [] cs), built_init. Qed.

Lemma add_on_collision_overwrites_witness :
  collides (AddVariantSet sample.vs1') sample.one
  ∧ ∃ d', perform (AddVariantSet sample.vs1') sample.one = (Returns tt, d')
          ∧ collection_ids (AddVariantSet sample.vs1') d'
            = collection_ids (AddVariantSet sample.vs1') sample.one
              ++ [added_id (AddVariantSet sample.vs1')]
          ∧ length (collection_ids (AddVariantSet sample.vs1') d')
            = S (length (collection_ids (AddVariantSet sample.vs1') sample.one))
          ∧ stored (AddVariantSet sample.vs1') d'.
Proof.
  assert (H : collides (AddVariantSet sample.vs1') sample.one).
  { exists sample.vs1. vm_compute. reflexivity. }
  split; [exact H|].
  exact (add_on_collision_overwrites sample.one (AddVariantSet sample.vs1') H).
Defined.

(** C1 fails on the code: a second variant set under the id [ds:vs1] is
    accepted.  The add returns normally, the count goes from 1 to 2 and
    the entry under the id is replaced. *)
Lemma duplicate_id_is_accepted :
  collides (AddVariantSet sample.vs1') sample.one
  ∧ (perform (AddVariantSet sample.vs1') sample.one).1 = Returns tt
  ∧ (getNumVariantSets sample.one).1 = Returns 1
  ∧ (getNumVariantSets (perform (AddVariantSet sample.vs1') sample.one).2).1
    = Returns 2
  ∧ _variantSetIdMap sample.one !! "ds:vs1" = Some sample.vs1
  ∧ _variantSetIdMap (perform (AddVariantSet sample.vs1') sample.one).2
      !! "ds:vs1" = Some sample.vs1'.
Proof.
  split; [exists sample.vs1; vm_compute; reflexivity|].
  repeat split; vm_compute; reflexivity.
Qed.

Lemma getAll_lists_current_witness :
  built sample.mixed (sample.after sample.mixed)
  ∧ (∃ l, getVariantSets (sample.after sample.mixed)
          = (Returns l, sample.after sample.mixed)
          ∧ getNumVariantSets (sample.after sample.mixed)
            = (Returns (Z.of_nat (length l)), sample.after sample.mixed)
          ∧ lists_current (addedVariantSets sample.mixed) l)
  ∧ (∃ l, getReadGroupSets (sample.after sample.mixed)
          = (Returns l, sample.after sample.mixed)
          ∧ getNumReadGroupSets (sample.after sample.mixed)
            = (Returns (Z.of_nat (length l)), sample.after sample.mixed)
          ∧ lists_current (addedReadGroupSets sample.mixed) l)
  ∧ (∃ l ids, getRnaQuantifications (sample.after sample.mixed)
              = (Returns l, sample.after sample.mixed)
              ∧ getRnaQuantificationIds (sample.after sample.mixed)
                = (Returns ids, sample.after sample.mixed)
              ∧ length ids = length l
              ∧ lists_current (addedRnaQuantifications sample.mixed) l).
Proof.
  split; [apply built_after|].
  exact (getAll_lists_current sample.mixed (sample.after sample.mixed)
           (built_after sample.mixed)).
Defined.

(** C2 fails on the code: after [vs1] and then [vs1'], which has the id of
    [vs1], [getVariantSets] returns [vs1'] twice, not the two entities in
    the order they were added. *)
Lemma getVariantSets_repeats_latest :
  built sample.twice (sample.after sample.twice)
  ∧ addedVariantSets sample.twice = [sample.vs1; sample.vs1']
  ∧ getVariantSets (sample.after sample.twice)
    = (Returns [sample.vs1'; sample.vs1'], sample.after sample.twice)
  ∧ [sample.vs1'; sample.vs1'] ≠ [sample.vs1; sample.vs1'].
Proof.
  split; [apply built_after|].
  split; [reflexivity|]. split; [vm_compute; reflexivity|]. discriminate.
Qed.

(** C3 fails on the code at the read-group sets: looking up an id that is
    not there raises [ReadGroupNotFoundException], the exception of a
    read group, where the method's own docstring promises
    [ReadGroupSetNotFoundException]. *)
Theorem getReadGroupSet_raises_read_group_error :
  getReadGroupSet "ds:rg1" sample.empty
  = (Raises (ReadGroupNotFoundException "ds:rg1"), sample.empty)
  ∧ ReadGroupNotFoundException "ds:rg1"
    ≠ ReadGroupSetNotFoundException "ds:rg1".
Proof. split; [vm_compute; reflexivity | discriminate]. Qed.

Lemma getByIndex_indexes_current_witness :
  built sample.mixed (sample.after sample.mixed)
  ∧ indexes_current getVariantSetByIndex (addedVariantSets sample.mixed)
      (sample.after sample.mixed)
  ∧ indexes_current getReadGroupSetByIndex (addedReadGroupSets sample.mixed)
      (sample.after sample.mixed).
Proof.
  split; [apply built_after|].
  exact (getByIndex_indexes_current sample.mixed (sample.after sample.mixed)
           (built_after sample.mixed)).
Defined.

(** C4 fails on the code: with one variant set in the dataset, index -1 is
    outside [0 <= i < 1], yet [getVariantSetByIndex(-1)] returns the
    variant set.  And after [vs1] and then [vs1'] under the same id,
    index 0 gives [vs1'], which was added at position 1. *)
Lemma getVariantSetByIndex_accepts_negative :
  getNumVariantSets sample.one = (Returns 1, sample.one)
  ∧ ¬ (0 ≤ -1 < 1)
  ∧ getVariantSetByIndex (-1) sample.one = (Returns sample.vs1, sample.one)
  ∧ addedVariantSets sample.twice !! 0%nat = Some sample.vs1
  ∧ getVariantSetByIndex 0 (sample.after sample.twice)
    = (Returns sample.vs1', sample.after sample.twice)
  ∧ sample.vs1' ≠ sample.vs1.
Proof.
  split; [vm_compute; reflexivity|]. split; [lia|].
  split; [vm_compute; reflexivity|]. split; [reflexivity|].
  split; [vm_compute; reflexivity | discriminate].
Qed.

Lemma name_map_agrees_with_id_map_witness :
  built sample.mixed (sample.after sample.mixed)
  ∧ (∀ r1 r2, r1 ∈ addedReadGroupSets sample.mixed →
       r2 ∈ addedReadGroupSets sample.mixed →
       getId r1 = getId r2 ↔ getLocalId r1 = getLocalId r2)
  ∧ (∀ r, (∃ name,
             _readGroupSetNameMap (sample.after sample.mixed) !! name = Some r)
          ↔ (∃ id_,
               _readGroupSetIdMap (sample.after sample.mixed) !! id_ = Some r))
  ∧ (∀ name r d',
       getReadGroupSetByName name (sample.after sample.mixed)
       = (Returns r, d') →
       d' = sample.after sample.mixed
       ∧ getReadGroupSet (getId r) (sample.after sample.mixed)
         = (Returns r, sample.after sample.mixed)).
Proof.
  assert (H : ∀ r1 r2 : sample.resource,
            r1 ∈ addedReadGroupSets sample.mixed →
            r2 ∈ addedReadGroupSets sample.mixed →
            getId r1 = getId r2 ↔ getLocalId r1 = getLocalId r2).
  { intros r1 r2 H1 H2. change (r1 ∈ [sample.rg1; sample.rg2]) in H1.
    change (r2 ∈ [sample.rg1; sample.rg2]) in H2.
    rewrite !elem_of_cons, elem_of_nil in H1, H2.
    destruct H1 as [->|[->|[]]], H2 as [->|[->|[]]];
      split; first [reflexivity | discriminate]. }
  split; [apply built_after|]. split; [exact H|].
  exact (name_map_agrees_with_id_map sample.mixed (sample.after sample.mixed)
           (built_after sample.mixed) H).
Defined.

(** C8 fails on the code: after a read-group set with the id [ds:rg1] and
    the local name [rg1], one with the id [other:rg1] and the same local
    name is added.  Both adds return.  The first is still retrievable by
    its id, but the name [rg1] now gives the second, and no name gives the
    first: the id map holds two entities and the name map one. *)
Lemma same_name_drops_out_of_name_map :
  let d := sample.after sample.homonyms in
  built sample.homonyms d
  ∧ (for_in sample.homonyms perform sample.empty).1 = Returns tt
  ∧ getReadGroupSet "ds:rg1" d = (Returns sample.rg1, d)
  ∧ getReadGroupSetByName "rg1" d = (Returns sample.namesake, d)
  ∧ sample.namesake ≠ sample.rg1
  ∧ (∃ id_, _readGroupSetIdMap d !! id_ = Some sample.rg1)
  ∧ ¬ (∃ name, _readGroupSetNameMap d !! name = Some sample.rg1)
  ∧ size (_readGroupSetIdMap d) = 2%nat
  ∧ size (_readGroupSetNameMap d) = 1%nat.
Proof.
  intros d.
  assert (Hnames : _readGroupSetNameMap d = {["rg1" := sample.namesake]})
    by (vm_compute; reflexivity).
  split_and!.
  - apply built_after.
  - vm_compute; reflexivity.
  - vm_compute; reflexivity.
  - vm_compute; reflexivity.
  - discriminate.
  - exists "ds:rg1". vm_compute; reflexivity.
  - intros [name Hname]. rewrite Hnames in Hname.
    apply lookup_singleton_Some in Hname as [_ Hname]. discriminate.
  - vm_compute; reflexivity.
  - vm_compute; reflexivity.
Qed.

(** ** The loaders *)

Section loaders.

Context {VariantSet ReadGroupSet RnaQuantification SequenceAnnotation : Type}.
Context `{!DatamodelObject VariantSet, !DatamodelObject ReadGroupSet,
          !DatamodelObject RnaQuantification,
          !DatamodelObject SequenceAnnotation}.
Context {ReferenceSet Backend Density : Type}.
Context `{!Collaborators (VariantSet := VariantSet)
            (ReadGroupSet := ReadGroupSet)
            (RnaQuantification := RnaQuantification)
            (SequenceAnnotation := SequenceAnnotation)
            (ReferenceSet := ReferenceSet) (Backend := Backend)
            (Density := Density)}.

Local Abbreviation Dataset :=
  (AbstractDataset (VariantSet := VariantSet) (ReadGroupSet := ReadGroupSet)
     (RnaQuantification := RnaQuantification)
     (SequenceAnnotation := SequenceAnnotation)).

Local Abbreviation method :=
  (method (VariantSet := VariantSet) (ReadGroupSet := ReadGroupSet)
     (RnaQuantification := RnaQuantification)
     (SequenceAnnotation := SequenceAnnotation)).

Lemma bind_returns {A B} (m : method A) (k : A → method B) d a d' :
  m d = (Returns a, d') → (m ≫= k) d = k a d'.
Proof. intros Hm. run. by rewrite Hm. Qed.

Lemma bind_raises {A B} (m : method A) (k : A → method B) d e d' :
  m d = (Raises e, d') → (m ≫= k) d = (Raises e, d').
Proof. intros Hm. run. by rewrite Hm. Qed.

Lemma seq_returns {B} (m : method unit) (k : method B) d d' :
  m d = (Returns tt, d') → (m ;; k) d = k d'.
Proof. exact (bind_returns m (λ _, k) d tt d'). Qed.

(** A loop stops at the first entry whose body raises. *)
Lemma for_in_raises {X} (body : X → method unit) pre x post d d1 e d2 :
  for_in pre body d = (Returns tt, d1) →
  body x d1 = (Raises e, d2) →
  for_in (pre ++ x :: post) body d = (Raises e, d2).
Proof.
  revert d. induction pre as [|y pre IH]; intros d Hpre Hx; simpl in *.
  - injection Hpre as <-. by apply bind_raises.
  - revert Hpre. run. destruct (body y d) as [[[]|e'] d'] eqn:Hy; [|done].
    intros Hpre. by apply IH.
Qed.

Section constructs.

Context {X E : Type} (body : X → method unit) (q : X → bool).
Context (ctor : Dataset → X → outcome E) (add : E → method unit).

Hypothesis add_returns : ∀ e d, (add e d).1 = Returns tt.
Hypothesis add_localId : ∀ e d, _localId (add e d).2 = _localId d.
Hypothesis body_eq : ∀ x d,
  body x d = if q x
             then match ctor d x with
                  | Returns e => add e d
                  | Raises err => (Raises err, d)
                  end
             else (Returns tt, d).

Lemma add_run e d : add e d = (Returns tt, (add e d).2).
Proof. rewrite <- (add_returns e d). by destruct (add e d). Qed.

(** A loop that constructs an entity for each entry that qualifies and
    adds it: when the constructions succeed, it returns, and what it did
    is add one entity per qualifying entry, in order. *)
Lemma for_in_constructs xs d :
  (∀ self x, x ∈ xs → q x = true → returned (ctor self x)) →
  ∃ es, for_in xs body d = (Returns tt, (for_in es add d).2)
        ∧ Forall2 (λ x e, ∃ self, _localId self = _localId d
                                  ∧ ctor self x = Returns e)
            (filter (λ x, q x = true) xs) es.
Proof.
  revert d. induction xs as [|x xs IH]; intros d Hok.
  - by exists [].
  - assert (Hxs : ∀ self y, y ∈ xs → q y = true → returned (ctor self y)).
    { intros self y Hy. apply Hok. by right. }
    simpl for_in. run. rewrite body_eq. destruct (q x) eqn:Hq.
    + pose proof (Hok d x (list_elem_of_here _ _) Hq) as Hx.
      destruct (ctor d x) as [e|err] eqn:He; [|done].
      destruct (IH (add e d).2 Hxs) as (es & Hrun & Hall).
      exists (e :: es). rewrite filter_cons_True by done.
      simpl for_in. run. rewrite add_run. split; [done|].
      constructor; [by exists d|].
      eapply Forall2_impl; [exact Hall|].
      intros y e' (self & Hself & Hy). exists self.
      by rewrite Hself, add_localId.
    + destruct (IH d Hxs) as (es & Hrun & Hall).
      exists es. rewrite filter_cons_False by (by rewrite Hq). done.
Qed.

End constructs.

(** What a run of adds leaves in the id lists. *)
Lemma for_in_addVariantSet_ids es (d : Dataset) :
  _variantSetIds (for_in es addVariantSet d).2
  = _variantSetIds d ++ (getId <$> es).
Proof.
  revert d. induction es as [|e es IH]; intros d; simpl.
  - by rewrite app_nil_r.
  - run. simpl. rewrite IH. simpl. by rewrite <- app_assoc.
Qed.

Lemma for_in_addReadGroupSet_ids es (d : Dataset) :
  _readGroupSetIds (for_in es addReadGroupSet d).2
  = _readGroupSetIds d ++ (getId <$> es).
Proof.
  revert d. induction es as [|e es IH]; intros d; simpl.
  - by rewrite app_nil_r.
  - run. simpl. rewrite IH. simpl. by rewrite <- app_assoc.
Qed.

Lemma for_in_addRnaQuantification_ids es (d : Dataset) :
  _rnaQuantificationIds (for_in es addRnaQuantification d).2
  = _rnaQuantificationIds d ++ (getId <$> es).
Proof.
  revert d. induction es as [|e es IH]; intros d; simpl.
  - by rewrite app_nil_r.
  - run. simpl. rewrite IH. simpl. by rewrite <- app_assoc.
Qed.

Lemma for_in_addSequenceAnnotation_ids es (d : Dataset) :
  _sequenceAnnotationIds (for_in es addSequenceAnnotation d).2
  = _sequenceAnnotationIds d ++ (getId <$> es).
Proof.
  revert d. induction es as [|e es IH]; intros d; simpl.
  - by rewrite app_nil_r.
  - run. simpl. rewrite IH. simpl. by rewrite <- app_assoc.
Qed.

(** The loop bodies of the loader, entry by entry. *)
Lemma variantSetEntry_eq fs dir backend x (d : Dataset) :
  variantSetEntry fs dir backend x d
  = if isdir fs (os_path.join dir x)
    then match variants_HtslibVariantSet d x (os_path.join dir x) backend with
         | Returns e => addVariantSet e d
         | Raises err => (Raises err, d)
         end
    else (Returns tt, d).
Proof.
  unfold variantSetEntry. destruct (isdir fs _); [|done]. run.
  by destruct (variants_HtslibVariantSet d x _ backend).
Qed.

Lemma readGroupSetEntry_eq dir backend x (d : Dataset) :
  readGroupSetEntry dir backend x d
  = if fnmatch.fnmatch x "*.bam"
    then match reads_HtslibReadGroupSet d (os_path.splitext x).1
                 (os_path.join dir x) backend with
         | Returns e => addReadGroupSet e d
         | Raises err => (Raises err, d)
         end
    else (Returns tt, d).
Proof.
  unfold readGroupSetEntry. destruct (fnmatch.fnmatch x _); [|done]. run.
  by destruct (reads_HtslibReadGroupSet d _ _ backend).
Qed.

Lemma rnaQuantificationEntry_eq fs dir x (d : Dataset) :
  rnaQuantificationEntry fs dir x d
  = if isdir fs (os_path.join dir x)
    then match rnaQuantification_RNASeqResult d x (os_path.join dir x) with
         | Returns e => addRnaQuantification e d
         | Raises err => (Raises err, d)
         end
    else (Returns tt, d).
Proof.
  unfold rnaQuantificationEntry. destruct (isdir fs _); [|done]. run.
  by destruct (rnaQuantification_RNASeqResult d x _).
Qed.

Lemma sequenceAnnotationEntry_eq dir x (d : Dataset) :
  sequenceAnnotationEntry dir x d
  = if true
    then match sequenceAnnotations_SequenceAnnotation d x
                 (os_path.join dir x) with
         | Returns e => addSequenceAnnotation e d
         | Raises err => (Raises err, d)
         end
    else (Returns tt, d).
Proof.
  unfold sequenceAnnotationEntry. run.
  by destruct (sequenceAnnotations_SequenceAnnotation d x _).
Qed.

Lemma filter_all_true {A} (l : list A) : filter (λ _, true = true) l = l.
Proof.
  induction l as [|a l IH]; [done|]. rewrite filter_cons_True by done.
  by rewrite IH.
Qed.

Lemma perform_localId c (d : Dataset) : _localId (perform c d).2 = _localId d.
Proof. by destruct c. Qed.

(** A block of the loader: a directory that cannot be listed is fatal, and
    so is the first entry whose body raises. *)
Lemma listdir_not_a_directory fs dir :
  isdir fs dir = false → listdir fs dir = Raises (OSError dir).
Proof. unfold isdir, listdir. by destruct (fs !! dir) as [[]|]. Qed.

Lemma block_unlistable fs dir (body : string → method unit) (d : Dataset) e :
  listdir fs dir = Raises e →
  (entries ← call (listdir fs dir); for_in entries body) d = (Raises e, d).
Proof. intros Hl. run. by rewrite Hl. Qed.

Lemma block_listed fs dir (body : string → method unit) (d : Dataset) entries :
  listdir fs dir = Returns entries →
  (entries ← call (listdir fs dir); for_in entries body) d
  = for_in entries body d.
Proof. intros Hl. run. by rewrite Hl. Qed.

Lemma keeps_bind {A B C} (f : Dataset → A) (m : method B) (k : B → method C) :
  keeps f m → (∀ b, keeps f (k b)) → keeps f (m ≫= k).
Proof.
  intros Hm Hk d. run. specialize (Hm d).
  destruct (m d) as [[b|e] d']; simpl in *; [|done]. by rewrite Hk.
Qed.

Lemma keeps_for_in {A X} (f : Dataset → A) (body : X → method unit) xs :
  (∀ x, keeps f (body x)) → keeps f (for_in xs body).
Proof.
  intros Hbody. induction xs as [|x xs IH]; [done|].
  simpl. apply keeps_bind; [apply Hbody | by intros _].
Qed.

Lemma keeps_call {A B} (f : Dataset → A) (o : outcome B) : keeps f (call o).
Proof. done. Qed.

Lemma keeps_block {A} (f : Dataset → A) fs dir (body : string → method unit) :
  (∀ x, keeps f (body x)) →
  keeps f (entries ← call (listdir fs dir); for_in entries body).
Proof.
  intros Hbody. apply keeps_bind; [done|]. intros xs. by apply keeps_for_in.
Qed.

Lemma keeps_construct_add {A E} (f : Dataset → A)
    (ctor : Dataset → outcome E) (add : E → method unit) :
  (∀ e, keeps f (add e)) →
  keeps f (self ← this; e ← call (ctor self); add e).
Proof.
  intros Hadd. apply keeps_bind; [done|]. intros self.
  apply keeps_bind; [done|]. done.
Qed.

(** The four blocks leave the description and the local id alone. *)
Lemma blocks_keep {A} (f : Dataset → A) fs dataDir backend :
  (∀ e, keeps f (addVariantSet e)) →
  (∀ e, keeps f (addReadGroupSet e)) →
  (∀ e, keeps f (addRnaQuantification e)) →
  (∀ e, keeps f (addSequenceAnnotation e)) →
  keeps f (loadVariantSets fs dataDir backend ;;
           loadReadGroupSets fs dataDir backend ;;
           loadRnaQuantifications fs dataDir ;;
           loadSequenceAnnotations fs dataDir).
Proof.
  intros Hv Hr Hq Ha.
  apply keeps_bind; [|intros _; apply keeps_bind;
                      [|intros _; apply keeps_bind; [|intros _]]];
    apply keeps_block; intros x.
  - unfold variantSetEntry. destruct (isdir fs _); [|done].
    by apply keeps_construct_add.
  - unfold readGroupSetEntry. destruct (fnmatch.fnmatch x _); [|done].
    by apply (keeps_construct_add f
                (λ self, reads_HtslibReadGroupSet self _ _ backend)).
  - unfold rnaQuantificationEntry. destruct (isdir fs _); [|done].
    by apply keeps_construct_add.
  - unfold sequenceAnnotationEntry. by apply keeps_construct_add.
Qed.

Lemma seq_assoc {A B C} (m : method A) (n : method B) (k : method C) d :
  ((m ;; n) ;; k) d = (m ;; n ;; k) d.
Proof. run. by destruct (m d) as [[a|e] d']. Qed.

(** ** The claims on the loaders *)

(** C6 (as amended): for every file system load, a filename listed in
    [reads/] yields a read-group set if and only if it matches [*.bam],
    that is, ends in [.bam] in exactly that case; a filename that does not
    match is skipped without error.  A matching file is added with the
    local id that [os.path.splitext] gives as root: the filename without
    its final [.bam] when a character other than a dot precedes it, and
    the whole filename when only dots, or nothing, precede it (as for the
    file [.bam]). *)
Theorem reads_scan_adds_bam_files fs dataDir backend entries (d : Dataset) :
  let readGroupSetDir := os_path.join dataDir "reads" in
  listdir fs readGroupSetDir = Returns entries →
  (∀ self filename,
     filename ∈ entries → fnmatch.fnmatch filename "*.bam" = true →
     returned (reads_HtslibReadGroupSet self (os_path.splitext filename).1
                 (os_path.join readGroupSetDir filename) backend)) →
  (∀ filename, fnmatch.fnmatch filename "*.bam" = true
               ↔ ∃ stem, filename = stem +:+ ".bam")
  ∧ (∀ stem, py_str.rfind "/" stem = -1 →
       ((∃ s1 a s2, stem = s1 +:+ String a s2 ∧ a ≠ "."%char) →
        (os_path.splitext (stem +:+ ".bam")).1 = stem)
       ∧ ((∀ s1 a s2, stem = s1 +:+ String a s2 → a = "."%char) →
          (os_path.splitext (stem +:+ ".bam")).1 = stem +:+ ".bam"))
  ∧ ∃ rgss,
      loadReadGroupSets fs dataDir backend d
      = (Returns tt, (for_in rgss addReadGroupSet d).2)
      ∧ _readGroupSetIds (for_in rgss addReadGroupSet d).2
        = _readGroupSetIds d ++ (getId <$> rgss)
      ∧ Forall2
          (λ filename rgs,
             ∃ self, _localId self = _localId d
                     ∧ reads_HtslibReadGroupSet self
                         (os_path.splitext filename).1
                         (os_path.join readGroupSetDir filename) backend
                       = Returns rgs)
          (filter (λ f, fnmatch.fnmatch f "*.bam" = true) entries) rgss.
Proof.
  intros dir Hlist Hok. split; [exact fnmatch_bam|]. split.
  - intros stem Hsep. split; intros Hstem.
    + by rewrite splitext_bam_root.
    + by rewrite splitext_bam_dots.
  - destruct (for_in_constructs (readGroupSetEntry dir backend)
                (λ x, fnmatch.fnmatch x "*.bam")
                (λ self x, reads_HtslibReadGroupSet self
                             (os_path.splitext x).1 (os_path.join dir x)
                             backend)
                addReadGroupSet (λ _ _, eq_refl) (λ _ _, eq_refl)
                (readGroupSetEntry_eq dir backend) entries d Hok)
      as (rgss & Hrun & Hall).
    exists rgss. split; [|split; [apply for_in_addReadGroupSet_ids | done]].
    unfold loadReadGroupSets. by rewrite (block_listed _ _ _ _ _ Hlist).
Qed.

(** C10: during a file system load, an entry of [variants/] or of
    [rnaQuant/] that is not a directory is skipped: nothing is
    constructed or added for it and nothing is raised, so that the scan
    adds one entity per entry that is a directory.  Every entry of
    [sequenceAnnotations/] is constructed and added, file or directory or
    neither, with the raw entry name as local id. *)
Theorem scans_skip_files_and_take_all_annotations
    fs dataDir backend (d : Dataset) :
  let variantSetDir := os_path.join dataDir "variants" in
  let rnaQuantDir := os_path.join dataDir "rnaQuant" in
  let seqAnnotationDir := os_path.join dataDir "sequenceAnnotations" in
  (∀ entries,
     listdir fs variantSetDir = Returns entries →
     (∀ self x, x ∈ entries → isdir fs (os_path.join variantSetDir x) = true →
        returned (variants_HtslibVariantSet self x
                    (os_path.join variantSetDir x) backend)) →
     ∃ vss,
       loadVariantSets fs dataDir backend d
       = (Returns tt, (for_in vss addVariantSet d).2)
       ∧ _variantSetIds (for_in vss addVariantSet d).2
         = _variantSetIds d ++ (getId <$> vss)
       ∧ Forall2
           (λ x vs, ∃ self, _localId self = _localId d
                            ∧ variants_HtslibVariantSet self x
                                (os_path.join variantSetDir x) backend
                              = Returns vs)
           (filter (λ x, isdir fs (os_path.join variantSetDir x) = true)
              entries) vss)
  ∧ (∀ entries,
       listdir fs rnaQuantDir = Returns entries →
       (∀ self x, x ∈ entries → isdir fs (os_path.join rnaQuantDir x) = true →
          returned (rnaQuantification_RNASeqResult self x
                      (os_path.join rnaQuantDir x))) →
       ∃ rqs,
         loadRnaQuantifications fs dataDir d
         = (Returns tt, (for_in rqs addRnaQuantification d).2)
         ∧ _rnaQuantificationIds (for_in rqs addRnaQuantification d).2
           = _rnaQuantificationIds d ++ (getId <$> rqs)
         ∧ Forall2
             (λ x rq, ∃ self, _localId self = _localId d
                              ∧ rnaQuantification_RNASeqResult self x
                                  (os_path.join rnaQuantDir x)
                                = Returns rq)
             (filter (λ x, isdir fs (os_path.join rnaQuantDir x) = true)
                entries) rqs)
  ∧ (∀ entries,
       listdir fs seqAnnotationDir = Returns entries →
       (∀ self x, x ∈ entries →
          returned (sequenceAnnotations_SequenceAnnotation self x
                      (os_path.join seqAnnotationDir x))) →
       ∃ anns,
         loadSequenceAnnotations fs dataDir d
         = (Returns tt, (for_in anns addSequenceAnnotation d).2)
         ∧ _sequenceAnnotationIds (for_in anns addSequenceAnnotation d).2
           = _sequenceAnnotationIds d ++ (getId <$> anns)
         ∧ Forall2
             (λ x ann, ∃ self, _localId self = _localId d
                               ∧ sequenceAnnotations_SequenceAnnotation self x
                                   (os_path.join seqAnnotationDir x)
                                 = Returns ann)
             entries anns).
Proof.
  intros vdir qdir adir. split; [|split]; intros entries Hlist Hok.
  - destruct (for_in_constructs (variantSetEntry fs vdir backend)
                (λ x, isdir fs (os_path.join vdir x))
                (λ self x, variants_HtslibVariantSet self x
                             (os_path.join vdir x) backend)
                addVariantSet (λ _ _, eq_refl) (λ _ _, eq_refl)
                (variantSetEntry_eq fs vdir backend) entries d Hok)
      as (vss & Hrun & Hall).
    exists vss. split; [|split; [apply for_in_addVariantSet_ids | done]].
    unfold loadVariantSets. by rewrite (block_listed _ _ _ _ _ Hlist).
  - destruct (for_in_constructs (rnaQuantificationEntry fs qdir)
                (λ x, isdir fs (os_path.join qdir x))
                (λ self x, rnaQuantification_RNASeqResult self x
                             (os_path.join qdir x))
                addRnaQuantification (λ _ _, eq_refl) (λ _ _, eq_refl)
                (rnaQuantificationEntry_eq fs qdir) entries d Hok)
      as (rqs & Hrun & Hall).
    exists rqs. split; [|split; [apply for_in_addRnaQuantification_ids | done]].
    unfold loadRnaQuantifications. by rewrite (block_listed _ _ _ _ _ Hlist).
  - destruct (for_in_constructs (sequenceAnnotationEntry adir)
                (λ _, true)
                (λ self x, sequenceAnnotations_SequenceAnnotation self x
                             (os_path.join adir x))
                addSequenceAnnotation (λ _ _, eq_refl) (λ _ _, eq_refl)
                (sequenceAnnotationEntry_eq adir) entries d
                (λ self x Hx _, Hok self x Hx))
      as (anns & Hrun & Hall).
    rewrite filter_all_true in Hall.
    exists anns. split; [|split; [apply for_in_addSequenceAnnotation_ids | done]].
    unfold loadSequenceAnnotations. by rewrite (block_listed _ _ _ _ _ Hlist).
Qed.


(** C9: during a file system load every scan step's failure aborts the
    load.  If the step's directory is not there (or is not a directory),
    the load raises the [OSError] of [os.listdir]; if the constructor
    raises for an entry that qualifies, the load raises that very
    exception.  Either way the dataset is left as it was when the failure
    happened: nothing is added for the failing entry, for the entries
    after it or by the steps after it. *)
Theorem load_aborts_at_first_failure
    fs localId dataDir backend (d0 d1 : Dataset) (e : exn) :
  let load := FileSystemDataset_init fs localId dataDir backend in
  let variantSetDir := os_path.join dataDir "variants" in
  let readGroupSetDir := os_path.join dataDir "reads" in
  let rnaQuantDir := os_path.join dataDir "rnaQuant" in
  let seqAnnotationDir := os_path.join dataDir "sequenceAnnotations" in
  (_setMetadata fs dataDir d0 = (Returns tt, d1) →
     (isdir fs variantSetDir = false →
        load d0 = (Raises (OSError variantSetDir), d1))
     ∧ (∀ pre x post d2,
          listdir fs variantSetDir = Returns (pre ++ x :: post) →
          for_in pre (variantSetEntry fs variantSetDir backend) d1
          = (Returns tt, d2) →
          isdir fs (os_path.join variantSetDir x) = true →
          variants_HtslibVariantSet d2 x (os_path.join variantSetDir x)
            backend = Raises e →
          load d0 = (Raises e, d2)))
  ∧ ((_setMetadata fs dataDir ;; loadVariantSets fs dataDir backend) d0
     = (Returns tt, d1) →
     (isdir fs readGroupSetDir = false →
        load d0 = (Raises (OSError readGroupSetDir), d1))
     ∧ (∀ pre x post d2,
          listdir fs readGroupSetDir = Returns (pre ++ x :: post) →
          for_in pre (readGroupSetEntry readGroupSetDir backend) d1
          = (Returns tt, d2) →
          fnmatch.fnmatch x "*.bam" = true →
          reads_HtslibReadGroupSet d2 (os_path.splitext x).1
            (os_path.join readGroupSetDir x) backend = Raises e →
          load d0 = (Raises e, d2)))
  ∧ ((_setMetadata fs dataDir ;; loadVariantSets fs dataDir backend ;;
      loadReadGroupSets fs dataDir backend) d0 = (Returns tt, d1) →
     (isdir fs rnaQuantDir = false →
        load d0 = (Raises (OSError rnaQuantDir), d1))
     ∧ (∀ pre x post d2,
          listdir fs rnaQuantDir = Returns (pre ++ x :: post) →
          for_in pre (rnaQuantificationEntry fs rnaQuantDir) d1
          = (Returns tt, d2) →
          isdir fs (os_path.join rnaQuantDir x) = true →
          rnaQuantification_RNASeqResult d2 x (os_path.join rnaQuantDir x)
          = Raises e →
          load d0 = (Raises e, d2)))
  ∧ ((_setMetadata fs dataDir ;; loadVariantSets fs dataDir backend ;;
      loadReadGroupSets fs dataDir backend ;;
      loadRnaQuantifications fs dataDir) d0 = (Returns tt, d1) →
     (isdir fs seqAnnotationDir = false →
        load d0 = (Raises (OSError seqAnnotationDir), d1))
     ∧ (∀ pre x post d2,
          listdir fs seqAnnotationDir = Returns (pre ++ x :: post) →
          for_in pre (sequenceAnnotationEntry seqAnnotationDir) d1
          = (Returns tt, d2) →
          sequenceAnnotations_SequenceAnnotation d2 x
            (os_path.join seqAnnotationDir x) = Raises e →
          load d0 = (Raises e, d2))).
Proof.
  intros load vdir rdir qdir adir. subst load.
  unfold FileSystemDataset_init.
  split; [|split; [|split]]; intros Hbefore.
  - rewrite (seq_returns _ _ _ _ Hbefore). split.
    + intros Hdir. apply bind_raises, block_unlistable.
      by apply listdir_not_a_directory.
    + intros pre x post d2 Hlist Hpre Hq He. apply bind_raises.
      unfold loadVariantSets. rewrite (block_listed _ _ _ _ _ Hlist).
      apply (for_in_raises _ _ _ _ _ _ _ _ Hpre).
      rewrite variantSetEntry_eq. fold vdir. by rewrite Hq, He.
  - rewrite <- seq_assoc, (seq_returns _ _ _ _ Hbefore). split.
    + intros Hdir. apply bind_raises, block_unlistable.
      by apply listdir_not_a_directory.
    + intros pre x post d2 Hlist Hpre Hq He. apply bind_raises.
      unfold loadReadGroupSets. rewrite (block_listed _ _ _ _ _ Hlist).
      apply (for_in_raises _ _ _ _ _ _ _ _ Hpre).
      rewrite readGroupSetEntry_eq. fold rdir. by rewrite Hq, He.
  - assert (Hsplit : ∀ k : method unit,
              (_setMetadata fs dataDir ;; loadVariantSets fs dataDir backend ;;
               loadReadGroupSets fs dataDir backend ;; k) d0 = k d1).
    { intros k. rewrite <- (seq_returns _ k _ _ Hbefore).
      run. destruct (_setMetadata fs dataDir d0) as [[[]|?] ?]; [|done].
      by destruct (loadVariantSets fs dataDir backend _) as [[[]|?] ?]. }
    rewrite Hsplit. split.
    + intros Hdir. apply bind_raises, block_unlistable.
      by apply listdir_not_a_directory.
    + intros pre x post d2 Hlist Hpre Hq He. apply bind_raises.
      unfold loadRnaQuantifications. rewrite (block_listed _ _ _ _ _ Hlist).
      apply (for_in_raises _ _ _ _ _ _ _ _ Hpre).
      rewrite rnaQuantificationEntry_eq. fold qdir. by rewrite Hq, He.
  - assert (Hsplit :
              (_setMetadata fs dataDir ;; loadVariantSets fs dataDir backend ;;
               loadReadGroupSets fs dataDir backend ;;
               loadRnaQuantifications fs dataDir ;;
               loadSequenceAnnotations fs dataDir) d0
              = loadSequenceAnnotations fs dataDir d1).
    { rewrite <- (seq_returns _ (loadSequenceAnnotations fs dataDir)
                    _ _ Hbefore).
      run. destruct (_setMetadata fs dataDir d0) as [[[]|?] ?]; [|done].
      destruct (loadVariantSets fs dataDir backend _) as [[[]|?] ?]; [|done].
      by destruct (loadReadGroupSets fs dataDir backend _) as [[[]|?] ?]. }
    rewrite Hsplit. split.
    + intros Hdir. apply block_unlistable.
      by apply listdir_not_a_directory.
    + intros pre x post d2 Hlist Hpre He.
      unfold loadSequenceAnnotations. rewrite (block_listed _ _ _ _ _ Hlist).
      apply (for_in_raises _ _ _ _ _ _ _ _ Hpre).
      rewrite sequenceAnnotationEntry_eq. fold adir. by rewrite He.
Qed.

(** A loop of the simulated dataset: one entity per index, in order. *)
Lemma for_in_range_constructs {E} (body : Z → method unit)
    (ctor : Dataset → Z → E) (add : E → method unit) (n : Z) (d : Dataset) :
  (∀ e d, (add e d).1 = Returns tt) →
  (∀ e d, _localId (add e d).2 = _localId d) →
  (∀ i d, body i d = add (ctor d i) d) →
  ∃ es, for_in (range n) body d = (Returns tt, (for_in es add d).2)
        ∧ length es = Z.to_nat n
        ∧ ∀ i : nat, Z.of_nat i < n →
            ∃ self, _localId self = _localId d
                    ∧ es !! i = Some (ctor self (Z.of_nat i)).
Proof.
  intros Hret Hid Hbody.
  destruct (for_in_constructs body (λ _, true) (λ self i, Returns (ctor self i))
              add Hret Hid Hbody (range n) d) as (es & Hrun & Hall); [done|].
  rewrite filter_all_true in Hall. exists es. split; [done|].
  pose proof (Forall2_length _ _ _ Hall) as Hlen.
  unfold range in *. rewrite length_seqZ in Hlen. split; [done|].
  intros i Hi.
  destruct (Forall2_lookup_l _ _ _ i (Z.of_nat i) Hall)
    as (e & He & self & Hself & Hctor).
  { by rewrite lookup_seqZ_lt by done. }
  exists self. split; [done|]. rewrite He. by injection Hctor as ->.
Qed.

End loaders.

(** ** The loaders on the concrete instance *)

Example splitext_bam : os_path.splitext "rg1.bam" = ("rg1", ".bam").
Proof. reflexivity. Qed.

Example splitext_hidden : os_path.splitext ".bam" = (".bam", "").
Proof. reflexivity. Qed.

Example splitext_directory : os_path.splitext "a.b/c" = ("a.b/c", "").
Proof. reflexivity. Qed.

Example fnmatch_case : fnmatch.fnmatch "rg1.BAM" "*.bam" = false.
Proof. reflexivity. Qed.

Example join_reads : os_path.join "data" "reads" = "data/reads".
Proof. reflexivity. Qed.

Example load_sample_ids :
  let d := (FileSystemDataset sample.fs "ds" "data" tt).2 in
  _variantSetIds d = ["ds:vs1"]
  ∧ _readGroupSetIds d = ["ds:rg1"; "ds:rg2"]
  ∧ _rnaQuantificationIds d = []
  ∧ _sequenceAnnotationIds d = ["ds:genes.gff"; "ds:more"].
Proof. vm_compute. done. Qed.


Lemma sample_open_returns (self : sample.dataset) (entries : list string)
    (localId : string → string) (path : string → string) :
  Forall (λ x, localId x ≠ "corrupt") entries →
  ∀ x, x ∈ entries → returned (sample.open self (localId x) (path x)).
Proof.
  intros Hall x Hx. rewrite Forall_forall in Hall. specialize (Hall x Hx).
  unfold sample.open. by rewrite bool_decide_eq_false_2.
Qed.

Lemma reads_scan_adds_bam_files_witness :
  listdir sample.hidden "data/reads" = Returns [".bam"; "rg1.bam"]
  ∧ ∃ rgss,
      loadReadGroupSets sample.hidden "data" tt sample.empty
      = (Returns tt, (for_in rgss addReadGroupSet sample.empty).2)
      ∧ _readGroupSetIds (for_in rgss addReadGroupSet sample.empty).2
        = _readGroupSetIds sample.empty ++ (getId <$> rgss)
      ∧ Forall2
          (λ filename rgs,
             ∃ self, _localId self = _localId sample.empty
                     ∧ reads_HtslibReadGroupSet self
                         (os_path.splitext filename).1
                         (os_path.join (os_path.join "data" "reads") filename)
                         tt
                       = Returns rgs)
          (filter (λ f, fnmatch.fnmatch f "*.bam" = true) [".bam"; "rg1.bam"])
          rgss.
Proof.
  split; [reflexivity|].
  refine (proj2 (proj2 (reads_scan_adds_bam_files sample.hidden "data" tt
                          [".bam"; "rg1.bam"] sample.empty eq_refl _))).
  intros self filename Hin _.
  apply (sample_open_returns self [".bam"; "rg1.bam"]
           (λ x, (os_path.splitext x).1)
           (λ x, os_path.join (os_path.join "data" "reads") x));
    [|exact Hin].
  repeat constructor; vm_compute; discriminate.
Defined.

(** C6 fails on the code for the file [.bam]: it matches [*.bam], that is,
    it is the empty stem followed by [.bam], yet its read-group set is
    added under the local id [.bam], the whole filename, and not under
    the filename without its extension. *)
Lemma hidden_bam_keeps_its_name :
  let d := (loadReadGroupSets sample.hidden "data" tt sample.empty).2 in
  listdir sample.hidden "data/reads" = Returns [".bam"; "rg1.bam"]
  ∧ fnmatch.fnmatch ".bam" "*.bam" = true
  ∧ ".bam" = "" +:+ ".bam"
  ∧ (loadReadGroupSets sample.hidden "data" tt sample.empty).1 = Returns tt
  ∧ (getReadGroupSets d).1
    = Returns [sample.Resource "ds:.bam" ".bam" "data/reads/.bam";
               sample.Resource "ds:rg1" "rg1" "data/reads/rg1.bam"]
  ∧ (getReadGroupSetByName ".bam" d).1
    = Returns (sample.Resource "ds:.bam" ".bam" "data/reads/.bam")
  ∧ (getReadGroupSetByName "" d).1
    = Raises (ReadGroupSetNameNotFoundException "").
Proof. vm_compute. repeat split. Qed.

Lemma load_aborts_at_first_failure_witness :
  let d1 := (_setMetadata sample.damaged "data" sample.empty).2 in
  let d2 :=
    (for_in ["vs1"] (variantSetEntry sample.damaged "data/variants" tt) d1).2
  in
  _setMetadata sample.damaged "data" sample.empty = (Returns tt, d1)
  ∧ listdir sample.damaged "data/variants"
    = Returns (["vs1"] ++ "corrupt" :: ["vs2"])
  ∧ for_in ["vs1"] (variantSetEntry sample.damaged "data/variants" tt) d1
    = (Returns tt, d2)
  ∧ isdir sample.damaged "data/variants/corrupt" = true
  ∧ variants_HtslibVariantSet d2 "corrupt" "data/variants/corrupt" tt
    = Raises (CollaboratorError "data/variants/corrupt")
  ∧ FileSystemDataset_init sample.damaged "ds" "data" tt sample.empty
    = (Raises (CollaboratorError "data/variants/corrupt"), d2)
  ∧ _variantSetIds d2 = ["ds:vs1"].
Proof.
  intros d1 d2.
  assert (H0 : _setMetadata sample.damaged "data" sample.empty
               = (Returns tt, d1)) by (vm_compute; reflexivity).
  assert (H2 : for_in ["vs1"]
                 (variantSetEntry sample.damaged "data/variants" tt) d1
               = (Returns tt, d2)) by (vm_compute; reflexivity).
  split; [exact H0|]. split; [reflexivity|]. split; [exact H2|].
  split; [reflexivity|]. split; [reflexivity|]. split; [|reflexivity].
  exact (proj2 (proj1 (load_aborts_at_first_failure sample.damaged "ds" "data"
                         tt sample.empty d1
                         (CollaboratorError "data/variants/corrupt")) H0)
           ["vs1"] "corrupt" ["vs2"] d2 eq_refl H2 eq_refl eq_refl).
Defined.

Lemma scans_skip_files_and_take_all_annotations_witness :
  (listdir sample.fs "data/variants" = Returns ["vs1"; "README"]
   ∧ isdir sample.fs "data/variants/README" = false
   ∧ ∃ vss,
       loadVariantSets sample.fs "data" tt sample.empty
       = (Returns tt, (for_in vss addVariantSet sample.empty).2)
       ∧ _variantSetIds (for_in vss addVariantSet sample.empty).2
         = _variantSetIds sample.empty ++ (getId <$> vss)
       ∧ Forall2
           (λ x vs, ∃ self, _localId self = _localId sample.empty
                            ∧ variants_HtslibVariantSet self x
                                (os_path.join (os_path.join "data" "variants")
                                   x) tt
                              = Returns vs)
           (filter (λ x, isdir sample.fs
                           (os_path.join (os_path.join "data" "variants") x)
                         = true) ["vs1"; "README"]) vss)
  ∧ (listdir sample.fs "data/sequenceAnnotations"
     = Returns ["genes.gff"; "more"]
     ∧ isdir sample.fs "data/sequenceAnnotations/more" = true
     ∧ ∃ anns,
         loadSequenceAnnotations sample.fs "data" sample.empty
         = (Returns tt, (for_in anns addSequenceAnnotation sample.empty).2)
         ∧ _sequenceAnnotationIds
             (for_in anns addSequenceAnnotation sample.empty).2
           = _sequenceAnnotationIds sample.empty ++ (getId <$> anns)
         ∧ Forall2
             (λ x ann, ∃ self, _localId self = _localId sample.empty
                               ∧ sequenceAnnotations_SequenceAnnotation self x
                                   (os_path.join
                                      (os_path.join "data"
                                         "sequenceAnnotations") x)
                                 = Returns ann)
             ["genes.gff"; "more"] anns).
Proof.
  split.
  - split; [reflexivity|]. split; [reflexivity|].
    refine (proj1 (scans_skip_files_and_take_all_annotations sample.fs "data"
                     tt sample.empty) ["vs1"; "README"] eq_refl _).
    intros self x Hin _.
    apply (sample_open_returns self ["vs1"; "README"] (λ x, x)
             (λ x, os_path.join (os_path.join "data" "variants") x));
      [|exact Hin].
    repeat constructor; discriminate.
  - split; [reflexivity|]. split; [reflexivity|].
    refine (proj2 (proj2 (scans_skip_files_and_take_all_annotations sample.fs
                            "data" tt sample.empty))
              ["genes.gff"; "more"] eq_refl _).
    intros self x Hin.
    apply (sample_open_returns self ["genes.gff"; "more"] (λ x, x)
             (λ x, os_path.join (os_path.join "data" "sequenceAnnotations") x));
      [|exact Hin].
    repeat constructor; discriminate.
Defined.

(** ** More on the catalogue *)

Section catalogue_lookups.

Context {VariantSet ReadGroupSet RnaQuantification SequenceAnnotation : Type}.
Context `{!DatamodelObject VariantSet, !DatamodelObject ReadGroupSet,
          !DatamodelObject RnaQuantification,
          !DatamodelObject SequenceAnnotation}.

Local Abbreviation Dataset :=
  (AbstractDataset (VariantSet := VariantSet) (ReadGroupSet := ReadGroupSet)
     (RnaQuantification := RnaQuantification)
     (SequenceAnnotation := SequenceAnnotation)).

Local Abbreviation add_call :=
  (add_call (VariantSet := VariantSet) (ReadGroupSet := ReadGroupSet)
     (RnaQuantification := RnaQuantification)
     (SequenceAnnotation := SequenceAnnotation)).

Lemma last_filter_None {T} (key : T → string) (l : list T) k :
  last (filter (λ y, key y = k) l) = None ↔ k ∉ key <$> l.
Proof.
  rewrite last_None. split.
  - intros Hnil [y [-> Hy]] %list_elem_of_fmap.
    by apply (filter_nil_not_elem_of _ _ y Hnil).
  - intros Hk. destruct (filter _ l) as [|y ys] eqn:Hf; [done|].
    assert (Hy : y ∈ filter (λ y, key y = k) l) by (rewrite Hf; left).
    apply list_elem_of_filter in Hy as [<- Hy].
    exfalso. apply Hk. by apply list_elem_of_fmap_2.
Qed.

Lemma holds_latest_dom {T} (key : T → string) (m : gmap string T) added :
  holds_latest key m added → dom m = list_to_set (key <$> added).
Proof.
  intros Hm. apply set_eq. intros k.
  rewrite elem_of_dom, elem_of_list_to_set, Hm, <- not_eq_None_Some.
  rewrite last_filter_None. split; [|tauto].
  intros Hnn. by destruct (decide (k ∈ key <$> added)).
Qed.

Lemma size_list_to_set_le (l : list string) :
  (size (list_to_set l : gset string) ≤ length l)%nat
  ∧ (size (list_to_set l : gset string) = length l ↔ NoDup l).
Proof.
  induction l as [|a l [IHle IHeq]].
  - split; [done|]. split; [constructor | done].
  - rewrite list_to_set_cons, NoDup_cons. simpl.
    destruct (decide (a ∈ l)) as [Ha|Ha].
    + assert (Hsame : {[a]} ∪ list_to_set l = (list_to_set l : gset string)).
      { apply set_eq. intros x. rewrite elem_of_union, elem_of_singleton,
          elem_of_list_to_set. split; [by intros [->|]|tauto]. }
      rewrite Hsame. split; [lia|]. split; [lia | tauto].
    + rewrite size_union, size_singleton
        by (apply disjoint_singleton_l; by rewrite elem_of_list_to_set).
      split; [lia|]. rewrite <- IHeq. split; [intros; split; [done|lia] | lia].
Qed.

(** X1: in a dataset built by add calls, a lookup by id (or, for
    read-group sets, by name) returns the entity added last under that
    key, and raises the lookup's own exception exactly when nothing was
    added under it; the two accessors that hand out a whole id map hand
    out a map with those lookups.  Nothing changes the dataset. *)
Theorem lookups_return_latest (cs : list add_call) (d : Dataset) (k : string) :
  built cs d →
  getVariantSet k d
  = (match last (filter (λ v, getId v = k) (addedVariantSets cs)) with
     | Some v => Returns v
     | None => Raises (VariantSetNotFoundException k)
     end, d)
  ∧ getReadGroupSet k d
    = (match last (filter (λ r, getId r = k) (addedReadGroupSets cs)) with
       | Some r => Returns r
       | None => Raises (ReadGroupNotFoundException k)
       end, d)
  ∧ getReadGroupSetByName k d
    = (match last (filter (λ r, getLocalId r = k) (addedReadGroupSets cs)) with
       | Some r => Returns r
       | None => Raises (ReadGroupSetNameNotFoundException k)
       end, d)
  ∧ getRnaQuantification k d
    = (match last (filter (λ q, getId q = k) (addedRnaQuantifications cs)) with
       | Some q => Returns q
       | None => Raises (RnaQuantificationNotFoundException k)
       end, d)
  ∧ getSequenceAnnotation k d
    = (match last (filter (λ a, getId a = k) (addedSequenceAnnotations cs)) with
       | Some a => Returns a
       | None => Raises (SequenceAnnotationNotFoundException k)
       end, d)
  ∧ (∃ m, getRnaQuantificationIdMap d = (Returns m, d)
          ∧ holds_latest getId m (addedRnaQuantifications cs))
  ∧ (∃ m, getSequenceAnnotationIdMap d = (Returns m, d)
          ∧ holds_latest getId m (addedSequenceAnnotations cs))
  ∧ (last (filter (λ v, getId v = k) (addedVariantSets cs)) = None
     ↔ k ∉ getId <$> addedVariantSets cs).
Proof.
  intros [_ Hv _ Hr Hn _ Hq _ Ha] %built_reflects.
  rewrite getVariantSet_spec, getReadGroupSet_spec, getReadGroupSetByName_spec,
    getRnaQuantification_spec, getSequenceAnnotation_spec.
  pose proof (last_filter_None getId (addedVariantSets cs) k) as Hnone.
  rewrite <- (Hv k), <- (Hr k), <- (Hn k), <- (Hq k), <- (Ha k) in *.
  split_and!; try done.
  - by exists (_rnaQuantificationIdMap d).
  - by exists (_sequenceAnnotationIdMap d).
Qed.

(** X2: in a dataset built by add calls, every id list and its id map
    are in step: the keys of the map are the ids of the list, and the
    keys of the name map are the local names of the read-group sets
    added. *)
Theorem id_lists_and_maps_in_step (cs : list add_call) (d : Dataset) :
  built cs d →
  dom (_variantSetIdMap d) = list_to_set (_variantSetIds d)
  ∧ dom (_readGroupSetIdMap d) = list_to_set (_readGroupSetIds d)
  ∧ dom (_readGroupSetNameMap d)
    = list_to_set (getLocalId <$> addedReadGroupSets cs)
  ∧ dom (_rnaQuantificationIdMap d) = list_to_set (_rnaQuantificationIds d)
  ∧ dom (_sequenceAnnotationIdMap d)
    = list_to_set (_sequenceAnnotationIds d).
Proof.
  intros [-> Hv -> Hr Hn -> Hq -> Ha] %built_reflects.
  repeat split; by apply holds_latest_dom.
Qed.

(** X3: the counts count add calls, not entities.  [getNumVariantSets]
    and [getNumReadGroupSets] return the number of add calls of their
    kind, and [getRnaQuantificationIds] and [getSequenceAnnotations] the
    ids in call order, one per call; the number of entities an id map
    holds is at most that, and equal to it exactly when no id was added
    twice. *)
Theorem counts_count_calls (cs : list add_call) (d : Dataset) :
  built cs d →
  getNumVariantSets d
  = (Returns (Z.of_nat (length (addedVariantSets cs))), d)
  ∧ getNumReadGroupSets d
    = (Returns (Z.of_nat (length (addedReadGroupSets cs))), d)
  ∧ getRnaQuantificationIds d
    = (Returns (getId <$> addedRnaQuantifications cs), d)
  ∧ getSequenceAnnotations d
    = (Returns (getId <$> addedSequenceAnnotations cs), d)
  ∧ (size (_variantSetIdMap d) ≤ length (addedVariantSets cs))%nat
  ∧ (size (_variantSetIdMap d) = length (addedVariantSets cs)
     ↔ NoDup (getId <$> addedVariantSets cs))
  ∧ (size (_readGroupSetIdMap d) ≤ length (addedReadGroupSets cs))%nat
  ∧ (size (_readGroupSetIdMap d) = length (addedReadGroupSets cs)
     ↔ NoDup (getId <$> addedReadGroupSets cs)).
Proof.
  intros [Hvi Hv Hri Hr _ Hqi _ Hai _] %built_reflects.
  unfold getNumVariantSets, getNumReadGroupSets, getRnaQuantificationIds,
    getSequenceAnnotations. run.
  rewrite Hvi, Hri, Hqi, Hai, !length_fmap.
  rewrite <- !size_dom, (holds_latest_dom _ _ _ Hv), (holds_latest_dom _ _ _ Hr).
  destruct (size_list_to_set_le (getId <$> addedVariantSets cs)) as [Hle Heq].
  destruct (size_list_to_set_le (getId <$> addedReadGroupSets cs))
    as [Hle' Heq'].
  rewrite length_fmap in Hle. rewrite length_fmap in Heq.
  rewrite length_fmap in Hle'. rewrite length_fmap in Heq'. by split_and!.
Qed.

End catalogue_lookups.

(** ** More on the loaders *)

Section loaders_frame.

Context {VariantSet ReadGroupSet RnaQuantification SequenceAnnotation : Type}.
Context `{!DatamodelObject VariantSet, !DatamodelObject ReadGroupSet,
          !DatamodelObject RnaQuantification,
          !DatamodelObject SequenceAnnotation}.
Context {ReferenceSet Backend Density : Type}.
Context `{!Collaborators (VariantSet := VariantSet)
            (ReadGroupSet := ReadGroupSet)
            (RnaQuantification := RnaQuantification)
            (SequenceAnnotation := SequenceAnnotation)
            (ReferenceSet := ReferenceSet) (Backend := Backend)
            (Density := Density)}.

Local Abbreviation Dataset :=
  (AbstractDataset (VariantSet := VariantSet) (ReadGroupSet := ReadGroupSet)
     (RnaQuantification := RnaQuantification)
     (SequenceAnnotation := SequenceAnnotation)).

Local Abbreviation method :=
  (method (VariantSet := VariantSet) (ReadGroupSet := ReadGroupSet)
     (RnaQuantification := RnaQuantification)
     (SequenceAnnotation := SequenceAnnotation)).

Local Abbreviation add_call :=
  (add_call (VariantSet := VariantSet) (ReadGroupSet := ReadGroupSet)
     (RnaQuantification := RnaQuantification)
     (SequenceAnnotation := SequenceAnnotation)).

(** What each block keeps, given what its adder keeps. *)
Lemma keeps_loadVariantSets {A} (f : Dataset → A) fs dataDir backend :
  (∀ e, keeps f (addVariantSet e)) →
  keeps f (loadVariantSets fs dataDir backend).
Proof.
  intros Hadd. apply keeps_block. intros x. unfold variantSetEntry.
  destruct (isdir fs _); [|done]. by apply keeps_construct_add.
Qed.

Lemma keeps_loadReadGroupSets {A} (f : Dataset → A) fs dataDir backend :
  (∀ e, keeps f (addReadGroupSet e)) →
  keeps f (loadReadGroupSets fs dataDir backend).
Proof.
  intros Hadd. apply keeps_block. intros x. unfold readGroupSetEntry.
  destruct (fnmatch.fnmatch x _); [|done].
  by apply (keeps_construct_add f
              (λ self, reads_HtslibReadGroupSet self _ _ backend)).
Qed.

Lemma keeps_loadRnaQuantifications {A} (f : Dataset → A) fs dataDir :
  (∀ e, keeps f (addRnaQuantification e)) →
  keeps f (loadRnaQuantifications fs dataDir).
Proof.
  intros Hadd. apply keeps_block. intros x. unfold rnaQuantificationEntry.
  destruct (isdir fs _); [|done]. by apply keeps_construct_add.
Qed.

Lemma keeps_loadSequenceAnnotations {A} (f : Dataset → A) fs dataDir :
  (∀ e, keeps f (addSequenceAnnotation e)) →
  keeps f (loadSequenceAnnotations fs dataDir).
Proof.
  intros Hadd. apply keeps_block. intros x. unfold sequenceAnnotationEntry.
  by apply keeps_construct_add.
Qed.

Lemma keeps_setMetadata {A} (f : Dataset → A) fs dataDir :
  (∀ description, keeps f (set_description description)) →
  keeps f (_setMetadata fs dataDir).
Proof.
  intros Hset. unfold _setMetadata. destruct (isfile fs _); [|done].
  apply keeps_bind; [done|]. intros metadata.
  destruct (json_getitem metadata "description") as [v|[]]; done.
Qed.

(** X4: each step of the file system load touches its own collection
    only, whether it returns or raises: the metadata step changes at most
    the description, and a scan changes at most the id list and the
    map(s) of its own kind.  The local id of the dataset is never
    changed. *)
Theorem load_steps_touch_their_own_collection fs dataDir backend :
  keeps (λ d : Dataset,
           (_localId d, _variantSetIds d, _variantSetIdMap d,
            _readGroupSetIds d, _readGroupSetIdMap d, _readGroupSetNameMap d,
            _rnaQuantificationIds d, _rnaQuantificationIdMap d,
            _sequenceAnnotationIds d, _sequenceAnnotationIdMap d))
    (_setMetadata fs dataDir)
  ∧ keeps (λ d : Dataset,
             (_localId d, _description d,
              _readGroupSetIds d, _readGroupSetIdMap d, _readGroupSetNameMap d,
              _rnaQuantificationIds d, _rnaQuantificationIdMap d,
              _sequenceAnnotationIds d, _sequenceAnnotationIdMap d))
      (loadVariantSets fs dataDir backend)
  ∧ keeps (λ d : Dataset,
             (_localId d, _description d,
              _variantSetIds d, _variantSetIdMap d,
              _rnaQuantificationIds d, _rnaQuantificationIdMap d,
              _sequenceAnnotationIds d, _sequenceAnnotationIdMap d))
      (loadReadGroupSets fs dataDir backend)
  ∧ keeps (λ d : Dataset,
             (_localId d, _description d,
              _variantSetIds d, _variantSetIdMap d,
              _readGroupSetIds d, _readGroupSetIdMap d, _readGroupSetNameMap d,
              _sequenceAnnotationIds d, _sequenceAnnotationIdMap d))
      (loadRnaQuantifications fs dataDir)
  ∧ keeps (λ d : Dataset,
             (_localId d, _description d,
              _variantSetIds d, _variantSetIdMap d,
              _readGroupSetIds d, _readGroupSetIdMap d, _readGroupSetNameMap d,
              _rnaQuantificationIds d, _rnaQuantificationIdMap d))
      (loadSequenceAnnotations fs dataDir).
Proof.
  split_and!.
  - by apply keeps_setMetadata.
  - by apply keeps_loadVariantSets.
  - by apply keeps_loadReadGroupSets.
  - by apply keeps_loadRnaQuantifications.
  - by apply keeps_loadSequenceAnnotations.
Qed.

(** Lists that only grow. *)
Lemma grows_bind {A B C} (f : Dataset → list A) (m : method B)
    (k : B → method C) :
  grows f m → (∀ b, grows f (k b)) → grows f (m ≫= k).
Proof.
  intros Hm Hk d. run. specialize (Hm d).
  destruct (m d) as [[b|e] d']; simpl in *; [|done].
  etrans; [exact Hm | apply Hk].
Qed.

Lemma grows_for_in {A X} (f : Dataset → list A) (body : X → method unit) xs :
  (∀ x, grows f (body x)) → grows f (for_in xs body).
Proof.
  intros Hbody. induction xs as [|x xs IH]; [by intros d|].
  simpl. apply grows_bind; [apply Hbody | by intros _].
Qed.

Lemma keeps_grows {A B} (f : Dataset → list A) (m : method B) :
  keeps f m → grows f m.
Proof. intros Hm d. by rewrite Hm. Qed.

Lemma grows_block {A} (f : Dataset → list A) fs dir
    (body : string → method unit) :
  (∀ x, grows f (body x)) →
  grows f (entries ← call (listdir fs dir); for_in entries body).
Proof.
  intros Hbody. apply grows_bind; [by intros d|].
  intros xs. by apply grows_for_in.
Qed.

Lemma grows_construct_add {A E} (f : Dataset → list A)
    (ctor : Dataset → outcome E) (add : E → method unit) :
  (∀ e, grows f (add e)) →
  grows f (self ← this; e ← call (ctor self); add e).
Proof.
  intros Hadd. apply grows_bind; [by intros d|]. intros self.
  apply grows_bind; [by intros d|]. done.
Qed.

Lemma grows_perform (c : add_call) :
  grows _variantSetIds (perform c) ∧ grows _readGroupSetIds (perform c)
  ∧ grows _rnaQuantificationIds (perform c)
  ∧ grows _sequenceAnnotationIds (perform c).
Proof.
  destruct c; split_and!; intros d; simpl;
    first [done | by apply prefix_app_r].
Qed.

Lemma grows_load {A} (f : Dataset → list A) fs localId dataDir backend :
  (∀ description, grows f (set_description description)) →
  (∀ c, grows f (perform c)) →
  grows f (FileSystemDataset_init fs localId dataDir backend).
Proof.
  intros Hset Hadd. unfold FileSystemDataset_init.
  apply grows_bind; [|intros _; apply grows_bind;
                      [|intros _; apply grows_bind;
                        [|intros _; apply grows_bind; [|intros _]]]].
  - unfold _setMetadata. destruct (isfile fs _); [|by intros d].
    apply grows_bind; [by intros d|]. intros metadata.
    destruct (json_getitem metadata "description") as [v|[]];
      first [apply Hset | by intros d].
  - apply grows_block. intros x. unfold variantSetEntry.
    destruct (isdir fs _); [|by intros d].
    apply grows_construct_add. intros e. apply (Hadd (AddVariantSet e)).
  - apply grows_block. intros x. unfold readGroupSetEntry.
    destruct (fnmatch.fnmatch x _); [|by intros d].
    apply (grows_construct_add f
             (λ self, reads_HtslibReadGroupSet self _ _ backend)).
    intros e. apply (Hadd (AddReadGroupSet e)).
  - apply grows_block. intros x. unfold rnaQuantificationEntry.
    destruct (isdir fs _); [|by intros d].
    apply grows_construct_add. intros e. apply (Hadd (AddRnaQuantification e)).
  - apply grows_block. intros x. unfold sequenceAnnotationEntry.
    apply grows_construct_add. intros e. apply (Hadd (AddSequenceAnnotation e)).
Qed.

(** X5: a file system load only appends.  Run on any dataset, whatever
    the file system and the constructors do and whether the load returns
    or raises, it leaves each of the four id lists with the list it found
    as a prefix: nothing is removed and nothing is reordered. *)
Theorem load_only_appends fs localId dataDir backend (d : Dataset) :
  let d' := (FileSystemDataset_init fs localId dataDir backend d).2 in
  _variantSetIds d `prefix_of` _variantSetIds d'
  ∧ _readGroupSetIds d `prefix_of` _readGroupSetIds d'
  ∧ _rnaQuantificationIds d `prefix_of` _rnaQuantificationIds d'
  ∧ _sequenceAnnotationIds d `prefix_of` _sequenceAnnotationIds d'.
Proof.
  split_and!; apply grows_load; try (by intros ? ?);
    intros c; apply grows_perform.
Qed.

(** Methods that do what add calls do. *)
Lemma extends_bind {B C} (m : method B) (k : B → method C) :
  extends m → (∀ b, extends (k b)) → extends (m ≫= k).
Proof.
  intros Hm Hk cs d Hd. run. destruct (Hm cs d Hd) as [cs1 H1].
  destruct (m d) as [[b|e] d1]; simpl in *; [|by exists cs1].
  destruct (Hk b _ _ H1) as [cs2 H2]. exists (cs1 ++ cs2).
  by rewrite app_assoc.
Qed.

Lemma extends_keep {B} (m : method B) :
  (∀ d, (m d).2 = d) → extends m.
Proof. intros Hm cs d Hd. exists []. by rewrite app_nil_r, Hm. Qed.

Lemma extends_for_in {X} (body : X → method unit) xs :
  (∀ x, extends (body x)) → extends (for_in xs body).
Proof.
  intros Hbody. induction xs as [|x xs IH]; [by apply extends_keep|].
  simpl. apply extends_bind; [apply Hbody | by intros _].
Qed.

Lemma extends_perform (c : add_call) : extends (perform c).
Proof. intros cs d Hd. exists [c]. by apply built_add. Qed.

Lemma extends_set_description description :
  extends (set_description description : method unit).
Proof.
  intros cs d Hd. exists []. rewrite app_nil_r. by apply built_described.
Qed.

Lemma extends_construct_add {E} (ctor : Dataset → outcome E)
    (add : E → method unit) :
  (∀ e, extends (add e)) →
  extends (self ← this; e ← call (ctor self); add e).
Proof.
  intros Hadd. apply extends_bind; [by apply extends_keep|]. intros self.
  apply extends_bind; [by apply extends_keep | done].
Qed.

Lemma extends_block fs dir (body : string → method unit) :
  (∀ x, extends (body x)) →
  extends (entries ← call (listdir fs dir); for_in entries body).
Proof.
  intros Hbody. apply extends_bind; [by apply extends_keep|].
  intros xs. by apply extends_for_in.
Qed.

Lemma extends_load fs localId dataDir backend :
  extends (FileSystemDataset_init fs localId dataDir backend).
Proof.
  unfold FileSystemDataset_init.
  apply extends_bind; [|intros _; apply extends_bind;
                        [|intros _; apply extends_bind;
                          [|intros _; apply extends_bind; [|intros _]]]].
  - unfold _setMetadata. destruct (isfile fs _); [|by apply extends_keep].
    apply extends_bind; [by apply extends_keep|]. intros metadata.
    destruct (json_getitem metadata "description") as [v|[]];
      first [apply extends_set_description | by apply extends_keep].
  - apply extends_block. intros x. unfold variantSetEntry.
    destruct (isdir fs _); [|by apply extends_keep].
    apply extends_construct_add. intros e.
    apply (extends_perform (AddVariantSet e)).
  - apply extends_block. intros x. unfold readGroupSetEntry.
    destruct (fnmatch.fnmatch x _); [|by apply extends_keep].
    apply (extends_construct_add
             (λ self, reads_HtslibReadGroupSet self _ _ backend)).
    intros e. apply (extends_perform (AddReadGroupSet e)).
  - apply extends_block. intros x. unfold rnaQuantificationEntry.
    destruct (isdir fs _); [|by apply extends_keep].
    apply extends_construct_add. intros e.
    apply (extends_perform (AddRnaQuantification e)).
  - apply extends_block. intros x. unfold sequenceAnnotationEntry.
    apply extends_construct_add. intros e.
    apply (extends_perform (AddSequenceAnnotation e)).
Qed.

Lemma extends_simulated
    (localId : string) (referenceSet : ReferenceSet) (randomSeed : Z)
    (numVariantSets numCalls : Z) (variantDensity : Density)
    (numReadGroupSets numReadGroupsPerReadGroupSet numAlignments : Z)
    (numRnaQuants : Z) :
  extends (SimulatedDataset_init localId referenceSet randomSeed
             numVariantSets numCalls variantDensity numReadGroupSets
             numReadGroupsPerReadGroupSet numAlignments numRnaQuants).
Proof.
  unfold SimulatedDataset_init.
  apply extends_bind; [apply extends_set_description|]. intros _.
  apply extends_bind; [|intros _; apply extends_bind; [|intros _]];
    apply extends_for_in; intros i;
    (apply extends_bind; [by apply extends_keep|]); intros self.
  - apply (extends_perform (AddVariantSet _)).
  - apply (extends_perform (AddReadGroupSet _)).
  - apply (extends_perform (AddRnaQuantification _)).
Qed.

(** X6: what either loader leaves behind is a dataset built by add
    calls, also when the file system load fails midway.  So everything
    that holds of the datasets built by add calls holds of a loaded
    dataset and of a half-loaded one: the id lists and the maps are in
    step and the accessors answer as they do there. *)
Theorem loaders_build_by_add_calls fs dataDir backend
    (localId : string) (referenceSet : ReferenceSet) (randomSeed : Z)
    (numVariantSets numCalls : Z) (variantDensity : Density)
    (numReadGroupSets numReadGroupsPerReadGroupSet numAlignments : Z)
    (numRnaQuants : Z) :
  (∃ cs, built cs (FileSystemDataset fs localId dataDir backend).2)
  ∧ (∃ cs, built cs
             (SimulatedDataset localId referenceSet randomSeed numVariantSets
                numCalls variantDensity numReadGroupSets
                numReadGroupsPerReadGroupSet numAlignments numRnaQuants).2).
Proof.
  split.
  - destruct (extends_load fs localId dataDir backend []
                (AbstractDataset_init localId) (built_init localId))
      as [cs Hcs].
    by exists cs.
  - destruct (extends_simulated localId referenceSet randomSeed numVariantSets
                numCalls variantDensity numReadGroupSets
                numReadGroupsPerReadGroupSet numAlignments numRnaQuants []
                (AbstractDataset_init localId) (built_init localId))
      as [cs Hcs].
    by exists cs.
Qed.

End loaders_frame.

Section loaders_results.

Context {VariantSet ReadGroupSet RnaQuantification SequenceAnnotation : Type}.
Context `{!DatamodelObject VariantSet, !DatamodelObject ReadGroupSet,
          !DatamodelObject RnaQuantification,
          !DatamodelObject SequenceAnnotation}.
Context {ReferenceSet Backend Density : Type}.
Context `{!Collaborators (VariantSet := VariantSet)
            (ReadGroupSet := ReadGroupSet)
            (RnaQuantification := RnaQuantification)
            (SequenceAnnotation := SequenceAnnotation)
            (ReferenceSet := ReferenceSet) (Backend := Backend)
            (Density := Density)}.

Local Abbreviation Dataset :=
  (AbstractDataset (VariantSet := VariantSet) (ReadGroupSet := ReadGroupSet)
     (RnaQuantification := RnaQuantification)
     (SequenceAnnotation := SequenceAnnotation)).

Local Abbreviation method :=
  (method (VariantSet := VariantSet) (ReadGroupSet := ReadGroupSet)
     (RnaQuantification := RnaQuantification)
     (SequenceAnnotation := SequenceAnnotation)).

Local Abbreviation add_call :=
  (add_call (VariantSet := VariantSet) (ReadGroupSet := ReadGroupSet)
     (RnaQuantification := RnaQuantification)
     (SequenceAnnotation := SequenceAnnotation)).

Lemma listdir_returns_isdir fs dir entries :
  listdir fs dir = Returns entries → isdir fs dir = true.
Proof. unfold isdir, listdir. by destruct (fs !! dir) as [[]|]. Qed.

Lemma block_returns fs dir (body : string → method unit) (d d' : Dataset) :
  (entries ← call (listdir fs dir); for_in entries body) d = (Returns tt, d') →
  isdir fs dir = true.
Proof.
  run. destruct (listdir fs dir) as [entries|e] eqn:Hl; [|done].
  intros _. by eapply listdir_returns_isdir.
Qed.

Lemma seq_returns_inv {B} (m : method unit) (k : method B) d b d' :
  (m ;; k) d = (Returns b, d') →
  ∃ d1, m d = (Returns tt, d1) ∧ k d1 = (Returns b, d').
Proof.
  run. destruct (m d) as [[[]|e] d1]; [|done]. intros Hk. by exists d1.
Qed.

(** X7: a file system load that returns normally has found all four
    resource directories; a data directory that lacks one of [variants],
    [reads], [rnaQuant] and [sequenceAnnotations] cannot be loaded,
    whatever else it holds. *)
Theorem loaded_dataset_has_four_directories
    fs localId dataDir backend (d : Dataset) :
  FileSystemDataset fs localId dataDir backend = (Returns tt, d) →
  isdir fs (os_path.join dataDir "variants") = true
  ∧ isdir fs (os_path.join dataDir "reads") = true
  ∧ isdir fs (os_path.join dataDir "rnaQuant") = true
  ∧ isdir fs (os_path.join dataDir "sequenceAnnotations") = true.
Proof.
  unfold FileSystemDataset, FileSystemDataset_init.
  intros (d0 & _ & H0) %seq_returns_inv.
  apply seq_returns_inv in H0 as (d1 & H1 & H0).
  apply seq_returns_inv in H0 as (d2 & H2 & H0).
  apply seq_returns_inv in H0 as (d3 & H3 & H4).
  split_and!; by eapply block_returns.
Qed.

(** X8: a file system load returns normally when the sidecar is absent or
    is an object with a description, the four directories can be listed
    and every constructor returns for the entries that qualify.  The
    dataset then holds one variant set per directory under [variants],
    one read-group set per [*.bam] name under [reads], one RNA
    quantification per directory under [rnaQuant] and one annotation per
    entry of [sequenceAnnotations]. *)
Theorem load_returns_when_constructors_do
    fs localId dataDir backend vs rs qs anns :
  let variantSetDir := os_path.join dataDir "variants" in
  let readGroupSetDir := os_path.join dataDir "reads" in
  let rnaQuantDir := os_path.join dataDir "rnaQuant" in
  let seqAnnotationDir := os_path.join dataDir "sequenceAnnotations" in
  (isfile fs (dataDir +:+ ".json") = false
   ∨ ∃ items description,
       fs !! (dataDir +:+ ".json") = Some (File (Returns (JDict items)))
       ∧ items_lookup items "description" = Some description) →
  listdir fs variantSetDir = Returns vs →
  listdir fs readGroupSetDir = Returns rs →
  listdir fs rnaQuantDir = Returns qs →
  listdir fs seqAnnotationDir = Returns anns →
  (∀ self x, x ∈ vs → isdir fs (os_path.join variantSetDir x) = true →
     returned (variants_HtslibVariantSet self x
                 (os_path.join variantSetDir x) backend)) →
  (∀ self x, x ∈ rs → fnmatch.fnmatch x "*.bam" = true →
     returned (reads_HtslibReadGroupSet self (os_path.splitext x).1
                 (os_path.join readGroupSetDir x) backend)) →
  (∀ self x, x ∈ qs → isdir fs (os_path.join rnaQuantDir x) = true →
     returned (rnaQuantification_RNASeqResult self x
                 (os_path.join rnaQuantDir x))) →
  (∀ self x, x ∈ anns →
     returned (sequenceAnnotations_SequenceAnnotation self x
                 (os_path.join seqAnnotationDir x))) →
  ∃ d : Dataset,
    FileSystemDataset fs localId dataDir backend = (Returns tt, d)
    ∧ length (_variantSetIds d)
      = length (filter (λ x, isdir fs (os_path.join variantSetDir x) = true) vs)
    ∧ length (_readGroupSetIds d)
      = length (filter (λ x, fnmatch.fnmatch x "*.bam" = true) rs)
    ∧ length (_rnaQuantificationIds d)
      = length (filter (λ x, isdir fs (os_path.join rnaQuantDir x) = true) qs)
    ∧ length (_sequenceAnnotationIds d) = length anns.
Proof.
  intros vdir rdir qdir adir Hmeta Hvs Hrs Hqs Hanns Hv Hr Hq Ha.
  assert (∃ d0 : Dataset,
            _setMetadata fs dataDir (AbstractDataset_init localId)
            = (Returns tt, d0)
            ∧ _variantSetIds d0 = [] ∧ _readGroupSetIds d0 = []
            ∧ _rnaQuantificationIds d0 = []
            ∧ _sequenceAnnotationIds d0 = []) as (d0 & H0 & Ev0 & Er0 & Eq0 & Ea0).
  { unfold _setMetadata.
    destruct Hmeta as [Hfile|(items & description & Hfs & Hkey)].
    - rewrite Hfile. by eexists.
    - unfold isfile, json_load. rewrite Hfs. run. simpl. rewrite Hkey.
      by eexists. }
  destruct (for_in_constructs (variantSetEntry fs vdir backend)
              (λ x, isdir fs (os_path.join vdir x))
              (λ self x, variants_HtslibVariantSet self x
                           (os_path.join vdir x) backend)
              addVariantSet (λ _ _, eq_refl) (λ _ _, eq_refl)
              (variantSetEntry_eq fs vdir backend) vs d0 Hv)
    as (es1 & Hrun1 & Hall1 %Forall2_length).
  set (d1 := (for_in es1 addVariantSet d0).2) in *.
  destruct (for_in_constructs (readGroupSetEntry rdir backend)
              (λ x, fnmatch.fnmatch x "*.bam")
              (λ self x, reads_HtslibReadGroupSet self (os_path.splitext x).1
                           (os_path.join rdir x) backend)
              addReadGroupSet (λ _ _, eq_refl) (λ _ _, eq_refl)
              (readGroupSetEntry_eq rdir backend) rs d1 Hr)
    as (es2 & Hrun2 & Hall2 %Forall2_length).
  set (d2 := (for_in es2 addReadGroupSet d1).2) in *.
  destruct (for_in_constructs (rnaQuantificationEntry fs qdir)
              (λ x, isdir fs (os_path.join qdir x))
              (λ self x, rnaQuantification_RNASeqResult self x
                           (os_path.join qdir x))
              addRnaQuantification (λ _ _, eq_refl) (λ _ _, eq_refl)
              (rnaQuantificationEntry_eq fs qdir) qs d2 Hq)
    as (es3 & Hrun3 & Hall3 %Forall2_length).
  set (d3 := (for_in es3 addRnaQuantification d2).2) in *.
  destruct (for_in_constructs (sequenceAnnotationEntry adir) (λ _, true)
              (λ self x, sequenceAnnotations_SequenceAnnotation self x
                           (os_path.join adir x))
              addSequenceAnnotation (λ _ _, eq_refl) (λ _ _, eq_refl)
              (sequenceAnnotationEntry_eq adir) anns d3
              (λ self x Hx _, Ha self x Hx))
    as (es4 & Hrun4 & Hall4 %Forall2_length).
  rewrite filter_all_true in Hall4.
  set (d4 := (for_in es4 addSequenceAnnotation d3).2) in *.
  exists d4. split.
  - unfold FileSystemDataset, FileSystemDataset_init.
    rewrite (seq_returns _ _ _ _ H0).
    unfold loadVariantSets. fold vdir.
    erewrite seq_returns; [|by rewrite (block_listed _ _ _ _ _ Hvs)].
    unfold loadReadGroupSets. fold rdir.
    erewrite seq_returns; [|by rewrite (block_listed _ _ _ _ _ Hrs)].
    unfold loadRnaQuantifications. fold qdir.
    erewrite seq_returns; [|by rewrite (block_listed _ _ _ _ _ Hqs)].
    unfold loadSequenceAnnotations. fold adir.
    by rewrite (block_listed _ _ _ _ _ Hanns).
  - split_and!.
    + unfold d4.
      rewrite (keeps_for_in _variantSetIds addSequenceAnnotation es4) by done.
      unfold d3.
      rewrite (keeps_for_in _variantSetIds addRnaQuantification es3) by done.
      unfold d2.
      rewrite (keeps_for_in _variantSetIds addReadGroupSet es2) by done.
      unfold d1. rewrite for_in_addVariantSet_ids, Ev0. simpl.
      by rewrite length_fmap.
    + unfold d4.
      rewrite (keeps_for_in _readGroupSetIds addSequenceAnnotation es4)
        by done.
      unfold d3.
      rewrite (keeps_for_in _readGroupSetIds addRnaQuantification es3) by done.
      unfold d2. rewrite for_in_addReadGroupSet_ids. unfold d1.
      rewrite (keeps_for_in _readGroupSetIds addVariantSet es1) by done.
      rewrite Er0. simpl. by rewrite length_fmap.
    + unfold d4.
      rewrite (keeps_for_in _rnaQuantificationIds addSequenceAnnotation es4)
        by done.
      unfold d3. rewrite for_in_addRnaQuantification_ids. unfold d2.
      rewrite (keeps_for_in _rnaQuantificationIds addReadGroupSet es2) by done.
      unfold d1.
      rewrite (keeps_for_in _rnaQuantificationIds addVariantSet es1) by done.
      rewrite Eq0. simpl. by rewrite length_fmap.
    + unfold d4. rewrite for_in_addSequenceAnnotation_ids. unfold d3.
      rewrite (keeps_for_in _sequenceAnnotationIds addRnaQuantification es3)
        by done.
      unfold d2.
      rewrite (keeps_for_in _sequenceAnnotationIds addReadGroupSet es2)
        by done.
      unfold d1.
      rewrite (keeps_for_in _sequenceAnnotationIds addVariantSet es1) by done.
      rewrite Ea0. simpl. by rewrite length_fmap.
Qed.

(** X9: a sidecar that cannot be read, or that holds anything but a JSON
    object, makes the load fail before anything is added: with the
    exception of the reader in the first case and with [TypeError] in the
    second, not with [MissingDatasetMetadataException].  A description
    that is JSON [null] gives the description [None], as no sidecar does. *)
Theorem sidecar_must_be_an_object fs localId dataDir backend content :
  fs !! (dataDir +:+ ".json") = Some (File content) →
  (∀ e, content = Raises e →
     FileSystemDataset fs localId dataDir backend
     = (Raises e, AbstractDataset_init localId))
  ∧ (∀ j, content = Returns j → (∀ items, j ≠ JDict items) →
       FileSystemDataset fs localId dataDir backend
       = (Raises TypeError, AbstractDataset_init localId))
  ∧ (∀ items, content = Returns (JDict items) →
       items_lookup items "description" = Some JNone →
       _description (FileSystemDataset fs localId dataDir backend).2 = JNone).
Proof.
  intros Hfs. unfold FileSystemDataset, FileSystemDataset_init.
  split_and!.
  - intros e ->. apply bind_raises.
    unfold _setMetadata, isfile, json_load. rewrite Hfs. by run.
  - intros j -> Hj. apply bind_raises.
    unfold _setMetadata, isfile, json_load. rewrite Hfs. run.
    destruct j; first [done | by destruct (Hj items)].
  - intros items -> Hkey.
    erewrite seq_returns.
    2:{ unfold _setMetadata, isfile, json_load. rewrite Hfs. run. simpl.
        by rewrite Hkey. }
    by rewrite (blocks_keep _description fs dataDir backend).
Qed.

End loaders_results.

Section simulated_names.

Context {VariantSet ReadGroupSet RnaQuantification SequenceAnnotation : Type}.
Context `{!DatamodelObject VariantSet, !DatamodelObject ReadGroupSet,
          !DatamodelObject RnaQuantification,
          !DatamodelObject SequenceAnnotation}.
Context {ReferenceSet Backend Density : Type}.
Context `{!Collaborators (VariantSet := VariantSet)
            (ReadGroupSet := ReadGroupSet)
            (RnaQuantification := RnaQuantification)
            (SequenceAnnotation := SequenceAnnotation)
            (ReferenceSet := ReferenceSet) (Backend := Backend)
            (Density := Density)}.

Local Abbreviation Dataset :=
  (AbstractDataset (VariantSet := VariantSet) (ReadGroupSet := ReadGroupSet)
     (RnaQuantification := RnaQuantification)
     (SequenceAnnotation := SequenceAnnotation)).

Local Abbreviation add_call :=
  (add_call (VariantSet := VariantSet) (ReadGroupSet := ReadGroupSet)
     (RnaQuantification := RnaQuantification)
     (SequenceAnnotation := SequenceAnnotation)).

Lemma for_in_fmap_perform {E} (wrap : E → add_call) (add : E → method unit)
    es (d : Dataset) :
  (∀ e, perform (wrap e) = add e) →
  for_in (wrap <$> es) perform d = for_in es add d.
Proof.
  intros Hwrap. revert d. induction es as [|e es IH]; intros d; [done|].
  rewrite fmap_cons. simpl. run. rewrite Hwrap.
  destruct (add e d) as [[[]|?] d']; [apply IH | done].
Qed.

Lemma built_adds {E} (wrap : E → add_call) (add : E → method unit)
    cs es (d : Dataset) :
  (∀ e, perform (wrap e) = add e) →
  built cs d → built (cs ++ (wrap <$> es)) (for_in es add d).2.
Proof.
  intros Hwrap Hd. rewrite <- (for_in_fmap_perform wrap add es d Hwrap).
  by apply built_for_in.
Qed.

Lemma addedReadGroupSets_of (vss : list VariantSet) (rgss : list ReadGroupSet)
    (rqs : list RnaQuantification) :
  addedReadGroupSets
    (((([] : list add_call) ++ (AddVariantSet <$> vss))
      ++ (AddReadGroupSet <$> rgss))
     ++ (AddRnaQuantification <$> rqs))
  = rgss.
Proof.
  unfold addedReadGroupSets. rewrite !omap_app. simpl.
  assert (H1 : ∀ l : list VariantSet,
            omap (λ c : add_call,
                    match c with AddReadGroupSet r => Some r | _ => None end)
              (AddVariantSet <$> l) = []).
  { induction l; [done|]. by rewrite fmap_cons. }
  assert (H2 : ∀ l : list ReadGroupSet,
            omap (λ c : add_call,
                    match c with AddReadGroupSet r => Some r | _ => None end)
              (AddReadGroupSet <$> l) = l).
  { induction l as [|r l IH]; [done|]. rewrite fmap_cons. simpl.
    f_equal. exact IH. }
  assert (H3 : ∀ l : list RnaQuantification,
            omap (λ c : add_call,
                    match c with AddReadGroupSet r => Some r | _ => None end)
              (AddRnaQuantification <$> l) = []).
  { induction l; [done|]. by rewrite fmap_cons. }
  by rewrite H1, H2, H3, app_nil_r.
Qed.

#[local] Instance simulated_name_inj (prefix : string) :
  Inj (=) (=) (λ i : Z, prefix +:+ pretty i).
Proof. intros i j Hij. by apply (inj pretty), (inj (String.app prefix)). Qed.

(** X10: when the constructor of simulated read-group sets keeps the local
    id it is given, the read-group sets of a simulated dataset are found
    by the names [simRgs0], [simRgs1], ...: the name [simRgs] followed by
    [i] gives the read-group set constructed with that local id and the
    seed [randomSeed + i], and every other name raises
    [ReadGroupSetNameNotFoundException]. *)
Theorem simulated_read_group_sets_by_name
    (localId : string) (referenceSet : ReferenceSet) (randomSeed : Z)
    (numVariantSets numCalls : Z) (variantDensity : Density)
    (numReadGroupSets numReadGroupsPerReadGroupSet numAlignments : Z)
    (numRnaQuants : Z) :
  (∀ self l ref s a b,
     getLocalId (reads_SimulatedReadGroupSet self l ref s a b) = l) →
  let d : Dataset :=
    (SimulatedDataset localId referenceSet randomSeed numVariantSets numCalls
       variantDensity numReadGroupSets numReadGroupsPerReadGroupSet
       numAlignments numRnaQuants).2 in
  (∀ i : nat, Z.of_nat i < numReadGroupSets →
     ∃ self, _localId self = localId
             ∧ getReadGroupSetByName ("simRgs" +:+ pretty (Z.of_nat i)) d
               = (Returns (reads_SimulatedReadGroupSet self
                             ("simRgs" +:+ pretty (Z.of_nat i)) referenceSet
                             (randomSeed + Z.of_nat i)
                             numReadGroupsPerReadGroupSet numAlignments), d))
  ∧ (∀ name,
       (∀ i : nat, Z.of_nat i < numReadGroupSets →
          name ≠ "simRgs" +:+ pretty (Z.of_nat i)) →
       getReadGroupSetByName name d
       = (Raises (ReadGroupSetNameNotFoundException name), d)).
Proof.
  intros Hloc d.
  set (d0 := (set_description (JString ("Simulated dataset " +:+ localId))
                (AbstractDataset_init localId : Dataset)).2).
  destruct (for_in_range_constructs
              (λ i, self ← this;
                    addVariantSet
                      (variants_SimulatedVariantSet self
                         ("simVs" +:+ pretty i) (randomSeed + i)
                         numCalls variantDensity))
              (λ self i, variants_SimulatedVariantSet self
                           ("simVs" +:+ pretty i) (randomSeed + i)
                           numCalls variantDensity)
              addVariantSet numVariantSets d0
              (λ _ _, eq_refl) (λ _ _, eq_refl) (λ _ _, eq_refl))
    as (vss & Hrun1 & _ & _).
  set (d1 := (for_in vss addVariantSet d0).2) in *.
  destruct (for_in_range_constructs
              (λ i, self ← this;
                    addReadGroupSet
                      (reads_SimulatedReadGroupSet self
                         ("simRgs" +:+ pretty i) referenceSet (randomSeed + i)
                         numReadGroupsPerReadGroupSet numAlignments))
              (λ self i, reads_SimulatedReadGroupSet self
                           ("simRgs" +:+ pretty i) referenceSet
                           (randomSeed + i)
                           numReadGroupsPerReadGroupSet numAlignments)
              addReadGroupSet numReadGroupSets d1
              (λ _ _, eq_refl) (λ _ _, eq_refl) (λ _ _, eq_refl))
    as (rgss & Hrun2 & Hlen & Hat).
  set (d2 := (for_in rgss addReadGroupSet d1).2) in *.
  destruct (for_in_range_constructs
              (λ i, self ← this;
                    addRnaQuantification
                      (rnaQuantification_SimulatedRNASeqResult self
                         ("simRq" +:+ pretty i)))
              (λ self i, rnaQuantification_SimulatedRNASeqResult self
                           ("simRq" +:+ pretty i))
              addRnaQuantification numRnaQuants d2
              (λ _ _, eq_refl) (λ _ _, eq_refl) (λ _ _, eq_refl))
    as (rqs & Hrun3 & _ & _).
  set (d3 := (for_in rqs addRnaQuantification d2).2) in *.
  assert (Hd : d = d3).
  { subst d. unfold SimulatedDataset, SimulatedDataset_init.
    rewrite (seq_returns _ _ _ d0) by done.
    rewrite (seq_returns _ _ _ _ Hrun1), (seq_returns _ _ _ _ Hrun2).
    by rewrite Hrun3. }
  assert (Hid1 : _localId d1 = localId).
  { unfold d1. by rewrite (keeps_for_in _localId addVariantSet vss). }
  assert (Hbuilt : built
            (((([] : list add_call) ++ (AddVariantSet <$> vss))
      ++ (AddReadGroupSet <$> rgss))
             ++ (AddRnaQuantification <$> rqs)) d3).
  { apply (built_adds AddRnaQuantification addRnaQuantification);
      [done|].
    apply (built_adds AddReadGroupSet addReadGroupSet); [done|].
    apply (built_adds AddVariantSet addVariantSet); [done|].
    apply built_described, built_init. }
  apply built_reflects in Hbuilt as [_ _ _ _ Hname _ _ _ _].
  rewrite addedReadGroupSets_of in Hname.
  assert (Hnames : getLocalId <$> rgss
                   = (λ i : Z, "simRgs" +:+ pretty i) <$> range numReadGroupSets).
  { apply list_eq. intros i. rewrite !list_lookup_fmap. unfold range.
    destruct (decide (Z.of_nat i < numReadGroupSets)) as [Hi|Hi].
    - destruct (Hat i Hi) as (self & _ & ->).
      rewrite lookup_seqZ_lt by done. simpl. by rewrite Hloc.
    - rewrite lookup_seqZ_ge by lia.
      by rewrite (lookup_ge_None_2 rgss) by lia. }
  assert (Hnodup : NoDup (getLocalId <$> rgss)).
  { rewrite Hnames. apply (NoDup_fmap_2 _), NoDup_seqZ. }
  rewrite Hd. split.
  - intros i Hi. destruct (Hat i Hi) as (self & Hself & Hrgs).
    exists self. split; [by rewrite Hself|].
    pose proof (filter_key_NoDup getLocalId rgss i _ Hnodup Hrgs) as Hone.
    rewrite Hloc in Hone.
    by rewrite getReadGroupSetByName_spec, Hname, Hone.
  - intros name Hname'. rewrite getReadGroupSetByName_spec, Hname.
    assert (Hnone : last (filter (λ y, getLocalId y = name) rgss) = None).
    { apply last_filter_None. rewrite Hnames.
      intros (i & -> & Hi) %list_elem_of_fmap. unfold range in Hi.
      apply elem_of_seqZ in Hi.
      apply (Hname' (Z.to_nat i)); [lia|]. by rewrite Z2Nat.id by lia. }
    by rewrite Hnone.
Qed.

End simulated_names.

(** ** What the simulated dataset holds *)

Section simulated_contents.

Context {VariantSet ReadGroupSet RnaQuantification SequenceAnnotation : Type}.
Context `{!DatamodelObject VariantSet, !DatamodelObject ReadGroupSet,
          !DatamodelObject RnaQuantification,
          !DatamodelObject SequenceAnnotation}.
Context {ReferenceSet Backend Density : Type}.
Context `{!Collaborators (VariantSet := VariantSet)
            (ReadGroupSet := ReadGroupSet)
            (RnaQuantification := RnaQuantification)
            (SequenceAnnotation := SequenceAnnotation)
            (ReferenceSet := ReferenceSet) (Backend := Backend)
            (Density := Density)}.

Local Abbreviation Dataset :=
  (AbstractDataset (VariantSet := VariantSet) (ReadGroupSet := ReadGroupSet)
     (RnaQuantification := RnaQuantification)
     (SequenceAnnotation := SequenceAnnotation)).

Local Abbreviation add_call :=
  (add_call (VariantSet := VariantSet) (ReadGroupSet := ReadGroupSet)
     (RnaQuantification := RnaQuantification)
     (SequenceAnnotation := SequenceAnnotation)).

Lemma omap_fmap_Some {A B} (f : B → option A) (g : A → B) (l : list A) :
  (∀ a, f (g a) = Some a) → omap f (g <$> l) = l.
Proof.
  intros Hfg. induction l as [|a l IH]; [done|].
  rewrite fmap_cons. simpl. rewrite Hfg. f_equal. exact IH.
Qed.

Lemma omap_fmap_None {A B C} (f : B → option C) (g : A → B) (l : list A) :
  (∀ a, f (g a) = None) → omap f (g <$> l) = [].
Proof.
  intros Hfg. induction l as [|a l IH]; [done|].
  rewrite fmap_cons. simpl. by rewrite Hfg.
Qed.

(** The calls that add [vss], then [rgss], then [rqs], sorted by kind. *)
Lemma added_by_kind (vss : list VariantSet) (rgss : list ReadGroupSet)
    (rqs : list RnaQuantification) :
  let cs : list add_call :=
    (AddVariantSet <$> vss) ++ (AddReadGroupSet <$> rgss)
    ++ (AddRnaQuantification <$> rqs) in
  addedVariantSets cs = vss
  ∧ addedReadGroupSets cs = rgss
  ∧ addedRnaQuantifications cs = rqs.
Proof.
  unfold addedVariantSets, addedReadGroupSets, addedRnaQuantifications.
  rewrite !omap_app. split_and!.
  - rewrite (omap_fmap_Some _ AddVariantSet) by done.
    rewrite (omap_fmap_None _ AddReadGroupSet) by done.
    rewrite (omap_fmap_None _ AddRnaQuantification) by done.
    by rewrite app_nil_r.
  - rewrite (omap_fmap_None _ AddVariantSet) by done.
    rewrite (omap_fmap_Some _ AddReadGroupSet) by done.
    rewrite (omap_fmap_None _ AddRnaQuantification) by done.
    by rewrite app_nil_r.
  - rewrite (omap_fmap_None _ AddVariantSet) by done.
    rewrite (omap_fmap_None _ AddReadGroupSet) by done.
    by rewrite (omap_fmap_Some _ AddRnaQuantification) by done.
Qed.

Lemma for_in_perform_app (cs cs' : list add_call) (d : Dataset) :
  for_in (cs ++ cs') perform d = for_in cs' perform (for_in cs perform d).2.
Proof.
  revert d. induction cs as [|c cs IH]; intros d; [done|].
  simpl. run. pose proof (perform_returns c d) as Hc.
  destruct (perform c d) as [[[]|e] d']; [apply IH | done].
Qed.

(** C7: for every seed and every choice of counts the simulated dataset
    is constructed without failure and is the dataset that the
    description and then these add calls leave: first the variant sets
    constructed with the local ids [simVs0], [simVs1], ... and the seeds
    [seed + 0], [seed + 1], ..., as many as [numVariantSets] says (none
    for a count below one); then the read-group sets constructed with the
    local ids [simRgs0], ... and the same seeds; then the RNA
    quantifications constructed with the local ids [simRq0], ....  Each is
    constructed as a child of this dataset.  The lists of ids are those
    of these entities in this order, and [getVariantSets],
    [getReadGroupSets] and [getRnaQuantifications] return as many
    entities as were added: position by position the entity the dataset
    holds under the id added there, hence these entities themselves when
    the constructors give them distinct ids.  Two runs on the same
    arguments give the same lists of ids. *)
Theorem simulated_dataset_contents
    (localId : string) (referenceSet : ReferenceSet) (randomSeed : Z)
    (numVariantSets numCalls : Z) (variantDensity : Density)
    (numReadGroupSets numReadGroupsPerReadGroupSet numAlignments : Z)
    (numRnaQuants : Z) :
  let simulated : outcome unit * Dataset :=
    SimulatedDataset localId referenceSet randomSeed numVariantSets numCalls
      variantDensity numReadGroupSets numReadGroupsPerReadGroupSet
      numAlignments numRnaQuants in
  ∃ vss rgss rqs,
    simulated.1 = Returns tt
    ∧ simulated.2
      = (for_in ((AddVariantSet <$> vss) ++ (AddReadGroupSet <$> rgss)
                 ++ (AddRnaQuantification <$> rqs))
           perform
           (set_description (JString ("Simulated dataset " +:+ localId))
              (AbstractDataset_init localId)).2).2
    ∧ _variantSetIds simulated.2 = getId <$> vss
    ∧ _readGroupSetIds simulated.2 = getId <$> rgss
    ∧ _rnaQuantificationIds simulated.2 = getId <$> rqs
    ∧ length vss = Z.to_nat numVariantSets
    ∧ length rgss = Z.to_nat numReadGroupSets
    ∧ length rqs = Z.to_nat numRnaQuants
    ∧ (∀ i : nat, Z.of_nat i < numVariantSets →
         ∃ self, _localId self = localId
                 ∧ vss !! i
                   = Some (variants_SimulatedVariantSet self
                             ("simVs" +:+ pretty (Z.of_nat i))
                             (randomSeed + Z.of_nat i)
                             numCalls variantDensity))
    ∧ (∀ i : nat, Z.of_nat i < numReadGroupSets →
         ∃ self, _localId self = localId
                 ∧ rgss !! i
                   = Some (reads_SimulatedReadGroupSet self
                             ("simRgs" +:+ pretty (Z.of_nat i)) referenceSet
                             (randomSeed + Z.of_nat i)
                             numReadGroupsPerReadGroupSet numAlignments))
    ∧ (∀ i : nat, Z.of_nat i < numRnaQuants →
         ∃ self, _localId self = localId
                 ∧ rqs !! i
                   = Some (rnaQuantification_SimulatedRNASeqResult self
                             ("simRq" +:+ pretty (Z.of_nat i))))
    ∧ (∃ l, getVariantSets simulated.2 = (Returns l, simulated.2)
            ∧ getNumVariantSets simulated.2
              = (Returns (Z.of_nat (length vss)), simulated.2)
            ∧ lists_current vss l)
    ∧ (∃ l, getReadGroupSets simulated.2 = (Returns l, simulated.2)
            ∧ getNumReadGroupSets simulated.2
              = (Returns (Z.of_nat (length rgss)), simulated.2)
            ∧ lists_current rgss l)
    ∧ (∃ l, getRnaQuantifications simulated.2 = (Returns l, simulated.2)
            ∧ lists_current rqs l)
    ∧ (∀ again,
         again = SimulatedDataset localId referenceSet randomSeed
                   numVariantSets numCalls variantDensity numReadGroupSets
                   numReadGroupsPerReadGroupSet numAlignments numRnaQuants →
         _variantSetIds again.2 = _variantSetIds simulated.2
         ∧ _readGroupSetIds again.2 = _readGroupSetIds simulated.2
         ∧ _rnaQuantificationIds again.2 = _rnaQuantificationIds simulated.2).
Proof.
  intros simulated.
  set (d0 := (set_description (JString ("Simulated dataset " +:+ localId))
                (AbstractDataset_init localId : Dataset)).2).
  destruct (for_in_range_constructs
              (λ i, self ← this;
                    addVariantSet
                      (variants_SimulatedVariantSet self
                         ("simVs" +:+ pretty i) (randomSeed + i)
                         numCalls variantDensity))
              (λ self i, variants_SimulatedVariantSet self
                           ("simVs" +:+ pretty i) (randomSeed + i)
                           numCalls variantDensity)
              addVariantSet numVariantSets d0
              (λ _ _, eq_refl) (λ _ _, eq_refl) (λ _ _, eq_refl))
    as (vss & Hrun1 & Hlen1 & Hat1).
  set (d1 := (for_in vss addVariantSet d0).2) in *.
  destruct (for_in_range_constructs
              (λ i, self ← this;
                    addReadGroupSet
                      (reads_SimulatedReadGroupSet self
                         ("simRgs" +:+ pretty i) referenceSet (randomSeed + i)
                         numReadGroupsPerReadGroupSet numAlignments))
              (λ self i, reads_SimulatedReadGroupSet self
                           ("simRgs" +:+ pretty i) referenceSet
                           (randomSeed + i)
                           numReadGroupsPerReadGroupSet numAlignments)
              addReadGroupSet numReadGroupSets d1
              (λ _ _, eq_refl) (λ _ _, eq_refl) (λ _ _, eq_refl))
    as (rgss & Hrun2 & Hlen2 & Hat2).
  set (d2 := (for_in rgss addReadGroupSet d1).2) in *.
  destruct (for_in_range_constructs
              (λ i, self ← this;
                    addRnaQuantification
                      (rnaQuantification_SimulatedRNASeqResult self
                         ("simRq" +:+ pretty i)))
              (λ self i, rnaQuantification_SimulatedRNASeqResult self
                           ("simRq" +:+ pretty i))
              addRnaQuantification numRnaQuants d2
              (λ _ _, eq_refl) (λ _ _, eq_refl) (λ _ _, eq_refl))
    as (rqs & Hrun3 & Hlen3 & Hat3).
  set (d3 := (for_in rqs addRnaQuantification d2).2) in *.
  assert (Hsim : simulated = (Returns tt, d3)).
  { subst simulated. unfold SimulatedDataset, SimulatedDataset_init.
    rewrite (seq_returns _ _ _ d0) by done.
    rewrite (seq_returns _ _ _ _ Hrun1).
    by rewrite (seq_returns _ _ _ _ Hrun2). }
  assert (Hid1 : _localId d1 = localId).
  { unfold d1. by rewrite (keeps_for_in _localId addVariantSet vss). }
  assert (Hid2 : _localId d2 = localId).
  { unfold d2. by rewrite (keeps_for_in _localId addReadGroupSet rgss). }
  set (cs := ((AddVariantSet <$> vss) ++ (AddReadGroupSet <$> rgss)
              ++ (AddRnaQuantification <$> rqs) : list add_call)).
  assert (Hcalls : d3 = (for_in cs perform d0).2).
  { unfold cs. rewrite !for_in_perform_app.
    rewrite (for_in_fmap_perform AddVariantSet addVariantSet) by done.
    rewrite (for_in_fmap_perform AddReadGroupSet addReadGroupSet) by done.
    by rewrite (for_in_fmap_perform AddRnaQuantification addRnaQuantification)
      by done. }
  assert (Hbuilt : built cs d3).
  { rewrite Hcalls. apply (built_for_in [] cs), built_described, built_init. }
  apply built_reflects in Hbuilt as [Hv Hvm Hr Hrm _ Hq Hqm _ _].
  destruct (added_by_kind vss rgss rqs) as (Hvss & Hrgss & Hrqs).
  fold cs in Hvss, Hrgss, Hrqs.
  rewrite Hvss in Hv, Hvm. rewrite Hrgss in Hr, Hrm. rewrite Hrqs in Hq, Hqm.
  exists vss, rgss, rqs. rewrite Hsim. cbn [fst snd].
  split_and!; try done.
  - intros i Hi. destruct (Hat2 i Hi) as (self & Hself & Hi2).
    exists self. by rewrite Hself.
  - intros i Hi. destruct (Hat3 i Hi) as (self & Hself & Hi3).
    exists self. by rewrite Hself.
  - destruct (getAll_current _ _ Hvm) as (l & Hl & Hc). exists l.
    unfold getVariantSets, getNumVariantSets. run.
    by rewrite Hv, Hl, length_fmap.
  - destruct (getAll_current _ _ Hrm) as (l & Hl & Hc). exists l.
    unfold getReadGroupSets, getNumReadGroupSets. run.
    by rewrite Hr, Hl, length_fmap.
  - destruct (getAll_current _ _ Hqm) as (l & Hl & Hc). exists l.
    unfold getRnaQuantifications. run. by rewrite Hq, Hl.
  - intros again ->. fold simulated. by rewrite Hsim.
Qed.

End simulated_contents.

Lemma simulated_dataset_contents_witness :
  let simulated := SimulatedDataset "ds" tt 5 2 1 tt 2 1 1 1 in
  simulated.1 = Returns tt
  ∧ _variantSetIds simulated.2 = ["ds:simVs0"; "ds:simVs1"]
  ∧ ∃ (vss l : list sample.resource),
      _variantSetIds simulated.2 = getId <$> vss
      ∧ length vss = 2%nat
      ∧ (∃ self, _localId self = "ds"
                 ∧ vss !! 1%nat
                   = Some (variants_SimulatedVariantSet self "simVs1" 6 1 tt))
      ∧ getVariantSets simulated.2 = (Returns l, simulated.2)
      ∧ lists_current vss l.
Proof.
  intros simulated.
  split; [reflexivity|]. split; [vm_compute; reflexivity|].
  destruct (simulated_dataset_contents "ds" tt 5 2 1 tt 2 1 1 1)
    as (vss & rgss & rqs & _ & _ & Hids & _ & _ & Hlen & _ & _ & Hat & _ & _
        & (l & Hget & _ & Hlist) & _).
  exists vss, l. split; [exact Hids|]. split; [exact Hlen|].
  split; [exact (Hat 1%nat eq_refl)|]. split; [exact Hget | exact Hlist].
Defined.

(** X11: which files under [reads] share a local id.  Two names that
    match [*.bam] and hold no slash get the same local id only when they
    are the same name or one is the other followed by [.bam]: the second
    case is that of a name made of dots and [.bam], which keeps its
    extension. *)
Theorem bam_local_ids_coincide f1 f2 :
  fnmatch.fnmatch f1 "*.bam" = true → fnmatch.fnmatch f2 "*.bam" = true →
  py_str.rfind "/" f1 = -1 → py_str.rfind "/" f2 = -1 →
  (os_path.splitext f1).1 = (os_path.splitext f2).1 →
  f1 = f2 ∨ f1 = f2 +:+ ".bam" ∨ f2 = f1 +:+ ".bam".
Proof.
  intros [s1 ->] %fnmatch_bam [s2 ->] %fnmatch_bam Hsep1 Hsep2.
  rewrite (rfind_app_absent "/" s1 ".bam") in Hsep1 by done.
  rewrite (rfind_app_absent "/" s2 ".bam") in Hsep2 by done.
  assert (Hroot : ∀ s, py_str.rfind "/" s = -1 →
            (os_path.splitext (s +:+ ".bam")).1 = s
            ∨ (os_path.splitext (s +:+ ".bam")).1 = s +:+ ".bam").
  { intros s Hs.
    destruct (py_str.other_than "." (s +:+ ".bam") 0 (String.length s))
      eqn:Hother.
    - left. apply other_than_prefix in Hother. by rewrite splitext_bam_root.
    - right. rewrite splitext_bam_dots; [done..|].
      intros t1 a t2 Heq. destruct (decide (a = "."%char)) as [|Ha]; [done|].
      assert (py_str.other_than "." (s +:+ ".bam") 0 (String.length s) = true)
        as Htrue by (apply other_than_prefix; eauto).
      congruence. }
  destruct (Hroot s1 Hsep1) as [->| ->], (Hroot s2 Hsep2) as [->| ->];
    intros Heq; subst; auto.
Qed.

(** ** The summary of a dataset *)

Section summary.

Context {VariantSet ReadGroupSet RnaQuantification SequenceAnnotation : Type}.
Context `{!DatamodelObject VariantSet, !DatamodelObject ReadGroupSet,
          !DatamodelObject RnaQuantification,
          !DatamodelObject SequenceAnnotation}.
Context {ReferenceSet Backend Density : Type}.
Context `{!Collaborators (VariantSet := VariantSet)
            (ReadGroupSet := ReadGroupSet)
            (RnaQuantification := RnaQuantification)
            (SequenceAnnotation := SequenceAnnotation)
            (ReferenceSet := ReferenceSet) (Backend := Backend)
            (Density := Density)}.

Local Abbreviation Dataset :=
  (AbstractDataset (VariantSet := VariantSet) (ReadGroupSet := ReadGroupSet)
     (RnaQuantification := RnaQuantification)
     (SequenceAnnotation := SequenceAnnotation)).

Lemma keeps_simulated {A} (f : Dataset → A)
    (localId : string) (referenceSet : ReferenceSet) (randomSeed : Z)
    (numVariantSets numCalls : Z) (variantDensity : Density)
    (numReadGroupSets numReadGroupsPerReadGroupSet numAlignments : Z)
    (numRnaQuants : Z) :
  (∀ c, keeps f (perform c)) →
  ∀ d : Dataset,
    f (SimulatedDataset_init localId referenceSet randomSeed numVariantSets
         numCalls variantDensity numReadGroupSets
         numReadGroupsPerReadGroupSet numAlignments numRnaQuants d).2
    = f (set_description (JString ("Simulated dataset " +:+ localId)) d).2.
Proof.
  intros Hadd d. unfold SimulatedDataset_init.
  rewrite (seq_returns
             (set_description (JString ("Simulated dataset " +:+ localId)))
             _ d (set_description
                    (JString ("Simulated dataset " +:+ localId)) d).2 eq_refl).
  apply (keeps_bind f); [|intros _; apply keeps_bind; [|intros _]];
    apply keeps_for_in; intros i;
    (apply keeps_bind; [done|]); intros self.
  - apply (Hadd (AddVariantSet _)).
  - apply (Hadd (AddReadGroupSet _)).
  - apply (Hadd (AddRnaQuantification _)).
Qed.

(** X12: the summary [toProtocolElement] gives does not depend on what
    was loaded.  For a simulated dataset it holds the compound id and the
    name of the dataset and the description [Simulated dataset] followed
    by the name; after a file system load, also one that failed, it holds
    the name the dataset was constructed with; and an add call changes
    nothing in it. *)
Theorem summary_ignores_resources (compoundId : string → string)
    fs dataDir backend
    (localId : string) (referenceSet : ReferenceSet) (randomSeed : Z)
    (numVariantSets numCalls : Z) (variantDensity : Density)
    (numReadGroupSets numReadGroupsPerReadGroupSet numAlignments : Z)
    (numRnaQuants : Z) (c : add_call) (d : Dataset) :
  (toProtocolElement compoundId
     (SimulatedDataset localId referenceSet randomSeed numVariantSets numCalls
        variantDensity numReadGroupSets numReadGroupsPerReadGroupSet
        numAlignments numRnaQuants).2).1
  = Returns {| protocol_id := compoundId localId;
               protocol_name := localId;
               protocol_description :=
                 JString ("Simulated dataset " +:+ localId) |}
  ∧ (∃ description,
       (toProtocolElement compoundId
          (FileSystemDataset fs localId dataDir backend).2).1
       = Returns {| protocol_id := compoundId localId;
                    protocol_name := localId;
                    protocol_description := description |})
  ∧ (toProtocolElement compoundId (perform c d).2).1
    = (toProtocolElement compoundId d).1.
Proof.
  split_and!.
  - unfold toProtocolElement, getDescription, SimulatedDataset. run.
    rewrite (keeps_simulated _localId), (keeps_simulated _description);
      by try (intros c'; intros d'; destruct c').
  - eexists. unfold toProtocolElement, getDescription, FileSystemDataset. run.
    assert (Hid : keeps (λ d : Dataset, _localId d)
                    (FileSystemDataset_init fs localId dataDir backend)).
    { unfold FileSystemDataset_init.
      apply keeps_bind; [|intros _; apply keeps_bind;
                          [|intros _; apply keeps_bind;
                            [|intros _; apply keeps_bind; [|intros _]]]].
      - by apply keeps_setMetadata.
      - by apply keeps_loadVariantSets.
      - by apply keeps_loadReadGroupSets.
      - by apply keeps_loadRnaQuantifications.
      - by apply keeps_loadSequenceAnnotations. }
    by rewrite Hid.
  - by destruct c.
Qed.

End summary.

(** ** The downloader of scripts/utils.py *)

Section downloader.

Import utils.

Context {Float : Type}.
Context (naturalsize : Z → result string).
Context (truediv : Z → Z → result Float) (one_lt : Float → bool).
Context (format_percentage : Float + Z → string).
Context (requests_get : string → result Response).
Context (int : string → result Z).
Context (open_wb : string → option error).

Local Abbreviation _updateDisplay :=
  (_updateDisplay naturalsize truediv one_lt format_percentage).

Local Abbreviation download :=
  (download naturalsize truediv one_lt format_percentage requests_get int
     open_wb).

Local Abbreviation announced := (announced int).

Local Abbreviation presentable := (presentable naturalsize truediv).

Ltac run_action :=
  cbv [mbind action_bind mret action_ret fail self_ update call_
       stream_write stream_flush set_displayCounter set_bytesReceived
       set_fileSize _getFileNameDisplayString].

Lemma action_seq_done {S B} (m : action S unit) (k : action S B) s s' :
  m s = (Done tt, s') → (m ;; k) s = k s'.
Proof. intros Hm. cbv [mbind action_bind]. by rewrite Hm. Qed.

Lemma action_bind_done {S A B} (m : action S A) (k : A → action S B) s a s' :
  m s = (Done a, s') → (m ≫= k) s = k a s'.
Proof. intros Hm. cbv [mbind action_bind]. by rewrite Hm. Qed.

Lemma action_bind_failed {S A B} (m : action S A) (k : A → action S B)
    s e s' :
  m s = (Failed e, s') → (m ≫= k) s = (Failed e, s').
Proof. intros Hm. cbv [mbind action_bind]. by rewrite Hm. Qed.

(** One call of [_updateDisplay]. *)
Lemma updateDisplay_step (modulo : Z) (self : FileDownloader) :
  modulo ≠ 0 → fileSize self ≠ Some 0 →
  presentable (bytesReceived self) (fileSize self) →
  ∃ line,
    _updateDisplay modulo self
    = (Done tt,
       displayed self
         (if (displayCounter self + 1) mod modulo =? 0
          then shows [line] else [])
         (displayCounter self + 1)).
Proof.
  intros Hm Hsize Hshown. unfold utils._updateDisplay. run_action. simpl.
  destruct (Z.eqb_spec modulo 0) as [|_]; [done|].
  destruct ((displayCounter self + 1) mod modulo =? 0); simpl.
  - destruct (fileSize self) as [size|] eqn:Hfs.
    + destruct (Z.eqb_spec size 0) as [->|_]; [done|].
      destruct Hshown as ((quotient & Hq) & (numerator & Hn)
                          & (denominator & Hd)).
      rewrite Hq, Hn, Hd.
      destruct (basenameLength self <=? displayWindowSize self);
        eexists; unfold displayed, shows; simpl;
        by rewrite Hfs, <- app_assoc.
    + destruct Hshown as (text & Ht). rewrite Ht.
      destruct (basenameLength self <=? displayWindowSize self);
        eexists; unfold displayed, shows; simpl;
        by rewrite Hfs, <- app_assoc.
  - exists "". unfold displayed. by rewrite app_nil_r.
Qed.

Lemma div_succ (c m : Z) :
  0 < m → (c + 1) / m = c / m + (if (c + 1) mod m =? 0 then 1 else 0).
Proof.
  intros Hm.
  pose proof (Z.div_mod c m ltac:(lia)) as Hc.
  pose proof (Z.mod_pos_bound c m Hm) as Hr.
  destruct (decide (c mod m + 1 = m)) as [Hfull|Hpart].
  - assert (Hdiv : (c + 1) / m = c / m + 1)
      by (symmetry; apply (Z.div_unique_pos _ _ _ 0); lia).
    assert (Hmod : (c + 1) mod m = 0)
      by (symmetry; apply (Z.mod_unique_pos _ _ (c / m + 1)); lia).
    by rewrite Hdiv, Hmod.
  - assert (Hdiv : (c + 1) / m = c / m)
      by (symmetry; apply (Z.div_unique_pos _ _ _ (c mod m + 1)); lia).
    assert (Hmod : (c + 1) mod m = c mod m + 1)
      by (symmetry; apply (Z.mod_unique_pos _ _ (c / m)); lia).
    rewrite Hdiv, Hmod. destruct (Z.eqb_spec (c mod m + 1) 0); lia.
Qed.

(** X13: [_updateDisplay(modulo)] shows a line on every [modulo]-th call.
    With a positive [modulo], a file size other than 0 and numbers that
    can be shown (the division of the bytes received by the file size and
    the calls of [naturalsize] do not overflow), [n] calls in a row all
    return, raise the display counter from [c] to [c + n], and write as
    many lines as there are multiples of [modulo] among [c + 1 .. c + n],
    each followed by a flush; nothing else of the object changes. *)
Theorem updateDisplay_every_modulo (modulo : Z) (n : nat)
    (self : FileDownloader) :
  0 < modulo → fileSize self ≠ Some 0 →
  presentable (bytesReceived self) (fileSize self) →
  ∃ lines,
    for_each (replicate n tt) (λ _, _updateDisplay modulo) self
    = (Done tt,
       displayed self (shows lines) (displayCounter self + Z.of_nat n))
    ∧ Z.of_nat (length lines)
      = (displayCounter self + Z.of_nat n) / modulo
        - displayCounter self / modulo.
Proof.
  intros Hm. revert self. induction n as [|n IH]; intros self Hsize Hshown.
  - exists []. split; [|simpl; rewrite Z.add_0_r; lia].
    simpl. unfold displayed, shows. simpl. rewrite app_nil_r, Z.add_0_r.
    by destruct self.
  - destruct (updateDisplay_step modulo self ltac:(lia) Hsize Hshown)
      as [line Hstep].
    set (self1 := displayed self _ _) in Hstep.
    destruct (IH self1 Hsize Hshown) as (lines & Hrun & Hlen).
    exists ((if (displayCounter self + 1) mod modulo =? 0
             then [line] else []) ++ lines).
    split.
    + simpl replicate. simpl for_each.
      rewrite (action_seq_done _ _ _ _ Hstep), Hrun.
      f_equal. unfold displayed, shows, self1. simpl.
      rewrite flat_map_app, <- !app_assoc.
      replace (displayCounter self + 1 + Z.of_nat n)
        with (displayCounter self + Z.of_nat (S n)) by lia.
      by destruct ((displayCounter self + 1) mod modulo =? 0).
    + rewrite length_app, Nat2Z.inj_add, Hlen. simpl displayCounter.
      rewrite (div_succ (displayCounter self) modulo Hm).
      replace (displayCounter self + 1 + Z.of_nat n)
        with (displayCounter self + Z.of_nat (S n)) by lia.
      destruct ((displayCounter self + 1) mod modulo =? 0); simpl; lia.
Qed.

Lemma updateDisplay_modulo_zero (self : FileDownloader) :
  _updateDisplay 0 self
  = (Failed ZeroDivisionError, displayed self [] (displayCounter self + 1)).
Proof.
  unfold utils._updateDisplay. run_action. simpl.
  unfold displayed. by rewrite app_nil_r.
Qed.

Lemma updateDisplay_size_zero (modulo : Z) (self : FileDownloader) :
  modulo ≠ 0 → (displayCounter self + 1) mod modulo = 0 →
  fileSize self = Some 0 →
  _updateDisplay modulo self
  = (Failed ZeroDivisionError, displayed self [] (displayCounter self + 1)).
Proof.
  intros Hm Hdue Hsize. unfold utils._updateDisplay. run_action. simpl.
  destruct (Z.eqb_spec modulo 0) as [|_]; [done|].
  rewrite Hdue, Hsize. simpl.
  unfold displayed. rewrite app_nil_r, Hsize.
  by destruct (basenameLength self <=? displayWindowSize self).
Qed.

(** X14: the two divisions of [_updateDisplay].  With [modulo] 0 the call
    raises [ZeroDivisionError]; so it does with a file size of 0 when a
    line is due.  In both cases the display counter has been raised and
    nothing has gone to the stream. *)
Theorem updateDisplay_divides (modulo : Z) (self : FileDownloader) :
  (modulo = 0 →
     _updateDisplay modulo self
     = (Failed ZeroDivisionError,
        displayed self [] (displayCounter self + 1)))
  ∧ (modulo ≠ 0 → (displayCounter self + 1) mod modulo = 0 →
     fileSize self = Some 0 →
     _updateDisplay modulo self
     = (Failed ZeroDivisionError,
        displayed self [] (displayCounter self + 1))).
Proof.
  split.
  - intros ->. apply updateDisplay_modulo_zero.
  - apply updateDisplay_size_zero.
Qed.

(** Strings of bytes. *)
Lemma string_app_assoc (a b c : string) : (a +:+ b) +:+ c = a +:+ b +:+ c.
Proof. induction a as [|x a IH]; [done|]. by rewrite !app_String, IH. Qed.

Lemma string_app_nil_r (a : string) : a +:+ "" = a.
Proof. induction a as [|x a IH]; [done|]. by rewrite app_String, IH. Qed.

Lemma string_length_app (a b : string) :
  String.length (a +:+ b) = (String.length a + String.length b)%nat.
Proof. induction a as [|x a IH]; [done|]. rewrite app_String. simpl. lia. Qed.

Lemma joined_length (chunks : list string) (size : Z) :
  Forall (λ chunk, Z.of_nat (String.length chunk) ≤ size) chunks →
  Z.of_nat (String.length (joined chunks)) ≤ size * Z.of_nat (length chunks).
Proof.
  induction 1 as [|chunk chunks Hc _ IH]; simpl; [lia|].
  rewrite string_length_app. lia.
Qed.

Lemma receiving_nothing self content :
  files self !! path (super self) = Some content →
  receiving self [] [] content = self.
Proof.
  intros Hfile. unfold receiving, shows. simpl.
  rewrite app_nil_r, string_app_nil_r, Z.mul_0_r, !Z.add_0_r.
  rewrite insert_id by done. by destruct self as [[] ? ?].
Qed.

(** The loop of [download]: a chunk counts for a whole chunk size, shows
    a line and goes to the file. *)
Lemma download_loop (chunks : list string) (self : HttpFileDownloader)
    (content : string) :
  fileSize (super self) ≠ Some 0 →
  (∀ i : nat, (0 < i ≤ length chunks)%nat →
     presentable (bytesReceived (super self) + chunkSize self * Z.of_nat i)
       (fileSize (super self))) →
  files self !! path (super self) = Some content →
  ∃ lines,
    for_each chunks (λ chunk,
      now ← self_;
      inherited (set_bytesReceived
                   (bytesReceived (super now) + chunkSize now)) ;;
      inherited (_updateDisplay 1) ;;
      file_write (path (super self)) chunk) self
    = (Done tt, receiving self lines chunks content)
    ∧ length lines = length chunks.
Proof.
  intros Hsize. revert self content Hsize.
  induction chunks as [|chunk chunks IH];
    intros self content Hsize Hshown Hfile.
  - exists []. by rewrite receiving_nothing.
  - set (counted :=
           mkFileDownloader (url (super self)) (path (super self))
             (basename (super self)) (basenameLength (super self))
             (stream (super self))
             (bytesReceived (super self) + chunkSize self)
             (displayIndex (super self)) (displayWindowSize (super self))
             (fileSize (super self)) (displayCounter (super self))).
    assert (Hfirst : presentable (bytesReceived counted) (fileSize counted)).
    { unfold counted. cbn [bytesReceived fileSize].
      specialize (Hshown 1%nat ltac:(simpl; lia)).
      by rewrite Z.mul_1_r in Hshown. }
    destruct (updateDisplay_step 1 counted ltac:(lia) Hsize Hfirst)
      as [line Hline].
    rewrite Z.mod_1_r in Hline. simpl in Hline.
    set (self1 :=
           mkHttpFileDownloader
             (displayed counted (shows [line]) (displayCounter (super self) + 1))
             (chunkSize self)
             (<[path (super self) := content +:+ chunk]> (files self))).
    destruct (IH self1 (content +:+ chunk) Hsize) as (lines & Hrun & Hlen).
    { intros i Hi. unfold self1, displayed, counted.
      cbn [super chunkSize bytesReceived fileSize].
      specialize (Hshown (S i) ltac:(simpl; lia)).
      replace (bytesReceived (super self) + chunkSize self
               + chunkSize self * Z.of_nat i)
        with (bytesReceived (super self)
              + chunkSize self * Z.of_nat (S i)) by lia.
      exact Hshown. }
    { unfold self1. simpl. by rewrite lookup_insert_eq. }
    exists (line :: lines). split; [|simpl; by rewrite Hlen].
    simpl for_each.
    assert (Hbody :
      (now ← self_;
       inherited (set_bytesReceived
                    (bytesReceived (super now) + chunkSize now)) ;;
       inherited (_updateDisplay 1) ;;
       file_write (path (super self)) chunk) self = (Done tt, self1)).
    { cbv [mbind action_bind self_ inherited set_bytesReceived update
           file_write]. simpl. fold counted. rewrite Hline.
      unfold self1. simpl. by rewrite Hfile. }
    rewrite (action_seq_done _ _ _ _ Hbody).
    change (path (super self)) with (path (super self1)) at 1.
    rewrite Hrun. f_equal. unfold receiving. cbn [length].
    rewrite Nat2Z.inj_succ. unfold self1, displayed, counted, shows.
    cbn [super chunkSize files url path basename basenameLength stream
         bytesReceived displayIndex displayWindowSize fileSize displayCounter
         flat_map joined foldr app].
    rewrite <- !app_assoc, string_app_assoc, insert_insert_eq.
    f_equal. f_equal; lia.
Qed.

(** [download] up to the loop. *)
Lemma download_reaches_loop (self : HttpFileDownloader) response size
    chunks broken :
  requests_get (url (super self)) = Done response →
  raise_for_status response = None →
  announced response (fileSize (super self)) size →
  open_wb (path (super self)) = None →
  iter_content response (chunkSize self) = (chunks, broken) →
  download self
  = (for_each chunks (λ chunk,
       now ← self_;
       inherited (set_bytesReceived
                    (bytesReceived (super now) + chunkSize now)) ;;
       inherited (_updateDisplay 1) ;;
       file_write (path (super self)) chunk) ;;
     match broken with
     | Some e => fail e
     | None => mret tt
     end ;;
     inherited _cleanUp)
      (started self size (<[path (super self) := ""]> (files self))).
Proof.
  intros Hget Hstatus Hsize Hopen Hiter. unfold utils.download.
  cbv [mbind action_bind inherited _printStartDownloadMessage stream_write
       update self_ call_ mret action_ret fail file_create set_fileSize].
  cbn [super url path chunkSize files fileSize].
  rewrite Hget, Hstatus. cbn [super url path chunkSize files fileSize].
  destruct Hsize as [[Hnone ->]|(text & n & Htext & Hint & ->)].
  - rewrite Hnone, Hopen, Hiter. reflexivity.
  - rewrite Htext, Hint, Hopen, Hiter. reflexivity.
Qed.

(** X15: what a download does.  When the request succeeds, the status is
    good, the announced size (if there is one) is an integer other than 0,
    the file can be opened and the numbers of every display line can be
    shown (after each chunk, the division of the bytes counted by the
    file size and the calls of [naturalsize] do not overflow), [download]
    writes the chunks it receives to the file, one after the other and
    over what the file held; it counts a whole chunk size for every
    chunk, shows one line per chunk after the start message, and ends
    with a newline on the stream.  If the transfer breaks, it raises that
    exception instead, with the chunks received so far in the file and
    without the final newline. *)
Theorem download_writes_the_chunks (self : HttpFileDownloader) response size
    chunks broken :
  requests_get (url (super self)) = Done response →
  raise_for_status response = None →
  announced response (fileSize (super self)) size →
  size ≠ Some 0 →
  open_wb (path (super self)) = None →
  iter_content response (chunkSize self) = (chunks, broken) →
  (∀ i : nat, (0 < i ≤ length chunks)%nat →
     presentable (bytesReceived (super self) + chunkSize self * Z.of_nat i)
       size) →
  ∃ lines self',
    download self
    = (match broken with None => Done tt | Some e => Failed e end, self')
    ∧ files self' = <[path (super self) := joined chunks]> (files self)
    ∧ bytesReceived (super self')
      = bytesReceived (super self) + chunkSize self * Z.of_nat (length chunks)
    ∧ displayCounter (super self')
      = displayCounter (super self) + Z.of_nat (length chunks)
    ∧ fileSize (super self') = size
    ∧ length lines = length chunks
    ∧ stream (super self')
      = stream (super self) ++ [Write (start_line self)] ++ shows lines
        ++ match broken with
           | None => [Write (String "010" ""); Flush]
           | Some _ => []
           end.
Proof.
  intros Hget Hstatus Hsize Hnonzero Hopen Hiter Hshown.
  rewrite (download_reaches_loop self response size chunks broken)
    by done.
  set (self0 := started self size (<[path (super self) := ""]> (files self))).
  destruct (download_loop chunks self0 "" Hnonzero Hshown)
    as (lines & Hrun & Hlen).
  { unfold self0. simpl. by rewrite lookup_insert_eq. }
  change (path (super self0)) with (path (super self)) in Hrun.
  rewrite (action_seq_done _ _ _ _ Hrun).
  exists lines. destruct broken as [e|].
  - eexists. split; [reflexivity|].
    unfold receiving, self0, started. simpl.
    rewrite insert_insert_eq, <- app_assoc, app_nil_r, app_empty.
    by split_and!.
  - eexists. split; [reflexivity|].
    unfold receiving, self0, started. simpl.
    rewrite insert_insert_eq, <- !app_assoc, app_empty. by split_and!.
Qed.

(** X16: [bytesReceived] counts chunk sizes, not bytes.  Under the
    conditions of a download that writes its chunks, [bytesReceived]
    grows by the chunk size times the number of chunks, whatever the
    lengths of the chunks; the file holds the chunks, and when no chunk
    is longer than the chunk size it is no longer than what
    [bytesReceived] grew by. *)
Theorem download_counts_chunk_sizes (self : HttpFileDownloader) response size
    chunks broken :
  requests_get (url (super self)) = Done response →
  raise_for_status response = None →
  announced response (fileSize (super self)) size →
  size ≠ Some 0 →
  open_wb (path (super self)) = None →
  iter_content response (chunkSize self) = (chunks, broken) →
  (∀ i : nat, (0 < i ≤ length chunks)%nat →
     presentable (bytesReceived (super self) + chunkSize self * Z.of_nat i)
       size) →
  let self' := (download self).2 in
  bytesReceived (super self') - bytesReceived (super self)
  = chunkSize self * Z.of_nat (length chunks)
  ∧ files self' !! path (super self) = Some (joined chunks)
  ∧ (Forall (λ chunk, Z.of_nat (String.length chunk) ≤ chunkSize self)
       chunks →
     Z.of_nat (String.length (joined chunks))
     ≤ bytesReceived (super self') - bytesReceived (super self)).
Proof.
  intros Hget Hstatus Hsize Hnonzero Hopen Hiter Hshown.
  rewrite (download_reaches_loop self response size chunks broken)
    by done.
  set (self0 := started self size (<[path (super self) := ""]> (files self))).
  destruct (download_loop chunks self0 "" Hnonzero Hshown)
    as (lines & Hrun & Hlen).
  { unfold self0. simpl. by rewrite lookup_insert_eq. }
  change (path (super self0)) with (path (super self)) in Hrun.
  rewrite (action_seq_done _ _ _ _ Hrun).
  destruct broken as [e|]; unfold receiving, self0, started; simpl;
    rewrite lookup_insert_eq; (split_and!; [lia | done |]);
    intros Hchunks; pose proof (joined_length chunks _ Hchunks); lia.
Qed.

(** X17: a download that fails before the file is opened leaves the files
    alone.  When the request raises, the status is bad, the announced
    size is not an integer or the file cannot be opened, [download] raises
    that exception; no file is created or changed, nothing is counted as
    received, and the stream holds the start message and nothing after
    it. *)
Theorem download_fails_before_the_file (self : HttpFileDownloader) (e : error) :
  requests_get (url (super self)) = Failed e
  ∨ (∃ response,
       requests_get (url (super self)) = Done response
       ∧ (raise_for_status response = Some e
          ∨ raise_for_status response = None
            ∧ ((∃ text, content_length response = Some text
                        ∧ int text = Failed e)
               ∨ (∃ size,
                    announced response (fileSize (super self)) size
                    ∧ open_wb (path (super self)) = Some e)))) →
  ∃ self',
    download self = (Failed e, self')
    ∧ files self' = files self
    ∧ bytesReceived (super self') = bytesReceived (super self)
    ∧ displayCounter (super self') = displayCounter (super self)
    ∧ stream (super self')
      = stream (super self) ++ [Write (start_line self)].
Proof.
  intros Hfail. unfold utils.download.
  cbv [mbind action_bind inherited _printStartDownloadMessage stream_write
       update self_ call_ mret action_ret fail file_create set_fileSize].
  cbn [super url path chunkSize files fileSize].
  destruct Hfail as [Hget|(response & Hget & Hrest)]; rewrite Hget.
  { by eexists. }
  destruct Hrest as [Hstatus|[Hstatus Hrest]]; rewrite Hstatus.
  { by eexists. }
  cbn [super url path chunkSize files fileSize].
  destruct Hrest as [(text & Htext & Hint)|(size & Hsize & Hopen)].
  { rewrite Htext, Hint. by eexists. }
  destruct Hsize as [[Hnone ->]|(text & n & Htext & Hint & ->)].
  - rewrite Hnone, Hopen. by eexists.
  - rewrite Htext, Hint, Hopen. by eexists.
Qed.

(** X18: an announced size of 0.  When the header gives the size 0 and a
    chunk arrives all the same, [download] raises [ZeroDivisionError] at
    that chunk: the file has been created and is empty, one chunk size has
    been counted, and only the start message is on the stream. *)
Theorem download_divides_by_announced_zero (self : HttpFileDownloader)
    response chunk chunks broken :
  requests_get (url (super self)) = Done response →
  raise_for_status response = None →
  announced response (fileSize (super self)) (Some 0) →
  open_wb (path (super self)) = None →
  iter_content response (chunkSize self) = (chunk :: chunks, broken) →
  ∃ self',
    download self = (Failed ZeroDivisionError, self')
    ∧ files self' = <[path (super self) := ""]> (files self)
    ∧ bytesReceived (super self') = bytesReceived (super self) + chunkSize self
    ∧ stream (super self')
      = stream (super self) ++ [Write (start_line self)].
Proof.
  intros Hget Hstatus Hsize Hopen Hiter.
  rewrite (download_reaches_loop self response (Some 0) (chunk :: chunks)
             broken) by done.
  simpl for_each.
  cbv [mbind action_bind inherited self_ set_bytesReceived update].
  cbn [super url path chunkSize files fileSize started bytesReceived].
  rewrite (updateDisplay_size_zero 1); [|lia|by rewrite Z.mod_1_r|done].
  eexists. split; [reflexivity|]. simpl. by rewrite app_nil_r.
Qed.

End downloader.

(** ** The alignment file tool *)

Section alignment.

Import utils.

Context {Header AlignedSegment : Type}.
Context (AlignmentFile_read : string → string
                              → result (Header * list AlignedSegment)).
Context (AlignmentFile_write : string → string → Header → option error).
Context (pysam_index : string → option error).
Context (sys_maxint : Z).

Local Abbreviation world := (@world Header AlignedSegment).
Local Abbreviation xrange := (xrange sys_maxint).
Local Abbreviation effect := (@effect Header AlignedSegment).
Local Abbreviation indexes := (@indexes Header AlignedSegment).
Local Abbreviation convert :=
  (convert AlignmentFile_read AlignmentFile_write pysam_index sys_maxint).

(** The loop of [convert] over [lines] with enough segments left. *)
Lemma copy_loop (lines : list Z) (path : string) (w : world) :
  (length lines ≤ length (unread w))%nat →
  for_each lines (λ _, alignedSegment ← next;
                       does (WriteSegment path alignedSegment)) w
  = (Done tt,
     mkWorld (effects w
              ++ (WriteSegment path <$> take (length lines) (unread w)))
       (drop (length lines) (unread w))).
Proof.
  revert w. induction lines as [|i lines IH]; intros [done rest] Hle.
  - simpl. cbv [mret action_ret]. by rewrite app_nil_r.
  - destruct rest as [|segment rest]; [simpl in Hle; lia|].
    simpl in Hle. simpl for_each.
    cbv [mbind action_bind next does update]. cbn [unread effects].
    rewrite IH by (simpl; lia). cbn [unread effects length take drop fmap list_fmap].
    by rewrite <- app_assoc.
Qed.

(** The same loop with too few segments left. *)
Lemma copy_loop_short (lines : list Z) (path : string) (w : world) :
  (length (unread w) < length lines)%nat →
  for_each lines (λ _, alignedSegment ← next;
                       does (WriteSegment path alignedSegment)) w
  = (Failed StopIteration,
     mkWorld (effects w ++ (WriteSegment path <$> unread w)) []).
Proof.
  revert w. induction lines as [|i lines IH]; intros [done rest] Hlt.
  - simpl in Hlt. lia.
  - destruct rest as [|segment rest].
    + simpl. cbv [mbind action_bind next]. cbn [unread effects].
      by rewrite app_nil_r.
    + simpl in Hlt. simpl for_each.
      cbv [mbind action_bind next does update]. cbn [unread effects].
      rewrite IH by (simpl; lia). cbn [unread effects fmap list_fmap].
      by rewrite <- app_assoc.
Qed.

Lemma xrange_int (n : Z) :
  - sys_maxint - 1 ≤ n ≤ sys_maxint → xrange (Int n) = Done (seqZ 0 n).
Proof.
  intros [Hlo Hhi]. unfold utils.xrange.
  destruct (Z.leb_spec (- sys_maxint - 1) n); [|lia].
  destruct (Z.leb_spec n sys_maxint); [|lia]. done.
Qed.

(** [convert] up to its loop. *)
Lemma convert_reaches_loop (self : AlignmentFileTool) (a : Namespace)
    (flags flags' : string) (header : Header)
    (segments : list AlignedSegment) (w : world) :
  args self = Some a →
  inputFlags self = Some flags → outputFlags self = Some flags' →
  AlignmentFile_read (inputFile a) flags = Done (header, segments) →
  AlignmentFile_write (outputFile a) flags' header = None →
  convert self w
  = (lines ← call_ (xrange (numLines a));
     for_each lines (λ _,
       alignedSegment ← next;
       does (WriteSegment (outputFile a) alignedSegment)) ;;
     does (Close (inputFile a)) ;;
     does (Close (outputFile a)) ;;
     if negb (skipIndexing a)
        && bool_decide (outputFileFormat self = AlignmentFileConstants.BAM)
     then
       log ("Creating index file '"
            +:+ (outputFile a +:+ "." +:+ lower AlignmentFileConstants.BAI)
            +:+ "'") ;;
       match pysam_index (outputFile a) with
       | Some e => fail e
       | None => does (Index (outputFile a))
       end
     else mret tt)
      (mkWorld (effects w ++ opens a flags flags' header) segments).
Proof.
  intros Hargs Hin Hout Hread Hwrite.
  unfold utils.convert, getattr_args. rewrite Hargs, Hin, Hout.
  cbv [local]. 
  cbv [mbind action_bind mret action_ret call_ update does log].
  rewrite Hread, Hwrite. cbn [effects unread].
  unfold opens. rewrite <- !app_assoc. simpl app. reflexivity.
Qed.


(** What [convert] does after its loop. *)
Lemma convert_finishes (self : AlignmentFileTool) (a : Namespace) (w : world) :
  (does (Close (inputFile a)) ;;
   does (Close (outputFile a)) ;;
   if negb (skipIndexing a)
      && bool_decide (outputFileFormat self = AlignmentFileConstants.BAM)
   then
     log ("Creating index file '"
          +:+ (outputFile a +:+ "." +:+ lower AlignmentFileConstants.BAI)
          +:+ "'") ;;
     match pysam_index (outputFile a) with
     | Some e => fail e
     | None => does (Index (outputFile a))
     end
   else mret tt) w
  = match indexes self a, pysam_index (outputFile a) with
    | _ :: _, Some e =>
        (Failed e,
         mkWorld (effects w ++ [Close (inputFile a); Close (outputFile a)]
                  ++ take 1 (indexes self a)) (unread w))
    | _, _ =>
        (Done tt,
         mkWorld (effects w ++ [Close (inputFile a); Close (outputFile a)]
                  ++ indexes self a) (unread w))
    end.
Proof.
  unfold indexes.
  cbv [mbind action_bind mret action_ret does log update fail].
  cbn [effects unread].
  destruct (negb (skipIndexing a)
            && bool_decide (outputFileFormat self = AlignmentFileConstants.BAM)).
  - change ("." +:+ lower AlignmentFileConstants.BAI) with ".bai".
    rewrite (string_app_assoc (outputFile a) ".bai" "'").
    change (".bai" +:+ "'") with ".bai'".
    destruct (pysam_index (outputFile a)); cbn [effects unread take];
      by rewrite <- !app_assoc.
  - by rewrite <- !app_assoc.
Qed.

Lemma inputFlags_Some (self : AlignmentFileTool) (flags : string) :
  inputFlags self = Some flags →
  inputFileFormat self = AlignmentFileConstants.SAM
  ∨ inputFileFormat self = AlignmentFileConstants.BAM.
Proof.
  unfold inputFlags. repeat case_bool_decide; auto. discriminate.
Qed.

Lemma outputFlags_Some (self : AlignmentFileTool) (flags : string) :
  outputFlags self = Some flags →
  outputFileFormat self = AlignmentFileConstants.SAM
  ∨ outputFileFormat self = AlignmentFileConstants.BAM.
Proof.
  unfold outputFlags. repeat case_bool_decide; auto. discriminate.
Qed.

Lemma no_close_among_writes (path : string) (l : list AlignedSegment) :
  filter is_close (WriteSegment path <$> l : list effect) = [].
Proof.
  induction l as [|x l IH]; [done|].
  rewrite fmap_cons, filter_cons_False; [exact IH|]. by intros [].
Qed.

(** X19: what a conversion does.  With arguments set, both formats among
    [SAM] and [BAM], an input file that opens and holds at least
    [numLines] segments, and an output file that opens, [convert] returns:
    it has opened the input with [r] or [rb] and the output with [wh] or
    [wb] and the header of the input, written the first [numLines]
    segments in order (none for a negative number), closed both files,
    and built the index when the output is [BAM] and indexing is not
    skipped. *)
Theorem convert_copies_the_first_lines (self : AlignmentFileTool)
    (a : Namespace) (flags flags' : string) (header : Header)
    (segments : list AlignedSegment) (n : Z) (w : world) :
  args self = Some a →
  inputFlags self = Some flags → outputFlags self = Some flags' →
  AlignmentFile_read (inputFile a) flags = Done (header, segments) →
  AlignmentFile_write (outputFile a) flags' header = None →
  numLines a = Int n → - sys_maxint - 1 ≤ n ≤ sys_maxint →
  n ≤ Z.of_nat (length segments) →
  (indexes self a ≠ [] → pysam_index (outputFile a) = None) →
  convert self w
  = (Done tt,
     mkWorld (effects w ++ opens a flags flags' header
              ++ (WriteSegment (outputFile a) <$> take (Z.to_nat n) segments)
              ++ [Close (inputFile a); Close (outputFile a)]
              ++ indexes self a)
       (drop (Z.to_nat n) segments)).
Proof.
  intros Hargs Hin Hout Hread Hwrite Hnum Hrange Hle Hindex.
  rewrite (convert_reaches_loop self a flags flags' header segments)
    by done.
  rewrite Hnum, xrange_int by done.
  erewrite action_bind_done by reflexivity.
  erewrite action_seq_done.
  2:{ apply copy_loop. rewrite length_seqZ. cbn [unread]. lia. }
  rewrite convert_finishes, length_seqZ. cbn [effects unread].
  rewrite <- !app_assoc.
  destruct (indexes self a) as [|i rest] eqn:Hi; [done|].
  by rewrite Hindex.
Qed.

(** X20: a conversion that runs out of input, or whose [numLines] is a
    string, raises with both files left open.  When the input holds fewer
    than [numLines] segments, [convert] writes them all and raises
    [StopIteration]; when [numLines] is a string, it raises [TypeError]
    after the output file has been opened.  In both cases nothing is
    closed and no index is built. *)
Theorem convert_leaves_files_open (self : AlignmentFileTool)
    (a : Namespace) (flags flags' : string) (header : Header)
    (segments : list AlignedSegment) (w : world) :
  args self = Some a →
  inputFlags self = Some flags → outputFlags self = Some flags' →
  AlignmentFile_read (inputFile a) flags = Done (header, segments) →
  AlignmentFile_write (outputFile a) flags' header = None →
  (∀ n, numLines a = Int n →
     Z.of_nat (length segments) < n ≤ sys_maxint →
     convert self w
     = (Failed StopIteration,
        mkWorld (effects w ++ opens a flags flags' header
                 ++ (WriteSegment (outputFile a) <$> segments)) []))
  ∧ (∀ s, numLines a = Str s →
       convert self w
       = (Failed TypeError,
          mkWorld (effects w ++ opens a flags flags' header) segments)).
Proof.
  intros Hargs Hin Hout Hread Hwrite.
  rewrite (convert_reaches_loop self a flags flags' header segments)
    by done.
  split.
  - intros n -> [Hlt Hmax]. rewrite xrange_int by lia.
    erewrite action_bind_done by reflexivity.
    erewrite action_bind_failed.
    2:{ apply copy_loop_short. rewrite length_seqZ. cbn [unread]. lia. }
    cbn [effects unread]. by rewrite <- !app_assoc.
  - intros s ->. reflexivity.
Qed.

(** What [convert] does before its loop when it does not reach it. *)
Lemma convert_stops_early (self : AlignmentFileTool) (w : world) :
  (∃ a flags flags' header segments,
     args self = Some a
     ∧ inputFlags self = Some flags ∧ outputFlags self = Some flags'
     ∧ AlignmentFile_read (inputFile a) flags = Done (header, segments)
     ∧ AlignmentFile_write (outputFile a) flags' header = None)
  ∨ (∃ e w', convert self w = (Failed e, w')
             ∧ (effects w' = effects w
                ∨ ∃ a flags, effects w'
                             = effects w ++ [OpenRead (inputFile a) flags])).
Proof.
  destruct (args self) as [a|] eqn:Hargs.
  2:{ right. exists AttributeError, w. split; [|by left].
      unfold utils.convert, getattr_args. by rewrite Hargs. }
  destruct (inputFlags self) as [flags|] eqn:Hin.
  2:{ right. exists (UnboundLocalError "inputFlags"), w. split; [|by left].
      unfold utils.convert, getattr_args. by rewrite Hargs, Hin. }
  destruct (AlignmentFile_read (inputFile a) flags) as [[header segments]|e]
    eqn:Hread.
  2:{ right. exists e, w. split; [|by left].
      unfold utils.convert, getattr_args. rewrite Hargs, Hin.
      cbv [local mbind action_bind mret action_ret call_]. by rewrite Hread. }
  destruct (outputFlags self) as [flags'|] eqn:Hout.
  2:{ right. exists (UnboundLocalError "outputFlags"),
        (mkWorld (effects w ++ [OpenRead (inputFile a) flags]) segments).
      split; [|right; by exists a, flags].
      unfold utils.convert, getattr_args. rewrite Hargs, Hin, Hout.
      cbv [local mbind action_bind mret action_ret call_ update fail].
      by rewrite Hread. }
  destruct (AlignmentFile_write (outputFile a) flags' header) as [e|]
    eqn:Hwrite.
  { right. exists e,
      (mkWorld (effects w ++ [OpenRead (inputFile a) flags]) segments).
    split; [|right; by exists a, flags].
    unfold utils.convert, getattr_args. rewrite Hargs, Hin, Hout.
    cbv [local mbind action_bind mret action_ret call_ update fail].
    by rewrite Hread, Hwrite. }
  left. by exists a, flags, flags', header, segments.
Qed.

(** X21: [convert] returns only for formats it knows.  A conversion that
    returns had its arguments set, an input and an output format among
    [SAM] and [BAM], an integer [numLines] and at least that many segments
    in the input; it has closed the input file and then the output file,
    each once. *)
Theorem convert_returns_only_if (self : AlignmentFileTool) (w w' : world) :
  convert self w = (Done tt, w') →
  (inputFileFormat self = AlignmentFileConstants.SAM
   ∨ inputFileFormat self = AlignmentFileConstants.BAM)
  ∧ (outputFileFormat self = AlignmentFileConstants.SAM
     ∨ outputFileFormat self = AlignmentFileConstants.BAM)
  ∧ ∃ a n flags header segments,
      args self = Some a ∧ numLines a = Int n
      ∧ AlignmentFile_read (inputFile a) flags = Done (header, segments)
      ∧ n ≤ Z.of_nat (length segments)
      ∧ unread w' = drop (Z.to_nat n) segments
      ∧ filter is_close (drop (length (effects w)) (effects w'))
        = [Close (inputFile a); Close (outputFile a)].
Proof.
  intros Hrun.
  destruct (convert_stops_early self w)
    as [(a & flags & flags' & header & segments & Hargs & Hin & Hout
         & Hread & Hwrite)|(e & w0 & Hfail & _)];
    [|rewrite Hfail in Hrun; discriminate].
  split; [by eapply inputFlags_Some|]. split; [by eapply outputFlags_Some|].
  rewrite (convert_reaches_loop self a flags flags' header segments)
    in Hrun by done.
  destruct (numLines a) as [n|s] eqn:Hnum; [|discriminate].
  unfold utils.xrange in Hrun.
  destruct ((- sys_maxint - 1 <=? n) && (n <=? sys_maxint)) eqn:Hrange;
    [|discriminate].
  erewrite action_bind_done in Hrun by reflexivity.
  destruct (Z.le_gt_cases n (Z.of_nat (length segments))) as [Hle|Hgt].
  2:{ erewrite action_bind_failed in Hrun; [discriminate|].
      apply copy_loop_short. rewrite length_seqZ. cbn [unread]. lia. }
  erewrite action_seq_done in Hrun.
  2:{ apply copy_loop. rewrite length_seqZ. cbn [unread]. lia. }
  rewrite convert_finishes, length_seqZ in Hrun. cbn [effects unread] in Hrun.
  exists a, n, flags, header, segments. split_and!; try done.
  - destruct (indexes self a) as [|i rest], (pysam_index (outputFile a));
      by inversion Hrun.
  - assert (effects w'
            = effects w ++ opens a flags flags' header
              ++ (WriteSegment (outputFile a) <$> take (Z.to_nat n) segments)
              ++ [Close (inputFile a); Close (outputFile a)]
              ++ indexes self a) as ->.
    { destruct (indexes self a) as [|i rest], (pysam_index (outputFile a));
        inversion Hrun; cbn [effects]; by rewrite <- !app_assoc. }
    rewrite drop_app_length. unfold opens, indexes.
    rewrite !filter_app.
    rewrite no_close_among_writes.
    by destruct (negb (skipIndexing a)
                 && bool_decide (outputFileFormat self
                                 = AlignmentFileConstants.BAM)).
Qed.

(** X22: [convert] closes its files only at its end.  A conversion that
    raises has closed no file, unless the exception is that of
    [pysam.index] on a [BAM] output whose indexing is not skipped. *)
Theorem convert_raises_with_files_open (self : AlignmentFileTool)
    (w w' : world) (e : error) :
  convert self w = (Failed e, w') →
  filter is_close (drop (length (effects w)) (effects w')) = []
  ∨ ∃ a, args self = Some a ∧ skipIndexing a = false
         ∧ outputFileFormat self = AlignmentFileConstants.BAM
         ∧ pysam_index (outputFile a) = Some e.
Proof.
  intros Hrun.
  destruct (convert_stops_early self w)
    as [(a & flags & flags' & header & segments & Hargs & Hin & Hout
         & Hread & Hwrite)|(e0 & w0 & Hfail & Heffects)].
  2:{ left. rewrite Hfail in Hrun. inversion Hrun; subst e0 w0.
      destruct Heffects as [->|(a & flags & ->)].
      - by rewrite drop_all.
      - by rewrite drop_app_length. }
  rewrite (convert_reaches_loop self a flags flags' header segments)
    in Hrun by done.
  destruct (numLines a) as [n|s] eqn:Hnum.
  2:{ left. inversion Hrun. cbn [effects].
      by rewrite drop_app_length. }
  unfold utils.xrange in Hrun.
  destruct ((- sys_maxint - 1 <=? n) && (n <=? sys_maxint)) eqn:Hrange.
  2:{ left. inversion Hrun. cbn [effects].
      by rewrite drop_app_length. }
  erewrite action_bind_done in Hrun by reflexivity.
  destruct (Z.le_gt_cases n (Z.of_nat (length segments))) as [Hle|Hgt].
  2:{ left. erewrite action_bind_failed in Hrun.
      2:{ apply copy_loop_short. rewrite length_seqZ. cbn [unread]. lia. }
      inversion Hrun. cbn [effects].
      rewrite <- app_assoc, drop_app_length, filter_app.
      by rewrite no_close_among_writes. }
  erewrite action_seq_done in Hrun.
  2:{ apply copy_loop. rewrite length_seqZ. cbn [unread]. lia. }
  rewrite convert_finishes in Hrun.
  right. exists a. split; [done|].
  unfold utils.indexes in Hrun.
  destruct (skipIndexing a); [discriminate|].
  case_bool_decide as Hbam; [|discriminate].
  cbn [negb andb] in Hrun.
  destruct (pysam_index (outputFile a)) as [e0|]; [|discriminate].
  by inversion Hrun.
Qed.

End alignment.

(** ** The further properties on the concrete instance *)

Lemma lookups_return_latest_witness :
  built sample.twice (sample.after sample.twice)
  ∧ getVariantSet "ds:vs1" (sample.after sample.twice)
    = (Returns sample.vs1', sample.after sample.twice)
  ∧ getVariantSet "ds:vs2" (sample.after sample.twice)
    = (Raises (VariantSetNotFoundException "ds:vs2"),
       sample.after sample.twice).
Proof.
  split; [apply built_after|]. split.
  - exact (proj1 (lookups_return_latest sample.twice
                    (sample.after sample.twice) "ds:vs1"
                    (built_after sample.twice))).
  - exact (proj1 (lookups_return_latest sample.twice
                    (sample.after sample.twice) "ds:vs2"
                    (built_after sample.twice))).
Defined.

Lemma id_lists_and_maps_in_step_witness :
  built sample.mixed (sample.after sample.mixed)
  ∧ dom (_variantSetIdMap (sample.after sample.mixed))
    = list_to_set (_variantSetIds (sample.after sample.mixed)).
Proof.
  split; [apply built_after|].
  exact (proj1 (id_lists_and_maps_in_step sample.mixed
                  (sample.after sample.mixed) (built_after sample.mixed))).
Defined.

Lemma counts_count_calls_witness :
  built sample.twice (sample.after sample.twice)
  ∧ getNumVariantSets (sample.after sample.twice)
    = (Returns 2, sample.after sample.twice)
  ∧ (size (_variantSetIdMap (sample.after sample.twice)) ≤ 2)%nat.
Proof.
  split; [apply built_after|].
  pose proof (counts_count_calls sample.twice (sample.after sample.twice)
                (built_after sample.twice)) as (Hn & _ & _ & _ & Hle & _).
  split; [exact Hn | exact Hle].
Defined.

Lemma loaded_dataset_has_four_directories_witness :
  FileSystemDataset sample.fs "ds" "data" tt
  = (Returns tt, (FileSystemDataset sample.fs "ds" "data" tt).2)
  ∧ isdir sample.fs (os_path.join "data" "variants") = true
  ∧ isdir sample.fs (os_path.join "data" "reads") = true
  ∧ isdir sample.fs (os_path.join "data" "rnaQuant") = true
  ∧ isdir sample.fs (os_path.join "data" "sequenceAnnotations") = true.
Proof.
  assert (H : FileSystemDataset sample.fs "ds" "data" tt
              = (Returns tt, (FileSystemDataset sample.fs "ds" "data" tt).2))
    by (vm_compute; reflexivity).
  split; [exact H|].
  exact (loaded_dataset_has_four_directories sample.fs "ds" "data" tt _ H).
Defined.

Lemma load_returns_when_constructors_do_witness :
  ∃ d : sample.dataset,
    FileSystemDataset sample.fs "ds" "data" tt = (Returns tt, d)
    ∧ length (_variantSetIds d) = 1%nat
    ∧ length (_readGroupSetIds d) = 2%nat
    ∧ length (_rnaQuantificationIds d) = 0%nat
    ∧ length (_sequenceAnnotationIds d) = 2%nat.
Proof.
  destruct (load_returns_when_constructors_do sample.fs "ds" "data" tt
              ["vs1"; "README"] ["rg1.bam"; "notes.txt"; "rg2.bam"] []
              ["genes.gff"; "more"])
    as (d & Hrun & Hv & Hr & Hq & Ha); try reflexivity.
  - right. exists [("description", JString "demo")], (JString "demo").
    split; reflexivity.
  - intros self x Hin _.
    apply (sample_open_returns self ["vs1"; "README"] (λ x, x)
             (λ x, os_path.join (os_path.join "data" "variants") x));
      [|exact Hin].
    repeat constructor; discriminate.
  - intros self x Hin _.
    apply (sample_open_returns self ["rg1.bam"; "notes.txt"; "rg2.bam"]
             (λ x, (os_path.splitext x).1)
             (λ x, os_path.join (os_path.join "data" "reads") x));
      [|exact Hin].
    repeat constructor; vm_compute; discriminate.
  - intros self x Hin. apply elem_of_nil in Hin. destruct Hin.
  - intros self x Hin.
    apply (sample_open_returns self ["genes.gff"; "more"] (λ x, x)
             (λ x, os_path.join (os_path.join "data" "sequenceAnnotations") x));
      [|exact Hin].
    repeat constructor; discriminate.
  - exists d. split; [exact Hrun|].
    rewrite Hv, Hr, Hq, Ha. by vm_compute.
Defined.

Lemma sidecar_must_be_an_object_witness :
  sample.listed !! ("data" +:+ ".json") = Some (File (Returns (JList [])))
  ∧ FileSystemDataset sample.listed "ds" "data" tt
    = (Raises TypeError, sample.empty).
Proof.
  split; [reflexivity|].
  refine (proj1 (proj2 (sidecar_must_be_an_object sample.listed "ds" "data" tt
                          (Returns (JList [])) eq_refl))
            (JList []) eq_refl _).
  intros items. discriminate.
Defined.

Lemma simulated_read_group_sets_by_name_witness :
  let d : sample.dataset := (SimulatedDataset "ds" tt 5 2 1 tt 2 1 1 1).2 in
  (∃ self : sample.dataset,
     _localId self = "ds"
     ∧ getReadGroupSetByName "simRgs1" d
       = (Returns (reads_SimulatedReadGroupSet self "simRgs1" tt 6 1 1), d))
  ∧ getReadGroupSetByName "simRgs2" d
    = (Raises (ReadGroupSetNameNotFoundException "simRgs2"), d).
Proof.
  intros d.
  pose proof (simulated_read_group_sets_by_name "ds" tt 5 2 1 tt 2 1 1 1
                (λ _ _ _ _ _ _, eq_refl)) as [Hfound Hmissing].
  split.
  - exact (Hfound 1%nat eq_refl).
  - apply Hmissing. intros [|[|i]] Hi; [discriminate..|lia].
Defined.

Lemma bam_local_ids_coincide_witness :
  fnmatch.fnmatch ".bam.bam" "*.bam" = true
  ∧ fnmatch.fnmatch ".bam" "*.bam" = true
  ∧ (os_path.splitext ".bam.bam").1 = (os_path.splitext ".bam").1
  ∧ (".bam.bam" = ".bam" ∨ ".bam.bam" = ".bam" +:+ ".bam"
     ∨ ".bam" = ".bam.bam" +:+ ".bam").
Proof.
  split; [reflexivity|]. split; [reflexivity|]. split; [reflexivity|].
  exact (bam_local_ids_coincide ".bam.bam" ".bam" eq_refl eq_refl eq_refl
           eq_refl eq_refl).
Defined.

Lemma updateDisplay_every_modulo_witness :
  ∃ lines,
    utils.for_each (replicate 7 tt)
      (λ _, utils._updateDisplay sample.naturalsize sample.truediv
              sample.one_lt sample.format_percentage 3)
      (utils.super sample.downloader)
    = (utils.Done tt,
       utils.displayed (utils.super sample.downloader) (utils.shows lines)
         (utils.displayCounter (utils.super sample.downloader) + Z.of_nat 7))
    ∧ length lines = 2%nat.
Proof.
  destruct (updateDisplay_every_modulo sample.naturalsize sample.truediv
              sample.one_lt sample.format_percentage 3 7
              (utils.super sample.downloader))
    as (lines & Hrun & Hlen);
    [reflexivity | discriminate | by exists "0 Bytes" |].
  exists lines. split; [exact Hrun|].
  apply Nat2Z.inj. rewrite Hlen. reflexivity.
Defined.

Lemma updateDisplay_divides_witness :
  utils._updateDisplay sample.naturalsize sample.truediv sample.one_lt
    sample.format_percentage 0 (utils.super sample.downloader)
  = (utils.Failed utils.ZeroDivisionError,
     utils.displayed (utils.super sample.downloader) []
       (utils.displayCounter (utils.super sample.downloader) + 1)).
Proof.
  exact (proj1 (updateDisplay_divides sample.naturalsize sample.truediv
                  sample.one_lt sample.format_percentage 0
                  (utils.super sample.downloader))
           eq_refl).
Defined.

Lemma sample_announced :
  utils.announced sample.int sample.response
    (utils.fileSize (utils.super sample.downloader)) (Some 6).
Proof. right. exists "6", 6. by split_and!. Qed.

Lemma sample_presentable (i : nat) :
  (0 < i ≤ 2)%nat →
  utils.presentable sample.naturalsize sample.truediv
    (utils.bytesReceived (utils.super sample.downloader)
     + utils.chunkSize sample.downloader * Z.of_nat i) (Some 6).
Proof.
  intros Hi. destruct i as [|[|[|i]]]; [lia| | |lia].
  - split_and!; [by exists (4, 6) | by exists "4 Bytes" | by exists "6 Bytes"].
  - split_and!; [by exists (8, 6) | by exists "6 Bytes" | by exists "6 Bytes"].
Qed.

Lemma download_writes_the_chunks_witness :
  ∃ (lines : list string) self',
    utils.download sample.naturalsize sample.truediv sample.one_lt
      sample.format_percentage sample.requests_get sample.int sample.open_wb
      sample.downloader
    = (utils.Done tt, self')
    ∧ utils.files self' = <["six.txt" := "abcdef"]> ∅
    ∧ utils.bytesReceived (utils.super self') = 8
    ∧ length lines = 2%nat.
Proof.
  destruct (download_writes_the_chunks sample.naturalsize sample.truediv
              sample.one_lt sample.format_percentage sample.requests_get
              sample.int sample.open_wb sample.downloader sample.response
              (Some 6) ["abcd"; "ef"] None eq_refl eq_refl sample_announced
              ltac:(discriminate) eq_refl eq_refl sample_presentable)
    as (lines & self' & Hrun & Hfiles & Hbytes & _ & _ & Hlen & _).
  exists lines, self'. split; [exact Hrun|]. split; [exact Hfiles|].
  split; [exact Hbytes | exact Hlen].
Defined.

Lemma download_counts_chunk_sizes_witness :
  let self' :=
    (utils.download sample.naturalsize sample.truediv sample.one_lt
       sample.format_percentage sample.requests_get sample.int sample.open_wb
       sample.downloader).2 in
  utils.bytesReceived (utils.super self') - 0 = 4 * Z.of_nat 2
  ∧ utils.files self' !! "six.txt" = Some "abcdef"
  ∧ Z.of_nat (String.length "abcdef")
    ≤ utils.bytesReceived (utils.super self') - 0.
Proof.
  intros self'.
  destruct (download_counts_chunk_sizes sample.naturalsize sample.truediv
              sample.one_lt sample.format_percentage sample.requests_get
              sample.int sample.open_wb sample.downloader sample.response
              (Some 6) ["abcd"; "ef"] None eq_refl eq_refl sample_announced
              ltac:(discriminate) eq_refl eq_refl sample_presentable)
    as (Hgrowth & Hfile & Hlength).
  split; [exact Hgrowth|]. split; [exact Hfile|].
  apply Hlength. repeat constructor; vm_compute; discriminate.
Defined.

Lemma download_fails_before_the_file_witness :
  ∃ self',
    utils.download sample.naturalsize sample.truediv sample.one_lt
      sample.format_percentage sample.requests_get sample.int sample.open_wb
      sample.unreachable
    = (utils.Failed (utils.RequestException "http://host/none"), self')
    ∧ utils.files self' = ∅.
Proof.
  destruct (download_fails_before_the_file sample.naturalsize
              sample.truediv sample.one_lt sample.format_percentage
              sample.requests_get sample.int sample.open_wb sample.unreachable
              (utils.RequestException "http://host/none")
              (or_introl eq_refl))
    as (self' & Hrun & Hfiles & _).
  exists self'. split; [exact Hrun | exact Hfiles].
Defined.

Lemma download_divides_by_announced_zero_witness :
  ∃ self',
    utils.download sample.naturalsize sample.truediv sample.one_lt
      sample.format_percentage sample.requests_get sample.int sample.open_wb
      sample.misled
    = (utils.Failed utils.ZeroDivisionError, self')
    ∧ utils.files self' = <["zero.txt" := ""]> ∅
    ∧ utils.bytesReceived (utils.super self') = 0 + 4.
Proof.
  destruct (download_divides_by_announced_zero sample.naturalsize
              sample.truediv sample.one_lt sample.format_percentage
              sample.requests_get sample.int sample.open_wb sample.misled
              sample.misleading
              "x" [] None eq_refl eq_refl)
    as (self' & Hrun & Hfiles & Hbytes & _); [|reflexivity|reflexivity|].
  { right. exists "0", 0. by split_and!. }
  exists self'. split; [exact Hrun|]. split; [exact Hfiles | exact Hbytes].
Defined.

Lemma convert_copies_the_first_lines_witness :
  utils.convert sample.AlignmentFile_read sample.AlignmentFile_write
    sample.pysam_index sample.sys_maxint (sample.tool (utils.Int 2))
    sample.untouched
  = (utils.Done tt,
     utils.mkWorld
       [ utils.OpenRead "in.sam" "r";
         utils.OpenWrite "out.bam" "wb" "@HD";
         utils.Print "Creating alignment file 'out.bam'";
         utils.WriteSegment "out.bam" "r1";
         utils.WriteSegment "out.bam" "r2";
         utils.Close "in.sam";
         utils.Close "out.bam";
         utils.Print "Creating index file 'out.bam.bai'";
         utils.Index "out.bam" ]
       ["r3"]).
Proof.
  refine (convert_copies_the_first_lines sample.AlignmentFile_read
            sample.AlignmentFile_write sample.pysam_index sample.sys_maxint
            (sample.tool (utils.Int 2)) (sample.arguments (utils.Int 2))
            "r" "wb" "@HD" ["r1"; "r2"; "r3"] 2 sample.untouched
            eq_refl eq_refl eq_refl eq_refl eq_refl eq_refl _ _
            (λ _, eq_refl)).
  - unfold sample.sys_maxint. lia.
  - simpl. lia.
Defined.

Lemma convert_leaves_files_open_witness :
  utils.convert sample.AlignmentFile_read sample.AlignmentFile_write
    sample.pysam_index sample.sys_maxint (sample.tool (utils.Int 10))
    sample.untouched
  = (utils.Failed utils.StopIteration,
     utils.mkWorld
       [ utils.OpenRead "in.sam" "r";
         utils.OpenWrite "out.bam" "wb" "@HD";
         utils.Print "Creating alignment file 'out.bam'";
         utils.WriteSegment "out.bam" "r1";
         utils.WriteSegment "out.bam" "r2";
         utils.WriteSegment "out.bam" "r3" ]
       []).
Proof.
  refine (proj1 (convert_leaves_files_open sample.AlignmentFile_read
                   sample.AlignmentFile_write sample.pysam_index
                   sample.sys_maxint
                   (sample.tool (utils.Int 10))
                   (sample.arguments (utils.Int 10))
                   "r" "wb" "@HD" ["r1"; "r2"; "r3"] sample.untouched
                   eq_refl eq_refl eq_refl eq_refl eq_refl)
            10 eq_refl _).
  unfold sample.sys_maxint. simpl. lia.
Defined.

Lemma convert_returns_only_if_witness :
  let w' :=
    (utils.convert sample.AlignmentFile_read sample.AlignmentFile_write
       sample.pysam_index sample.sys_maxint (sample.tool (utils.Int 2))
       sample.untouched).2 in
  utils.convert sample.AlignmentFile_read sample.AlignmentFile_write
    sample.pysam_index sample.sys_maxint (sample.tool (utils.Int 2))
    sample.untouched
  = (utils.Done tt, w')
  ∧ (utils.inputFileFormat (sample.tool (utils.Int 2)) = "SAM"
     ∨ utils.inputFileFormat (sample.tool (utils.Int 2)) = "BAM")
  ∧ (utils.outputFileFormat (sample.tool (utils.Int 2)) = "SAM"
     ∨ utils.outputFileFormat (sample.tool (utils.Int 2)) = "BAM").
Proof.
  intros w'.
  assert (Hrun : utils.convert sample.AlignmentFile_read
                   sample.AlignmentFile_write sample.pysam_index
                   sample.sys_maxint (sample.tool (utils.Int 2))
                   sample.untouched
                 = (utils.Done tt, w')) by (vm_compute; reflexivity).
  split; [exact Hrun|].
  destruct (convert_returns_only_if sample.AlignmentFile_read
              sample.AlignmentFile_write sample.pysam_index sample.sys_maxint
              (sample.tool (utils.Int 2)) sample.untouched w' Hrun)
    as (Hin & Hout & _).
  split; [exact Hin | exact Hout].
Defined.

Lemma convert_raises_with_files_open_witness :
  let w' :=
    (utils.convert sample.AlignmentFile_read sample.AlignmentFile_write
       sample.pysam_index sample.sys_maxint (sample.tool (utils.Str "2"))
       sample.untouched).2 in
  utils.convert sample.AlignmentFile_read sample.AlignmentFile_write
    sample.pysam_index sample.sys_maxint (sample.tool (utils.Str "2"))
    sample.untouched
  = (utils.Failed utils.TypeError, w')
  ∧ filter utils.is_close
      (drop (length (utils.effects sample.untouched)) (utils.effects w'))
    = [].
Proof.
  intros w'.
  assert (Hrun : utils.convert sample.AlignmentFile_read
                   sample.AlignmentFile_write sample.pysam_index
                   sample.sys_maxint (sample.tool (utils.Str "2"))
                   sample.untouched
                 = (utils.Failed utils.TypeError, w'))
    by (vm_compute; reflexivity).
  split; [exact Hrun|].
  destruct (convert_raises_with_files_open sample.AlignmentFile_read
              sample.AlignmentFile_write sample.pysam_index sample.sys_maxint
              (sample.tool (utils.Str "2")) sample.untouched w' _ Hrun)
    as [Hnone|(a & _ & _ & _ & Hindex)]; [exact Hnone | discriminate].
Defined.
